(** * pointeuse: a personal working-time tracker

    Shallow embedding of [temps.py] (the accounting engine: [Entry], the
    clock helpers, [run] with its three actions, [minutes_to_hr], the
    script entry point) and of [notify.py] (the notification tool),
    followed by the properties of the specification that were checked
    against them.

    Conventions.
    - Python integers are [Z]; [//] and [%] are [Z.div] and [Z.modulo]
      (both floor towards minus infinity for a positive divisor).
    - Python [str] is [string]; the comparison of two [str] is the
      lexicographic order of [String.compare].
    - [float] is the primitive binary64 type of the kernel.
    - Exceptions are the constructors of [exn]; a computation that can
      raise returns an [outcome].
    - The wall clock, the standard output, the files, the notifications
      sent and the [Entry] objects mutated in place live in a [World]
      threaded by the monad [M]. *)

From Stdlib Require Import ZArith String Ascii List Bool Lia QArith.
From Stdlib Require Import PrimFloat FloatOps SpecFloat DecimalString.
Import ListNotations.
Local Open Scope string_scope.
Local Open Scope Z_scope.

(** ** Exceptions and outcomes *)

Inductive exn : Set :=
| ValueError | IndexError | KeyError | NameError | AssertionError
| OverflowError | ZeroDivisionError | FileNotFoundError | AttributeError.

Inductive outcome (A : Type) : Type :=
| Ok (a : A)
| Raise (e : exn).
Arguments Ok {A} a.
Arguments Raise {A} e.

Definition obind {A B} (m : outcome A) (f : A -> outcome B) : outcome B :=
  match m with
  | Ok a => f a
  | Raise e => Raise e
  end.

Declare Scope outcome_scope.
Delimit Scope outcome_scope with outcome.
Notation "'let?' x ':=' m 'in' k" := (obind m (fun x => k))
  (at level 10, x name, m at level 100, k at level 200) : outcome_scope.

(** ** The [datetime] values the program manipulates *)

Module Datetime.

Record date : Set := mkdate { year : Z; month : Z; day : Z }.
Record time : Set := mktime { hour : Z; minute : Z }.

(** What [datetime.datetime.now()] exposes to the program: the fields that
    [strftime] and [datetime.time(hour=..., minute=...)] read. *)
Record datetime : Set := mkdatetime { dt_date : date; dt_time : time }.

Definition is_leap (y : Z) : bool :=
  (y mod 4 =? 0) && (negb (y mod 100 =? 0) || (y mod 400 =? 0)).

Definition days_in_month (y m : Z) : Z :=
  if m =? 2 then (if is_leap y then 29 else 28)
  else if (m =? 4) || (m =? 6) || (m =? 9) || (m =? 11) then 30
  else 31.

Definition valid_date (d : date) : bool :=
  (1 <=? year d) && (year d <=? 9999) && (1 <=? month d) && (month d <=? 12)
  && (1 <=? day d) && (day d <=? days_in_month (year d) (month d)).

Definition valid_time (t : time) : bool :=
  (0 <=? hour t) && (hour t <? 24) && (0 <=? minute t) && (minute t <? 60).

Definition valid_datetime (n : datetime) : bool :=
  valid_date (dt_date n) && valid_time (dt_time n).

(** [datetime.date(y, m, d)]: the constructor validates its arguments. *)
Definition datetime_date (y m d : Z) : outcome date :=
  if valid_date (mkdate y m d) then Ok (mkdate y m d) else Raise ValueError.

(** [datetime.time(h, m)]: hour in 0..23, minute in 0..59, or [ValueError]. *)
Definition datetime_time (h m : Z) : outcome time :=
  if valid_time (mktime h m) then Ok (mktime h m) else Raise ValueError.

(** [date.toordinal()], used by the subtraction of two dates. *)
Definition days_before_year (y : Z) : Z :=
  let p := y - 1 in p * 365 + p / 4 - p / 100 + p / 400.

Definition days_before_month (y m : Z) : Z :=
  fold_right Z.add 0
    (map (days_in_month y) (map Z.of_nat (seq 1 (Z.to_nat (m - 1))))).

Definition toordinal (d : date) : Z :=
  days_before_year (year d) + days_before_month (year d) (month d) + day d.

(** [a - b] on dates: a [timedelta], here its number of days. *)
Definition date_sub (a b : date) : Z := toordinal a - toordinal b.

End Datetime.
Import Datetime.

(** ** Text: formatting *)

Definition digit (n : Z) : ascii := ascii_of_N (48 + Z.to_N n).

(** A field of [strftime] padded to two digits ([%y], [%m], [%d], [%H],
    [%M]); the values formatted are below 100. *)
Definition two_digits (n : Z) : string :=
  String (digit (n / 10)) (String (digit (n mod 10)) EmptyString).

(** [str(n)] for an integer. *)
Definition str_int (n : Z) : string := NilZero.string_of_int (Z.to_int n).

(** ["{:02d}".format(n)]: at least two characters, the sign included, the
    padding made of zeros. *)
Definition format_02d (n : Z) : string :=
  if (0 <=? n) && (n <? 10) then "0" ++ str_int n else str_int n.

(** [strftime("%y/%m/%d")] *)
Definition strftime_ymd (d : date) : string :=
  two_digits (year d mod 100) ++ "/" ++ two_digits (month d) ++ "/"
  ++ two_digits (day d).

(** [strftime("%Hh%M")] *)
Definition strftime_HhM (t : time) : string :=
  two_digits (hour t) ++ "h" ++ two_digits (minute t).

(** [str(timedelta(days=n))] *)
Definition str_timedelta (days : Z) : string :=
  if days =? 0 then "0:00:00"
  else str_int days ++ " day" ++ (if Z.abs days =? 1 then "" else "s")
       ++ ", 0:00:00".

(** ** Text: [strptime]

    [datetime.strptime] turns its format into a regular expression, matches
    it at the start of the text (with backtracking over the alternatives of
    each directive, in their order, letters compared without case) and
    rejects the text when the match does not reach its end.  The digits
    recognised here are the ASCII ones.  A matcher
    returns its candidate matches in the order the regular expression
    engine tries them, each with the value read and the text left. *)

Module Strptime.

Definition matcher (A : Type) : Type := string -> list (A * string).

Definition is_digit (c : ascii) : bool :=
  let n := Z.of_N (N_of_ascii c) in (48 <=? n) && (n <=? 57).

Definition digit_val (c : ascii) : Z := Z.of_N (N_of_ascii c) - 48.

(** the class [[lo-hi]] of decimal digits *)
Definition in_class (lo hi : Z) (c : ascii) : bool :=
  is_digit c && (lo <=? digit_val c) && (digit_val c <=? hi).

(** two characters, the first in [[a-b]], the second in [[c-d]] *)
Definition two (a b c d : Z) : matcher Z := fun s =>
  match s with
  | String x (String y r) =>
      if in_class a b x && in_class c d y
      then [(10 * digit_val x + digit_val y, r)] else []
  | _ => []
  end.

(** one character in [[a-b]] *)
Definition one (a b : Z) : matcher Z := fun s =>
  match s with
  | String x r => if in_class a b x then [(digit_val x, r)] else []
  | _ => []
  end.

(** [ x]: a space, then one character in [[a-b]] *)
Definition space_one (a b : Z) : matcher Z := fun s =>
  match s with
  | String " " r => one a b r
  | _ => []
  end.

Definition alt {A} (ms : list (matcher A)) : matcher A := fun s =>
  flat_map (fun m => m s) ms.

(** a literal letter of the format, matched without case *)
Definition lower (c : ascii) : ascii :=
  let n := N_of_ascii c in
  if (N.leb 65 n && N.leb n 90)%bool then ascii_of_N (n + 32) else c.

Definition lit (c : ascii) : matcher unit := fun s =>
  match s with
  | String x r => if Ascii.eqb (lower x) (lower c) then [(tt, r)] else []
  | _ => []
  end.

Definition seq_ {A B} (m : matcher A) (k : A -> matcher B) : matcher B :=
  fun s => flat_map (fun '(a, r) => k a r) (m s).

Definition re_y : matcher Z := two 0 9 0 9.
Definition re_m : matcher Z := alt [two 1 1 0 2; two 0 0 1 9; one 1 9].
Definition re_d : matcher Z :=
  alt [two 3 3 0 1; two 1 2 0 9; two 0 0 1 9; one 1 9; space_one 1 9].
Definition re_H : matcher Z := alt [two 2 2 0 3; two 0 1 0 9; one 0 9].
Definition re_M : matcher Z := alt [two 0 5 0 9; one 0 9].

(** The first match found must cover the whole text. *)
Definition whole {A} (m : matcher A) (s : string) : outcome A :=
  match m s with
  | (a, EmptyString) :: _ => Ok a
  | _ => Raise ValueError
  end.

(** [strptime(s, "%Hh%M")]: hour and minute *)
Definition strptime_HhM (s : string) : outcome (Z * Z) :=
  whole (seq_ re_H (fun h => seq_ (lit "h") (fun _ =>
         seq_ re_M (fun m r => [((h, m), r)])))) s.

(** [strptime(s, "%Hh")]: the minute defaults to 0 *)
Definition strptime_Hh (s : string) : outcome (Z * Z) :=
  whole (seq_ re_H (fun h => seq_ (lit "h") (fun _ r => [((h, 0), r)]))) s.

(** [%y]: values 69..99 are 1969..1999, values 0..68 are 2000..2068 *)
Definition pivot_year (yy : Z) : Z := if yy <=? 68 then 2000 + yy else 1900 + yy.

(** [strptime(s, "%y/%m/%d")]: year, month, day; the date is validated. *)
Definition strptime_ymd (s : string) : outcome (Z * Z * Z) :=
  (let? ymd :=
     whole (seq_ re_y (fun y => seq_ (lit "/") (fun _ =>
            seq_ re_m (fun m => seq_ (lit "/") (fun _ =>
            seq_ re_d (fun d r => [((pivot_year y, m, d), r)])))))) s in
   let '(y, m, d) := ymd in
   let? _ := datetime_date y m d in
   Ok ymd)%outcome.

End Strptime.
Import Strptime.

(** [str.endswith('h')] *)
Fixpoint endswith_h (s : string) : bool :=
  match s with
  | EmptyString => false
  | String c EmptyString => Ascii.eqb c "h"
  | String _ r => endswith_h r
  end.

(** [datetime_time_from_hour(hour)], lines 109-112. *)
Definition datetime_time_from_hour (hour_ : option string) : outcome (option time) :=
  match hour_ with
  | None => Ok None
  | Some s =>
      (let? hm := (if endswith_h s then strptime_Hh s else strptime_HhM s) in
       let? t := datetime_time (fst hm) (snd hm) in
       Ok (Some t))%outcome
  end.

(** [datetime_date_from_date(date)], lines 114-116. *)
Definition datetime_date_from_date (s : string) : outcome date :=
  (let? ymd := strptime_ymd s in
   let '(y, m, d) := ymd in datetime_date y m d)%outcome.

(** [minutes_to_hr(minutes)], lines 223-224. *)
Definition minutes_to_hr (minutes : Z) : string :=
  format_02d (minutes / 60) ++ "h" ++ format_02d (minutes mod 60) ++ "m".

(** [datetime_time_to_minutes(time)], lines 225-226. *)
Definition datetime_time_to_minutes (t : time) : Z := minute t + hour t * 60.

(** ** [float] arguments *)

(** [bool(x)] for a float: [x != 0.0]; a NaN is true. *)
Definition float_truthy (x : float) : bool := negb (PrimFloat.eqb x 0%float).

(** [int(x)] for a float: truncation towards zero, [OverflowError] on an
    infinity, [ValueError] on a NaN. *)
Definition int_of_float (x : float) : outcome Z :=
  match Prim2SF x with
  | S754_zero _ => Ok 0
  | S754_infinity _ => Raise OverflowError
  | S754_nan => Raise ValueError
  | S754_finite s m e =>
      let a := if 0 <=? e then Zpos m * 2 ^ e else Zpos m / 2 ^ (- e) in
      Ok (if s then - a else a)
  end.

(** [round(a / b)] for two integers: the quotient rounded to the nearest
    integer, a tie going to the even one.  The quotient is taken exactly;
    the binary64 quotient Python rounds gives the same integer as long as
    [a] stays below 2^52. *)
Definition round_half_even (a b : Z) : Z :=
  let q := a / b in
  let r := a mod b in
  if 2 * r <? b then q
  else if b <? 2 * r then q + 1
  else if Z.even q then q else q + 1.

Definition round_div (a b : Z) : outcome Z :=
  if b =? 0 then Raise ZeroDivisionError else Ok (round_half_even a b).

(** ** The world of one process *)

Record Entry : Set := mkEntry {
  date_base : date;
  time_start : time;
  time_stop : option time
}.

(** A row of the time file, as [csv.reader] yields it. *)
Definition row : Set := list string.

Record World : Type := mkWorld {
  clock : nat -> datetime;          (* successive results of datetime.now() *)
  tick : nat;                       (* number of readings made so far *)
  stdout : list string;             (* lines printed, oldest first *)
  files : list (string * list row); (* time files, by name *)
  spawned : list (list string);     (* command lines given to Popen *)
  objs : list Entry                 (* the Entry objects of the tuple [run]
                                       works on, in their current state *)
}.

Definition M (A : Type) : Type := World -> outcome A * World.

Definition ret {A} (a : A) : M A := fun w => (Ok a, w).

Definition raise {A} (e : exn) : M A := fun w => (Raise e, w).

Definition bind {A B} (m : M A) (f : A -> M B) : M B := fun w =>
  match m w with
  | (Ok a, w') => f a w'
  | (Raise e, w') => (Raise e, w')
  end.

Definition lift {A} (o : outcome A) : M A := fun w => (o, w).

Declare Scope monad_scope.
Delimit Scope monad_scope with monad.
Notation "x <- m ;; k" := (bind m (fun x => k))
  (at level 61, m at next level, right associativity) : monad_scope.
Notation "m ;; k" := (bind m (fun _ => k))
  (at level 61, right associativity) : monad_scope.
Local Open Scope monad_scope.

Definition assert_ (b : bool) : M unit :=
  if b then ret tt else raise AssertionError.

(** [datetime.datetime.now()]: one more reading of the clock. *)
Definition datetime_now : M datetime := fun w =>
  (Ok (clock w (tick w)),
   mkWorld (clock w) (S (tick w)) (stdout w) (files w) (spawned w) (objs w)).

(** the builtin [print] of one line *)
Definition builtins_print (line : string) : M unit := fun w =>
  (Ok tt,
   mkWorld (clock w) (tick w) (stdout w ++ [line])%list (files w) (spawned w)
           (objs w)).

(** [subprocess.Popen(argv)], not waited for *)
Definition popen (argv : list string) : M unit := fun w =>
  (Ok tt,
   mkWorld (clock w) (tick w) (stdout w) (files w) (spawned w ++ [argv])%list
           (objs w)).

Definition get_objs : M (list Entry) := fun w => (Ok (objs w), w).

Definition set_objs (l : list Entry) : M unit := fun w =>
  (Ok tt, mkWorld (clock w) (tick w) (stdout w) (files w) (spawned w) l).

Fixpoint lookup_file (name : string) (fs : list (string * list row))
  : option (list row) :=
  match fs with
  | [] => None
  | (n, rows) :: rest =>
      if String.eqb n name then Some rows else lookup_file name rest
  end.

Fixpoint store_file (name : string) (rows : list row)
  (fs : list (string * list row)) : list (string * list row) :=
  match fs with
  | [] => [(name, rows)]
  | (n, old) :: rest =>
      if String.eqb n name then (n, rows) :: rest
      else (n, old) :: store_file name rows rest
  end.

(** File names are relative to the working directory: a leading ["./"]
    does not count. *)
Fixpoint normpath (name : string) : string :=
  match name with
  | String "." (String "/" r) => normpath r
  | _ => name
  end.

(** [open(fname)] followed by reading every row *)
Definition read_rows (fname : string) : M (list row) := fun w =>
  match lookup_file (normpath fname) (files w) with
  | Some rows => (Ok rows, w)
  | None => (Raise FileNotFoundError, w)
  end.

(** [open(fname, 'w')] followed by writing the rows *)
Definition write_rows (fname : string) (rows : list row) : M unit := fun w =>
  (Ok tt,
   mkWorld (clock w) (tick w) (stdout w)
           (store_file (normpath fname) rows (files w))
           (spawned w) (objs w)).

(** ** The clock helpers, lines 99-107 *)

Definition date_from_now : M string :=
  n <- datetime_now ;; ret (strftime_ymd (dt_date n)).

Definition time_from_now : M string :=
  n <- datetime_now ;; ret (strftime_HhM (dt_time n)).

Definition datetime_time_from_now : M time :=
  n <- datetime_now ;;
  lift (datetime_time (hour (dt_time n)) (minute (dt_time n))).

(** ** [class Entry], lines 26-93 *)

Definition hr_date (e : Entry) : string := strftime_ymd (date_base e).

Definition hr_start (e : Entry) : string := strftime_HhM (time_start e).

Definition is_unfinished (e : Entry) : bool :=
  match time_stop e with
  | None => true
  | Some _ => false
  end.

Definition hr_stop (e : Entry) : string :=
  match time_stop e with
  | None => ""
  | Some t => strftime_HhM t
  end.

(** [tuple(entry)], through [__iter__] *)
Definition entry_row (e : Entry) : row := [hr_date e; hr_start e; hr_stop e].

(** The [working_time] property.  The minutes worked are packed into a
    [datetime.time], whose constructor refuses an hour outside 0..23. *)
Definition working_time (e : Entry) : M time :=
  let start := hour (time_start e) * 60 + minute (time_start e) in
  stop <- match time_stop e with
          | None => now <- datetime_time_from_now ;;
                    ret (hour now * 60 + minute now)
          | Some t => ret (hour t * 60 + minute t)
          end ;;
  let working_time := stop - start in
  lift (datetime_time (working_time / 60) (working_time mod 60)).

Definition is_today (e : Entry) : M bool :=
  d <- date_from_now ;; ret (String.eqb (hr_date e) d).

(** [set_finish_now] and [set_start_now] change the object in place: each
    returns the new state of [self], which the caller stores back. *)
Definition set_finish_now (e : Entry) : M Entry :=
  assert_ (is_unfinished e) ;;
  t <- datetime_time_from_now ;;
  ret (mkEntry (date_base e) (time_start e) (Some t)).

Definition set_start_now (e : Entry) : M Entry :=
  assert_ (is_unfinished e) ;;
  t <- datetime_time_from_now ;;
  ret (mkEntry (date_base e) t (time_stop e)).

(** [Entry.from_tuple(date_, start, stop)]; [start] is always a text in the
    program, [stop] may be [None]. *)
Definition from_tuple (date_ start : string) (stop : option string)
  : outcome Entry :=
  (let? d := datetime_date_from_date date_ in
   let? date_start := datetime_time_from_hour (Some start) in
   let? date_stop :=
     match stop with
     | None => Ok None
     | Some s => if String.eqb s "" then Ok None
                 else datetime_time_from_hour (Some s)
     end in
   match date_start with
   | Some t => Ok (mkEntry d t date_stop)
   | None => Raise ValueError (* not reached: [start] is not [None] *)
   end)%outcome.

Definition now_arrived : M Entry :=
  d <- date_from_now ;;
  t <- time_from_now ;;
  lift (from_tuple d t None).

(** ** The time file, lines 119-134 *)

(** [for date, start, stop in reader: yield Entry.from_tuple(...)], consumed
    whole by [tuple(...)]: a row that has not three fields, or that does not
    parse, raises [ValueError]. *)
Fixpoint parse_rows (rows : list row) : outcome (list Entry) :=
  match rows with
  | [] => Ok []
  | [date_; start; stop] :: rest =>
      (let? e := from_tuple date_ start (Some stop) in
       let? l := parse_rows rest in
       Ok (e :: l))%outcome
  | _ :: _ => Raise ValueError
  end.

Definition get_data (fname : string) : M (list Entry) :=
  rows <- read_rows fname ;; lift (parse_rows rows).

Definition set_data (entries : list Entry) (fname : string) : M unit :=
  write_rows fname (map entry_row entries).

(** ** [run], lines 138-220 *)

(** The options [parse_cli] returns. *)
Record Args : Set := mkArgs {
  action : string;
  dry_run : bool;
  overwrite : bool;
  porcelain : bool;
  hours_per_day : option float;
  not_today : bool;
  timefile : string
}.

(** The module-level names [run] reads.  [args] is bound by the
    [if __name__ == '__main__':] block only: it is [None] here when
    [temps] was imported and nothing assigned [temps.args]. *)
Record Globals : Set := mkGlobals { args : option Args }.

(** the dictionary [outdata]; the key ['total_difftime'] may be missing *)
Record Outdata : Set := mkOutdata {
  nb_day : Z;
  first_day : string;
  last_day : string;
  total_worktime : Z;
  total_difftime : option Z;
  average_per_day : Z
}.

Inductive retval : Set :=
| RetNone
| RetEntries (entries : list Entry)
| RetStats (outdata : Outdata).

(** [max] of an iterable of [str]: [ValueError] when it is empty. *)
Definition py_max (l : list string) : outcome string :=
  match l with
  | [] => Raise ValueError
  | s :: rest =>
      Ok (fold_left (fun m x => if String.ltb m x then x else m) rest s)
  end.

(** [l[0]] and [l[-1]] *)
Definition first_of {A} (l : list A) : outcome A :=
  match l with
  | [] => Raise IndexError
  | a :: _ => Ok a
  end.

Definition last_of {A} (l : list A) : outcome A := first_of (rev l).

(** the state of the objects after a method changed the last one *)
Definition replace_last {A} (l : list A) (a : A) : list A :=
  (removelast l ++ [a])%list.

(** [workamount = defaultdict(int)]: keys in insertion order *)
Definition workmap : Set := list (string * Z).

Fixpoint wm_get (wm : workmap) (day_ : string) : Z :=
  match wm with
  | [] => 0
  | (k, v) :: rest => if String.eqb k day_ then v else wm_get rest day_
  end.

Fixpoint wm_set (wm : workmap) (day_ : string) (v : Z) : workmap :=
  match wm with
  | [] => [(day_, v)]
  | (k, old) :: rest =>
      if String.eqb k day_ then (k, v) :: rest
      else (k, old) :: wm_set rest day_ v
  end.

(** [workamount[day] += worktime] *)
Definition wm_add (wm : workmap) (day_ : string) (worktime : Z) : workmap :=
  wm_set wm day_ (wm_get wm day_ + worktime).

Definition wm_keys (wm : workmap) : list string := map fst wm.
Definition wm_values (wm : workmap) : list Z := map snd wm.

Definition py_sum (l : list Z) : Z := fold_left Z.add l 0.

(** Lines 181-182.  The list is held last entry first: [entries[-1]] is its
    head and [entries.pop()] its tail. *)
Fixpoint drop_today (reversed : list Entry) : M (list Entry) :=
  match reversed with
  | [] => raise IndexError
  | e :: rest =>
      n <- now_arrived ;;
      if String.eqb (hr_date e) (hr_date n) then drop_today rest
      else ret reversed
  end.

(** Lines 184-188. *)
Fixpoint accumulate (entries : list Entry) (total : Z) (workamount : workmap)
  : M (Z * workmap) :=
  match entries with
  | [] => ret (total, workamount)
  | entry :: rest =>
      worktime <- working_time entry ;;
      let worktime := hour worktime * 60 + minute worktime in
      accumulate rest (total + worktime)
                 (wm_add workamount (hr_date entry) worktime)
  end.

(** Lines 200-203. *)
Definition difftime (workamount : workmap) (optimal_worktime : Z) : list Z :=
  map (fun day_ => wm_get workamount day_ - optimal_worktime)
      (wm_keys workamount).

(** Lines 213-215: one line per key of [outdata], in insertion order. *)
Definition porcelain_lines (o : Outdata) : list string :=
  List.app
    ["nb_day " ++ str_int (nb_day o);
     "first_day " ++ first_day o;
     "last_day " ++ last_day o;
     "total_worktime " ++ str_int (total_worktime o)]
    (List.app
       match total_difftime o with
       | Some d => ["total_difftime " ++ str_int d]
       | None => []
       end
       ["average_per_day " ++ str_int (average_per_day o)]).

Fixpoint print_all (lines : list string) : M unit :=
  match lines with
  | [] => ret tt
  | l :: rest => builtins_print l ;; print_all rest
  end.

Section Run.

Variable globals : Globals.

(** [args.overwrite], a look-up of the global [args]. *)
Definition args_overwrite : M bool :=
  match args globals with
  | Some a => ret (overwrite a)
  | None => raise NameError
  end.

(** The action ['stats'], lines 176-218.  [print] is the function chosen at
    lines 141-144. *)
Definition run_stats (print : string -> M unit) (entries : list Entry)
  (hours_per_day_ : option float) (porcelain_ include_today : bool)
  : M retval :=
  entries <- (if negb include_today
              then l <- drop_today (rev entries) ;; ret (rev l)
              else ret entries) ;;
  tw <- accumulate entries 0 [] ;;
  let total_worktime_ := fst tw in
  let workamount := snd tw in
  let nb_day_ := Z.of_nat (length workamount) in
  first <- lift (first_of entries) ;;
  last <- lift (last_of entries) ;;
  let first_day_ := hr_date first in
  let last_day_ := hr_date last in
  let desc_today := if include_today then "in" else "ex" in
  print ("Statistics on " ++ str_int nb_day_ ++ " worked days (" ++ desc_today
         ++ "cluding today), from " ++ first_day_ ++ " to " ++ last_day_) ;;
  print ("You worked a total of " ++ minutes_to_hr total_worktime_ ++ ".") ;;
  total_difftime_ <-
    match hours_per_day_ with
    | None => ret None
    | Some h =>
        if float_truthy h then
          optimal_worktime <- lift (int_of_float (h * 60)%float) ;;
          let d := py_sum (difftime workamount optimal_worktime) in
          (if 0 <? d
           then first' <- lift (first_of entries) ;;
                print ("You worked " ++ minutes_to_hr d ++ " too much since "
                       ++ hr_date first' ++ ".")
           else print ("You have to work " ++ minutes_to_hr (- d) ++ " much.")) ;;
          ret (Some d)
        else ret None
    end ;;
  average_per_day_ <- lift (round_div (py_sum (wm_values workamount))
                                      (Z.of_nat (length workamount))) ;;
  print ("You are working an average of " ++ minutes_to_hr average_per_day_
         ++ " per day.") ;;
  let outdata := mkOutdata nb_day_ first_day_ last_day_ total_worktime_
                           total_difftime_ average_per_day_ in
  (if porcelain_ then print_all (porcelain_lines outdata) else ret tt) ;;
  ret (RetStats outdata).

(** The action ['arrive'], lines 154-162; [last] is [entries[-1]]. *)
Definition run_arrive (print : string -> M unit) (entries : list Entry)
  (last : Entry) : M retval :=
  if is_unfinished last then
    o <- args_overwrite ;;
    if o then
      last' <- set_start_now last ;;
      set_objs (replace_last entries last') ;;
      print "Changed last arrival at now." ;;
      entries <- get_objs ;;
      ret (RetEntries entries)
    else
      print "Oops! The last entry is unfinished. You either never quit, or used the wrong command." ;;
      ret RetNone
  else
    n <- now_arrived ;;
    print "Added a new entry, arrival now." ;;
    ret (RetEntries (entries ++ [n])%list).

(** The action ['quit'], lines 165-173. *)
Definition run_quit (print : string -> M unit) (entries : list Entry)
  (last : Entry) : M retval :=
  if is_unfinished last then
    last' <- set_finish_now last ;;
    set_objs (replace_last entries last') ;;
    print "Changed last entry, quitting now." ;;
    entries <- get_objs ;;
    ret (RetEntries entries)
  else
    o <- args_overwrite ;;
    if o then
      last' <- set_finish_now last ;;
      set_objs (replace_last entries last') ;;
      print "Changed last quit at now." ;;
      entries <- get_objs ;;
      ret (RetEntries entries)
    else
      print "Oops! No unfinished entry. You either never arrived, or used the wrong command." ;;
      ret RetNone.

(** Lines 141-144. *)
Definition choose_print (porcelain_ : bool) : string -> M unit :=
  if porcelain_ then (fun _ => ret tt) else builtins_print.

(** [run(action, entries, overwrite, dry_run, hours_per_day, porcelain,
    include_today)].  The parameters [overwrite] and [dry_run] are not read
    by the body: the two tests on overwriting read the global [args].
    [__builtins__] is taken to be the builtins module, as it is in a script.
    The objects of [entries] are distinct, as [get_data] builds them. *)
Definition run (action_ : string) (entries : option (list Entry))
  (overwrite_ dry_run_ : bool) (hours_per_day_ : option float)
  (porcelain_ include_today : bool) : M retval :=
  entries <- match entries with
             | None => get_data "temps"
             | Some l => ret l
             end ;;
  set_objs entries ;;
  let print := choose_print porcelain_ in
  latest <- lift (py_max (map hr_date entries)) ;;
  last <- lift (last_of entries) ;;
  assert_ (String.eqb latest (hr_date last)) ;;
  now1 <- now_arrived ;;
  let last_entry_is_today := String.eqb (hr_date last) (hr_date now1) in
  now2 <- now_arrived ;;
  let diff := date_sub (date_base now2) (date_base last) in
  (if last_entry_is_today then print "Last entry is today."
   else print ("Last entry is " ++ str_timedelta diff ++ " ago.")) ;;
  if String.eqb action_ "arrive" then run_arrive print entries last
  else if String.eqb action_ "quit" then run_quit print entries last
  else if String.eqb action_ "stats" then
    run_stats print entries hours_per_day_ porcelain_ include_today
  else ret (RetEntries entries).

End Run.

(** ** The script, lines 229-237 *)

(** truth value of what [run] returned *)
Definition retval_truthy (r : retval) : bool :=
  match r with
  | RetNone => false
  | RetEntries l => negb (Nat.eqb (length l) 0)
  | RetStats _ => true
  end.

Definition main (a : Args) : M unit :=
  entries <- get_data (timefile a) ;;
  r <- run (mkGlobals (Some a)) (action a) (Some entries) (overwrite a)
           (dry_run a) (hours_per_day a) (porcelain a) (negb (not_today a)) ;;
  if retval_truthy r && negb (dry_run a) then
    match r with
    | RetEntries l => set_data l "temps"
    | _ => ret tt
    end
  else ret tt.

(** ** [notify.py] *)

(** [stats['total_difftime']] *)
Definition get_total_difftime (stats : Outdata) : outcome Z :=
  match total_difftime stats with
  | Some d => Ok d
  | None => Raise KeyError
  end.

(** Lines 16-21. *)
Definition notify_report (stats : Outdata) : M unit :=
  d <- lift (get_total_difftime stats) ;;
  (if 10 <? d
   then popen ["notify-send"; "OVERWORK: " ++ minutes_to_hr d]
   else ret tt) ;;
  (if d <? 10
   then popen ["notify-send"; "WORK NEEDED: " ++ minutes_to_hr (- d)]
   else ret tt).

(** [temps.run] as [notify.py] calls it, with [porcelain] left false: lines
    139-144 of [temps.py] in an imported module.  CPython binds
    [__builtins__] to the builtins module only in the script it runs; in an
    imported module it is the dictionary of the builtins, and line 144
    asks this dictionary for an attribute [print], which is an
    [AttributeError].  Nothing after line 144 is reached. *)
Definition run_imported_verbose (entries : option (list Entry)) : M retval :=
  entries <- match entries with
             | None => get_data "temps"
             | Some l => ret l
             end ;;
  set_objs entries ;;
  raise AttributeError.

(** Lines 13-21; [hours_per_day_] is the option of the tool, 7.4 by default.
    It is handed to [run], which stops before it reads it. *)
Definition notify_main (hours_per_day_ : float) : M unit :=
  r <- run_imported_verbose None ;;
  match r with
  | RetStats stats => notify_report stats
  | _ => ret tt (* not reached *)
  end.

(** ** Notions used to state the properties *)

(** The integers [lo], [lo+1], ..., [lo+n-1]. *)
Definition Zrange (lo : Z) (n : nat) : list Z :=
  map (fun i => lo + Z.of_nat i) (seq 0 n).

Definition time_eqb (a b : time) : bool :=
  (hour a =? hour b) && (minute a =? minute b).

(** the checks run over whole ranges of values *)
Definition check_time (h m : Z) : bool :=
  match datetime_time_from_hour (Some (strftime_HhM (mktime h m))) with
  | Ok (Some t) => time_eqb t (mktime h m)
  | _ => false
  end.

Definition check_date (yy m d : Z) : bool :=
  negb (d <=? days_in_month (pivot_year yy) m)
  || match strptime_ymd (two_digits yy ++ "/" ++ two_digits m ++ "/"
                         ++ two_digits d) with
     | Ok (y', m', d') => (y' =? pivot_year yy) && (m' =? m) && (d' =? d)
     | _ => false
     end.

(** [s] without its last character *)
Fixpoint drop_last (s : string) : string :=
  match s with
  | EmptyString => EmptyString
  | String _ EmptyString => EmptyString
  | String c r => String c (drop_last r)
  end.

(** the date [Entry.now_arrived()] holds when the clock reads [d]: the
    year went through [%y] *)
Definition reparsed (d : date) : date :=
  mkdate (pivot_year (year d mod 100)) (month d) (day d).

(** The check of line 145 passes. *)
Definition log_ok (entries : list Entry) : bool :=
  match py_max (map hr_date entries), last_of entries with
  | Ok latest, Ok last => String.eqb latest (hr_date last)
  | _, _ => false
  end.

(** Every entry is dated no later than those that follow it. *)
Fixpoint date_sorted (entries : list Entry) : bool :=
  match entries with
  | [] => true
  | e :: rest =>
      forallb (fun x => String.leb (hr_date e) (hr_date x)) rest
      && date_sorted rest
  end.

(** A world whose clock has read at least [n] times more. *)
Definition advance (n : nat) (w : World) : World :=
  mkWorld (clock w) (tick w + n) (stdout w) (files w) (spawned w) (objs w).

Definition with_objs (l : list Entry) (w : World) : World :=
  mkWorld (clock w) (tick w) (stdout w) (files w) (spawned w) l.

Definition with_stdout (out : list string) (w : World) : World :=
  mkWorld (clock w) (tick w) out (files w) (spawned w) (objs w).

Definition clock_valid (w : World) : Prop :=
  forall k, valid_datetime (clock w k) = true.

(** what line 149 or 151 prints *)
Definition greeting (w : World) (last : Entry) : string :=
  if String.eqb (hr_date last) (strftime_ymd (dt_date (clock w (tick w))))
  then "Last entry is today."
  else "Last entry is "
       ++ str_timedelta (date_sub (reparsed (dt_date (clock w (tick w + 2))))
                                  (date_base last))
       ++ " ago.".

(** the message of line 159 *)
Definition unfinished_conflict : string :=
  "Oops! The last entry is unfinished. You either never quit, or used the wrong command.".

(** the world after [print] received [lines] *)
Definition said (porcelain_ : bool) (lines : list string) (w : World) : World :=
  if porcelain_ then w else with_stdout (stdout w ++ lines)%list w.

(** the world when [run] reaches line 153 *)
Definition at_dispatch (porcelain_ : bool) (entries : list Entry)
  (last : Entry) (w : World) : World :=
  said porcelain_ [greeting w last] (advance 4 (with_objs entries w)).

(** ** A concrete day at the office, to run the model on *)

Module Sample.

(** Tuesday 5 March 2024, 09:00, for the whole run. *)
Definition now : datetime := mkdatetime (mkdate 2024 3 5) (mktime 9 0).

Definition world : World := mkWorld (fun _ => now) 0 [] [] [] [].

(** a finished session and the open session of this morning *)
Definition monday : Entry :=
  mkEntry (mkdate 2024 3 4) (mktime 8 0) (Some (mktime 16 30)).

Definition this_morning : Entry :=
  mkEntry (mkdate 2024 3 5) (mktime 8 30) None.

Definition open_log : list Entry := [monday; this_morning].

(** the options of [python temps.py arrive] and of [... arrive -o] *)
Definition cli_arrive : Args := mkArgs "arrive" false false false None false "./temps".

Definition cli_arrive_overwrite : Args :=
  mkArgs "arrive" false true false None false "./temps".

(** the log of the scenario of the specification *)
Definition first_of_january : Entry :=
  mkEntry (mkdate 2024 1 1) (mktime 8 0) (Some (mktime 12 0)).

Definition second_of_january : Entry :=
  mkEntry (mkdate 2024 1 2) (mktime 9 0) (Some (mktime 17 30)).

Definition scenario_log : list Entry := [first_of_january; second_of_january].

(** a log whose only entry is dated today *)
Definition today_only : list Entry := [this_morning].

(** a session entered in advance for tomorrow *)
Definition tomorrow : Entry :=
  mkEntry (mkdate 2024 3 6) (mktime 8 0) (Some (mktime 9 0)).

(** a session that ends an hour before it starts *)
Definition backwards : Entry :=
  mkEntry (mkdate 2024 3 4) (mktime 8 0) (Some (mktime 7 0)).

(** the same session dated today *)
Definition backwards_today : Entry :=
  mkEntry (mkdate 2024 3 5) (mktime 8 0) (Some (mktime 7 0)).

(** the binary64 value of the text 7.99 *)
Definition h_7_99 : float := 0x1.ff5c28f5c28f6p+2%float.



End Sample.

(** ** What [stats] computes, said without the loop

    These definitions follow the wording of the specification (steps 2 to 7
    of its description of [stats]); the properties below compare them with
    [run]. *)

(** The clock gives the same reading [n] during the whole run. *)
Definition clock_frozen (n : datetime) (w : World) : Prop :=
  forall k, clock w k = n.

(** the text of the date the clock shows *)
Definition today_of (n : datetime) : string := strftime_ymd (dt_date n).

(** The minutes of a session: up to its end, or up to [now] when it is
    still open. *)
Definition minutes_at (now : time) (e : Entry) : Z :=
  match time_stop e with
  | None => hour now * 60 + minute now
  | Some t => hour t * 60 + minute t
  end - (hour (time_start e) * 60 + minute (time_start e)).

(** [working_time] accepts the session: its minutes fit in a
    [datetime.time]. *)
Definition fits_a_day (now : time) (e : Entry) : bool :=
  (0 <=? minutes_at now e) && (minutes_at now e <? 1440).

Definition dated (day_ : string) (e : Entry) : bool :=
  String.eqb (hr_date e) day_.

(** minutes worked on [day_] *)
Definition minutes_on (now : time) (entries : list Entry) (day_ : string) : Z :=
  py_sum (map (minutes_at now) (filter (dated day_) entries)).

(** the days that have an entry, each once, in order of first appearance *)
Definition note_day (seen : list string) (day_ : string) : list string :=
  if existsb (String.eqb day_) seen then seen else (seen ++ [day_])%list.

Definition distinct_days (entries : list Entry) : list string :=
  fold_left note_day (map hr_date entries) [].

(** trailing entries dated [today] removed; the list is given and returned
    last entry first *)
Fixpoint strip_today (today : string) (reversed : list Entry) : list Entry :=
  match reversed with
  | [] => []
  | e :: rest => if dated today e then strip_today today rest else reversed
  end.

Definition kept_entries (today : string) (include_today : bool)
  (entries : list Entry) : list Entry :=
  if include_today then entries else rev (strip_today today (rev entries)).

(** the target in minutes, [int(hours_per_day * 60)], when there is one *)
Definition target_minutes (hours_per_day_ : option float) : outcome (option Z) :=
  match hours_per_day_ with
  | None => Ok None
  | Some h =>
      if float_truthy h then
        match int_of_float (h * 60)%float with
        | Ok t => Ok (Some t)
        | Raise e => Raise e
        end
      else Ok None
  end.

Definition spec_stats (now : time) (kept : list Entry) (first last : Entry)
  (target : option Z) : Outdata :=
  let days := distinct_days kept in
  let total := py_sum (map (minutes_at now) kept) in
  mkOutdata
    (Z.of_nat (length days))
    (hr_date first)
    (hr_date last)
    total
    (match target with
     | Some t => Some (py_sum (map (fun d => minutes_on now kept d - t) days))
     | None => None
     end)
    (round_half_even total (Z.of_nat (length days))).

(** the per-day map the loop of lines 184-188 builds *)
Definition workamount_of (now : time) (entries : list Entry) (wm : workmap)
  : workmap :=
  fold_left (fun wm e => wm_add wm (hr_date e) (minutes_at now e)) entries wm.

(** Under a clock frozen at [n], [m] returns [a], whatever the rest of the
    world; it leaves the clock as it found it. *)
Definition yields {A} (n : datetime) (m : M A) (a : A) : Prop :=
  forall w, clock_frozen n w ->
  exists w', m w = (Ok a, w') /\ clock_frozen n w'.

(** Under a clock frozen at [n], [m] raises [e]. *)
Definition fails {A} (n : datetime) (m : M A) (e : exn) : Prop :=
  forall w, clock_frozen n w -> exists w', m w = (Raise e, w').

(** the text ends with the letter ["m"] *)
Fixpoint ends_m (s : string) : bool :=
  match s with
  | EmptyString => false
  | String c EmptyString => Ascii.eqb c "m"
  | String _ r => ends_m r
  end.

(** a matcher never reads past a final ["m"] *)
Definition stops_at_m {A} (m : matcher A) : Prop :=
  forall s a r, ends_m s = true -> In (a, r) (m s) -> ends_m r = true.

Definition check_hr (m : Z) : bool :=
  match datetime_time_from_hour (Some (drop_last (minutes_to_hr m))) with
  | Ok (Some t) => time_eqb t (mktime (m / 60) (m mod 60))
  | _ => false
  end.

(** ** Two runs that differ only in what they print *)

Definition same_but_stdout (w1 w2 : World) : Prop :=
  clock w1 = clock w2 /\ tick w1 = tick w2 /\ files w1 = files w2
  /\ spawned w1 = spawned w2 /\ objs w1 = objs w2.

(** [m1] and [m2] return the same value or raise the same exception, and
    leave worlds that differ at most by the lines printed, whenever they
    start from such worlds. *)
Definition agree {A} (m1 m2 : M A) : Prop :=
  forall w1 w2, same_but_stdout w1 w2 ->
  fst (m1 w1) = fst (m2 w2) /\ same_but_stdout (snd (m1 w1)) (snd (m2 w2)).

(** ** The commands of the notification tool *)



(** the rational a finite float stands for (0 for the others) *)
Definition Q_of_float (x : float) : Q :=
  match Prim2SF x with
  | S754_finite s m e =>
      ((if s then -1 else 1) * inject_Z (Zpos m) * Qpower 2 e)%Q
  | _ => 0%Q
  end.

(** ** Notions used by the further properties *)

(** The years the two-digit [%y] can tell apart. *)
Definition in_pivot (d : date) : bool :=
  (1969 <=? year d) && (year d <=? 2068).

(** An entry like those [from_tuple] builds: real date and times, a year
    that survives [%y]. *)
Definition entry_wf (e : Entry) : bool :=
  valid_date (date_base e) && in_pivot (date_base e)
  && valid_time (time_start e)
  && match time_stop e with
     | None => true
     | Some t => valid_time t
     end.

Definition check_short_hour (h : Z) : bool :=
  match datetime_time_from_hour (Some (two_digits h ++ "h")) with
  | Ok (Some t) => time_eqb t (mktime h 0)
  | _ => false
  end.

(** [m] leaves one part of the world, [part], as it found it, whether it
    returns or raises: with [stdout] it prints nothing, with [files] it
    writes no file, with [spawned] it starts no process, with [objs] it
    changes no entry. *)
Definition preserves {X A} (part : World -> X) (m : M A) : Prop :=
  forall w, part (snd (m w)) = part w.

(** Whatever [m] returns satisfies [P]. *)
Definition returns_only {A} (P : A -> Prop) (m : M A) : Prop :=
  forall w a w', m w = (Ok a, w') -> P a.

(** [m], when it returns, returns a dictionary of statistics after having
    printed its key/value lines and nothing else. *)
Definition prints_record (m : M retval) : Prop :=
  forall w r w', m w = (Ok r, w') ->
  exists o, r = RetStats o /\ stdout w' = (stdout w ++ porcelain_lines o)%list.

(** the message of line 173 *)
Definition nothing_open_conflict : string :=
  "Oops! No unfinished entry. You either never arrived, or used the wrong command.".

Definition check_pad (n : Z) : bool := String.eqb (format_02d n) (two_digits n).

(** [a] is not after [b] in the calendar. *)
Definition date_leb (a b : date) : bool :=
  match year a ?= year b with
  | Lt => true
  | Gt => false
  | Eq => match month a ?= month b with
          | Lt => true
          | Gt => false
          | Eq => day a <=? day b
          end
  end.

Definition check_digit_order (x y : Z) : bool :=
  match Ascii.compare (digit x) (digit y), x ?= y with
  | Eq, Eq | Lt, Lt | Gt, Gt => true
  | _, _ => false
  end.

(** Sample values for the further properties. *)
Module Demo.

Definition closed_log : list Entry := [Sample.first_of_january; Sample.monday].

(** the options of [python temps.py quit], [... quit -o] and
    [... arrive --dry-run] *)
Definition cli_quit : Args := mkArgs "quit" false false false None false "./temps".

Definition cli_quit_overwrite : Args :=
  mkArgs "quit" false true false None false "./temps".

Definition cli_arrive_dry : Args :=
  mkArgs "arrive" true false false None false "./temps".

Definition cli_stats : Args :=
  mkArgs "stats" false false false None false "./temps".

(** the rows of a time file that ends with a finished session *)
Definition closed_rows : list row :=
  [["24/01/01"; "08h00"; "12h00"]; ["24/03/04"; "08h"; "16h30"]].

(** a world whose time file holds these rows *)
Definition office : World :=
  mkWorld (fun _ => Sample.now) 0 [] [("temps", closed_rows)] [] [].

(** a world whose time file has a row cut short *)
Definition torn : World :=
  mkWorld (fun _ => Sample.now) 0 [] [("temps", [["24/01/01"; "08h00"]])] [] [].

End Demo.

(** * Properties *)

(** ** Ranges checked by computation *)

Lemma In_Zrange lo n z : lo <= z < lo + Z.of_nat n -> In z (Zrange lo n).
Proof.
  intros H. unfold Zrange. apply in_map_iff.
  exists (Z.to_nat (z - lo)). split; [lia|].
  apply in_seq. lia.
Qed.

Lemma forallb_Zrange (f : Z -> bool) lo n :
  forallb f (Zrange lo n) = true ->
  forall z, lo <= z < lo + Z.of_nat n -> f z = true.
Proof.
  intros H z Hz. rewrite forallb_forall in H. apply H, In_Zrange, Hz.
Qed.

(** ** Formatting then parsing *)

Lemma check_time_all :
  forallb (fun h => forallb (check_time h) (Zrange 0 60)) (Zrange 0 24) = true.
Proof. vm_compute. reflexivity. Qed.

Lemma time_eqb_eq a b : time_eqb a b = true -> a = b.
Proof.
  destruct a, b. unfold time_eqb. simpl. intros H.
  apply andb_prop in H. destruct H as [H1 H2].
  apply Z.eqb_eq in H1, H2. congruence.
Qed.

Lemma parse_strftime_HhM t :
  valid_time t = true ->
  datetime_time_from_hour (Some (strftime_HhM t)) = Ok (Some t).
Proof.
  intros V. destruct t as [h m]. unfold valid_time in V. simpl in V.
  assert (C : check_time h m = true).
  { apply (forallb_Zrange _ 0 60); [|lia].
    apply (forallb_Zrange (fun h => forallb (check_time h) (Zrange 0 60)) 0 24);
      [exact check_time_all | lia]. }
  unfold check_time in C.
  destruct (datetime_time_from_hour _) as [[t|]|]; try discriminate.
  apply time_eqb_eq in C. now subst.
Qed.

Lemma check_date_all :
  forallb (fun yy => forallb (fun m => forallb (check_date yy m) (Zrange 1 31))
                             (Zrange 1 12)) (Zrange 0 100) = true.
Proof. vm_compute. reflexivity. Qed.

Ltac to_prop :=
  repeat match goal with
  | H : _ && _ = true |- _ => apply andb_prop in H; destruct H
  | H : (_ <=? _) = true |- _ => apply Z.leb_le in H
  | H : (_ <? _) = true |- _ => apply Z.ltb_lt in H
  | H : (_ =? _) = true |- _ => apply Z.eqb_eq in H
  | |- _ && _ = true => apply andb_true_intro; split
  | |- (_ <=? _) = true => apply Z.leb_le
  | |- (_ <? _) = true => apply Z.ltb_lt
  | |- (_ =? _) = true => apply Z.eqb_eq
  end.

Lemma is_leap_pivot y :
  is_leap y = true -> is_leap (pivot_year (y mod 100)) = true.
Proof.
  unfold is_leap, pivot_year. intros H.
  apply andb_prop in H. destruct H as [H4 H].
  apply Z.eqb_eq in H4.
  assert (B : 0 <= y mod 100 < 100) by (apply Z.mod_pos_bound; lia).
  assert (E4 : (y mod 100) mod 4 = 0).
  { generalize H4. clear. intros H4.
    pose proof (Z.div_mod y 100 ltac:(lia)) as E.
    pose proof (Z.div_mod y 4 ltac:(lia)) as E'.
    pose proof (Z.div_mod (y mod 100) 4 ltac:(lia)) as E''.
    pose proof (Z.mod_pos_bound (y mod 100) 4 ltac:(lia)).
    lia. }
  destruct (Z.eq_dec (y mod 100) 0) as [Z0|NZ].
  - rewrite Z0. reflexivity.
  - assert (P : forall c, c mod 4 = 0 -> c mod 100 = 0 ->
                (c + y mod 100) mod 4 = 0 /\ (c + y mod 100) mod 100 = y mod 100).
    { intros c C4 C100. split.
      - rewrite Z.add_mod, C4, E4 by lia. reflexivity.
      - rewrite Z.add_mod, C100, Z.mod_mod by lia. simpl.
        rewrite Z.mod_mod by lia. reflexivity. }
    destruct (y mod 100 <=? 68).
    + destruct (P 2000 eq_refl eq_refl) as [A1 A2]. rewrite A1, A2.
      apply Z.eqb_neq in NZ. rewrite NZ. reflexivity.
    + destruct (P 1900 eq_refl eq_refl) as [A1 A2]. rewrite A1, A2.
      apply Z.eqb_neq in NZ. rewrite NZ. reflexivity.
Qed.

Lemma days_in_month_pivot y m :
  days_in_month y m <= days_in_month (pivot_year (y mod 100)) m.
Proof.
  unfold days_in_month. destruct (m =? 2); [|apply Z.le_refl].
  destruct (is_leap y) eqn:L.
  - rewrite (is_leap_pivot _ L). apply Z.le_refl.
  - destruct (is_leap (pivot_year _)); apply Z.leb_le; reflexivity.
Qed.

Lemma days_in_month_le y m : days_in_month y m <= 31.
Proof.
  unfold days_in_month.
  destruct (m =? 2); [destruct (is_leap y)|destruct (_ || _)];
    apply Z.leb_le; reflexivity.
Qed.

Lemma pivot_year_range yy :
  0 <= yy < 100 -> 1969 <= pivot_year yy <= 2068 /\ pivot_year yy mod 100 = yy.
Proof.
  intros B. unfold pivot_year. destruct (Z.leb_spec yy 68).
  - split; [lia|]. replace (2000 + yy) with (yy + 20 * 100) by lia.
    rewrite Z.mod_add by lia. apply Z.mod_small. lia.
  - split; [lia|]. replace (1900 + yy) with (yy + 19 * 100) by lia.
    rewrite Z.mod_add by lia. apply Z.mod_small. lia.
Qed.

Lemma valid_reparsed d : valid_date d = true -> valid_date (reparsed d) = true.
Proof.
  unfold valid_date, reparsed. simpl. intros V.
  pose proof (Z.mod_pos_bound (year d) 100 ltac:(lia)) as B.
  destruct (pivot_year_range _ B) as [R _].
  pose proof (days_in_month_pivot (year d) (month d)).
  to_prop; lia.
Qed.

Lemma hr_date_reparsed d :
  strftime_ymd (reparsed d) = strftime_ymd d.
Proof.
  unfold strftime_ymd, reparsed. simpl.
  pose proof (Z.mod_pos_bound (year d) 100 ltac:(lia)) as B.
  destruct (pivot_year_range _ B) as [_ R]. rewrite R. reflexivity.
Qed.

Lemma parse_strftime_ymd d :
  valid_date d = true ->
  datetime_date_from_date (strftime_ymd d) = Ok (reparsed d).
Proof.
  intros V. pose proof (valid_reparsed d V) as VR.
  unfold valid_date in V. to_prop.
  pose proof (Z.mod_pos_bound (year d) 100 ltac:(lia)) as B.
  pose proof (days_in_month_le (year d) (month d)) as D31.
  assert (C : check_date (year d mod 100) (month d) (day d) = true).
  { apply (forallb_Zrange _ 1 31); [|lia].
    apply (forallb_Zrange
             (fun m => forallb (check_date (year d mod 100) m) (Zrange 1 31))
             1 12); [|lia].
    apply (forallb_Zrange
             (fun yy => forallb (fun m => forallb (check_date yy m) (Zrange 1 31))
                                (Zrange 1 12)) 0 100); [exact check_date_all|lia]. }
  unfold check_date in C.
  pose proof (days_in_month_pivot (year d) (month d)) as D.
  replace (day d <=? days_in_month (pivot_year (year d mod 100)) (month d))
    with true in C by (symmetry; apply Z.leb_le; lia).
  simpl in C.
  unfold datetime_date_from_date, strftime_ymd.
  destruct (strptime_ymd _) as [[[y' m'] d']|]; try discriminate.
  to_prop. subst y' m' d'.
  simpl. unfold datetime_date. fold (reparsed d). rewrite VR. reflexivity.
Qed.

(** ** The monad *)

Lemma bind_ok {A B} (m : M A) (f : A -> M B) w a w' :
  m w = (Ok a, w') -> bind m f w = f a w'.
Proof. intros H. unfold bind. rewrite H. reflexivity. Qed.

Lemma bind_raise {A B} (m : M A) (f : A -> M B) w e w' :
  m w = (Raise e, w') -> bind m f w = (Raise e, w').
Proof. intros H. unfold bind. rewrite H. reflexivity. Qed.

(** ** The clock *)

Lemma time_eta t : mktime (hour t) (minute t) = t.
Proof. destruct t. reflexivity. Qed.

Lemma datetime_time_from_now_ok w :
  valid_datetime (clock w (tick w)) = true ->
  datetime_time_from_now w = (Ok (dt_time (clock w (tick w))), advance 1 w).
Proof.
  intros V. apply andb_prop in V. destruct V as [_ V].
  unfold datetime_time_from_now, bind, datetime_now, lift, datetime_time.
  rewrite time_eta, V. unfold advance. simpl.
  replace (tick w + 1)%nat with (S (tick w)) by lia. reflexivity.
Qed.

Lemma now_arrived_ok w :
  valid_datetime (clock w (tick w)) = true ->
  valid_datetime (clock w (S (tick w))) = true ->
  now_arrived w =
  (Ok (mkEntry (reparsed (dt_date (clock w (tick w))))
               (dt_time (clock w (S (tick w)))) None),
   advance 2 w).
Proof.
  intros V1 V2.
  apply andb_prop in V1. destruct V1 as [V1 _].
  apply andb_prop in V2. destruct V2 as [_ V2].
  unfold now_arrived, date_from_now, time_from_now, bind, datetime_now, ret,
    lift, from_tuple. cbn [fst snd tick clock stdout files spawned objs].
  rewrite (parse_strftime_ymd _ V1). cbn [obind].
  rewrite (parse_strftime_HhM _ V2). cbn [obind].
  unfold advance.
  replace (tick w + 2)%nat with (S (S (tick w))) by lia. reflexivity.
Qed.

(** ** Worlds *)

Lemma world_eq c t o f s b c' t' o' f' s' b' :
  c = c' -> t = t' -> o = o' -> f = f' -> s = s' -> b = b' ->
  mkWorld c t o f s b = mkWorld c' t' o' f' s' b'.
Proof. intros; subst; reflexivity. Qed.

Ltac world :=
  unfold at_dispatch, said, advance, with_objs, with_stdout;
  repeat match goal with |- context [if ?b then _ else _] => destruct b end;
  cbn [clock tick stdout files spawned objs];
  try reflexivity;
  try (apply world_eq; try reflexivity; try lia;
       rewrite <- ?app_assoc; reflexivity).

Lemma choose_print_said p line w :
  choose_print p line w = (Ok tt, said p [line] w).
Proof. destruct p; reflexivity. Qed.

Lemma clock_valid_advance n w : clock_valid w -> clock_valid (advance n w).
Proof. intros V k. apply V. Qed.

Lemma clock_valid_with_objs l w : clock_valid w -> clock_valid (with_objs l w).
Proof. intros V k. apply V. Qed.

Lemma clock_valid_said p l w : clock_valid w -> clock_valid (said p l w).
Proof. intros V k. destruct p; apply V. Qed.

Lemma clock_valid_at_dispatch p l e w :
  clock_valid w -> clock_valid (at_dispatch p l e w).
Proof. intros V k. unfold at_dispatch. destruct p; apply V. Qed.

Lemma now_arrived_valid w :
  clock_valid w ->
  now_arrived w =
  (Ok (mkEntry (reparsed (dt_date (clock w (tick w))))
               (dt_time (clock w (S (tick w)))) None),
   advance 2 w).
Proof. intros V. apply now_arrived_ok; apply V. Qed.

(** ** Lines 139-151 of [run] *)

Lemma log_ok_inv entries :
  log_ok entries = true ->
  exists last, last_of entries = Ok last
               /\ py_max (map hr_date entries) = Ok (hr_date last).
Proof.
  unfold log_ok. intros H.
  destruct (py_max _) as [latest|]; [|discriminate].
  destruct (last_of entries) as [last|]; [|discriminate].
  apply String.eqb_eq in H. subst. eauto.
Qed.

Lemma run_dispatch g action_ entries last ov dr hpd p it w :
  clock_valid w ->
  log_ok entries = true ->
  last_of entries = Ok last ->
  run g action_ (Some entries) ov dr hpd p it w =
  (if String.eqb action_ "arrive" then run_arrive g (choose_print p) entries last
   else if String.eqb action_ "quit" then run_quit g (choose_print p) entries last
   else if String.eqb action_ "stats" then
     run_stats (choose_print p) entries hpd p it
   else ret (RetEntries entries)) (at_dispatch p entries last w).
Proof.
  intros V L EL.
  destruct (log_ok_inv _ L) as (last' & EL' & MX).
  rewrite EL in EL'. injection EL' as <-.
  unfold run.
  rewrite (bind_ok _ _ w entries w) by reflexivity.
  rewrite (bind_ok _ _ w tt (with_objs entries w)) by reflexivity.
  rewrite (bind_ok _ _ _ (hr_date last) (with_objs entries w))
    by (unfold lift; rewrite MX; reflexivity).
  rewrite (bind_ok _ _ _ last (with_objs entries w))
    by (unfold lift; rewrite EL; reflexivity).
  rewrite (bind_ok _ _ _ tt (with_objs entries w))
    by (rewrite String.eqb_refl; reflexivity).
  pose proof (clock_valid_with_objs entries w V) as V1.
  rewrite (bind_ok _ _ _ _ _ (now_arrived_valid _ V1)).
  pose proof (clock_valid_advance 2 _ V1) as V2.
  rewrite (bind_ok _ _ _ _ _ (now_arrived_valid _ V2)).
  set (pr := if String.eqb (hr_date last) _ then _ else _).
  assert (P : pr (advance 2 (advance 2 (with_objs entries w)))
              = (Ok tt, at_dispatch p entries last w)).
  { subst pr. unfold at_dispatch, greeting, hr_date at 2.
    cbn [date_base clock tick advance with_objs].
    rewrite hr_date_reparsed.
    destruct (String.eqb (hr_date last) _);
      rewrite choose_print_said; f_equal; world. }
  rewrite (bind_ok _ _ _ _ _ P). reflexivity.
Qed.

(** ** The last entry *)

Lemma last_of_app {A} (l : list A) a : last_of (l ++ [a])%list = Ok a.
Proof. unfold last_of. rewrite rev_unit. reflexivity. Qed.

Lemma replace_last_app {A} (l : list A) a b :
  replace_last (l ++ [a])%list b = (l ++ [b])%list.
Proof. unfold replace_last. rewrite removelast_last. reflexivity. Qed.

Lemma clock_at_dispatch p l e w k :
  clock (at_dispatch p l e w) k = clock w k.
Proof. unfold at_dispatch, said. destruct p; reflexivity. Qed.

Lemma tick_at_dispatch p l e w :
  tick (at_dispatch p l e w) = (tick w + 4)%nat.
Proof. unfold at_dispatch, said. destruct p; reflexivity. Qed.

Lemma set_finish_now_ok e w :
  clock_valid w -> is_unfinished e = true ->
  set_finish_now e w =
  (Ok (mkEntry (date_base e) (time_start e)
               (Some (dt_time (clock w (tick w))))), advance 1 w).
Proof.
  intros V U. unfold set_finish_now. rewrite U.
  rewrite (bind_ok _ _ w tt w) by reflexivity.
  rewrite (bind_ok _ _ _ _ _ (datetime_time_from_now_ok w (V _))).
  reflexivity.
Qed.

Lemma set_start_now_ok e w :
  clock_valid w -> is_unfinished e = true ->
  set_start_now e w =
  (Ok (mkEntry (date_base e) (dt_time (clock w (tick w))) (time_stop e)),
   advance 1 w).
Proof.
  intros V U. unfold set_start_now. rewrite U.
  rewrite (bind_ok _ _ w tt w) by reflexivity.
  rewrite (bind_ok _ _ _ _ _ (datetime_time_from_now_ok w (V _))).
  reflexivity.
Qed.

(** ** [quit] on an open log *)

Lemma run_quit_open g p init e w :
  clock_valid w -> is_unfinished e = true ->
  run_quit g (choose_print p) (init ++ [e])%list e w =
  (let e' := mkEntry (date_base e) (time_start e)
                     (Some (dt_time (clock w (tick w)))) in
   (Ok (RetEntries (init ++ [e'])%list),
    said p ["Changed last entry, quitting now."]
         (with_objs (init ++ [e'])%list (advance 1 w)))).
Proof.
  intros V U. unfold run_quit. rewrite U.
  rewrite (bind_ok _ _ _ _ _ (set_finish_now_ok e w V U)).
  rewrite replace_last_app.
  rewrite (bind_ok _ _ _ tt (with_objs _ (advance 1 w))) by reflexivity.
  rewrite (bind_ok _ _ _ _ _ (choose_print_said _ _ _)).
  unfold bind, get_objs, ret. cbn zeta. f_equal. f_equal.
  destruct p; reflexivity.
Qed.

(** ** [arrive] on an open log *)

Lemma run_arrive_open_overwrite a p init e w :
  overwrite a = true ->
  clock_valid w -> is_unfinished e = true ->
  run_arrive (mkGlobals (Some a)) (choose_print p) (init ++ [e])%list e w =
  (let e' := mkEntry (date_base e) (dt_time (clock w (tick w))) (time_stop e) in
   (Ok (RetEntries (init ++ [e'])%list),
    said p ["Changed last arrival at now."]
         (with_objs (init ++ [e'])%list (advance 1 w)))).
Proof.
  intros O V U. unfold run_arrive, args_overwrite. rewrite U. cbn [args].
  rewrite (bind_ok _ _ w true w) by (rewrite O; reflexivity).
  rewrite (bind_ok _ _ _ _ _ (set_start_now_ok e w V U)).
  rewrite replace_last_app.
  rewrite (bind_ok _ _ _ tt (with_objs _ (advance 1 w))) by reflexivity.
  rewrite (bind_ok _ _ _ _ _ (choose_print_said _ _ _)).
  unfold bind, get_objs, ret. cbn zeta. f_equal. f_equal.
  destruct p; reflexivity.
Qed.

Lemma run_arrive_open_conflict a p entries e w :
  overwrite a = false -> is_unfinished e = true ->
  run_arrive (mkGlobals (Some a)) (choose_print p) entries e w =
  (Ok RetNone,
   said p [unfinished_conflict] w).
Proof.
  intros O U. unfold run_arrive, args_overwrite. rewrite U. cbn [args].
  rewrite (bind_ok _ _ w false w) by (rewrite O; reflexivity).
  rewrite (bind_ok _ _ _ _ _ (choose_print_said _ _ _)). reflexivity.
Qed.

Lemma run_arrive_open_unbound pr entries e w :
  is_unfinished e = true ->
  run_arrive (mkGlobals None) pr entries e w = (Raise NameError, w).
Proof. intros U. unfold run_arrive. rewrite U. reflexivity. Qed.

(** With the global [args] unbound, [arrive] on an open log raises
    [NameError] whatever the argument [overwrite] of [run]; no object was
    changed. *)
Lemma arrive_open_unbound_args init e ov dr hpd p it w :
  clock_valid w ->
  log_ok (init ++ [e])%list = true ->
  is_unfinished e = true ->
  run (mkGlobals None) "arrive" (Some (init ++ [e])%list) ov dr hpd p it w =
  (Raise NameError, at_dispatch p (init ++ [e])%list e w).
Proof.
  intros V L U.
  rewrite (run_dispatch _ _ _ e _ _ _ _ _ _ V L (last_of_app _ _)).
  cbn [String.eqb Ascii.eqb Bool.eqb].
  apply run_arrive_open_unbound, U.
Qed.

(** When the script runs with [--overwrite], so that [args.overwrite] is
    true, [arrive] on an open log moves the start of the last entry to the
    reading of the clock made at that moment and leaves the entry open. *)
Lemma arrive_open_overwrite_flag a init e ov dr hpd p it w :
  overwrite a = true ->
  clock_valid w ->
  log_ok (init ++ [e])%list = true ->
  is_unfinished e = true ->
  let e' := mkEntry (date_base e) (dt_time (clock w (tick w + 4)))
                    (time_stop e) in
  exists w',
    run (mkGlobals (Some a)) "arrive" (Some (init ++ [e])%list) ov dr hpd p it w
    = (Ok (RetEntries (init ++ [e'])%list), w')
    /\ objs w' = (init ++ [e'])%list
    /\ is_unfinished e' = true.
Proof.
  intros O V L U e'.
  rewrite (run_dispatch _ _ _ e _ _ _ _ _ _ V L (last_of_app _ _)).
  cbn [String.eqb Ascii.eqb Bool.eqb].
  rewrite (run_arrive_open_overwrite a p init e _ O
             (clock_valid_at_dispatch _ _ _ _ V) U).
  cbn zeta. rewrite clock_at_dispatch, tick_at_dispatch.
  eexists. split; [reflexivity|]. split; [|exact U].
  destruct p; reflexivity.
Qed.

Lemma arrive_overwrite_flag_example :
  fst (run (mkGlobals (Some Sample.cli_arrive_overwrite)) "arrive"
           (Some Sample.open_log) true false None false true Sample.world)
  = Ok (RetEntries [Sample.monday;
                    mkEntry (mkdate 2024 3 5) (mktime 9 0) None]).
Proof. vm_compute. reflexivity. Qed.

(** ** The script around [run] *)

(** Started as [temps.py arrive] on a time file whose last row is open, the
    script writes nothing: the files are as they were. *)
Lemma main_arrive_conflict_writes_nothing a rows init e w :
  action a = "arrive" ->
  overwrite a = false ->
  clock_valid w ->
  lookup_file (normpath (timefile a)) (files w) = Some rows ->
  parse_rows rows = Ok (init ++ [e])%list ->
  log_ok (init ++ [e])%list = true ->
  is_unfinished e = true ->
  exists w', main a w = (Ok tt, w') /\ files w' = files w.
Proof.
  intros A O V R P L U. unfold main, get_data.
  assert (G : bind (read_rows (timefile a)) (fun rows => lift (parse_rows rows)) w
              = (Ok (init ++ [e])%list, w)).
  { unfold bind, read_rows. rewrite R. unfold lift. rewrite P. reflexivity. }
  rewrite (bind_ok _ _ _ _ _ G). rewrite A.
  assert (E : run (mkGlobals (Some a)) "arrive" (Some (init ++ [e])%list)
                  (overwrite a) (dry_run a) (hours_per_day a) (porcelain a)
                  (negb (not_today a)) w
              = (Ok RetNone,
                 said (porcelain a)
                      [unfinished_conflict]
                      (at_dispatch (porcelain a) (init ++ [e])%list e w))).
  { rewrite (run_dispatch _ _ _ e _ _ _ _ _ _ V L (last_of_app _ _)).
    cbn [String.eqb Ascii.eqb Bool.eqb].
    apply (run_arrive_open_conflict a _ _ e _ O U). }
  rewrite (bind_ok _ _ _ _ _ E). cbn [retval_truthy andb].
  eexists. split; [reflexivity|].
  unfold at_dispatch, said.
  destruct (porcelain a); reflexivity.
Qed.

(** ** Sums and the per-day map *)

Lemma fold_add_shift l a : fold_left Z.add l a = a + fold_left Z.add l 0.
Proof.
  revert a. induction l as [|x l IH]; intros a; simpl; [lia|].
  rewrite IH, (IH x). lia.
Qed.

Lemma sum_cons x l : py_sum (x :: l) = x + py_sum l.
Proof. unfold py_sum. simpl. rewrite fold_add_shift. reflexivity. Qed.

Lemma sum_app l l' : py_sum (l ++ l')%list = py_sum l + py_sum l'.
Proof.
  induction l as [|x l IH]; [reflexivity|].
  simpl. rewrite !sum_cons, IH. lia.
Qed.

Lemma wm_keys_set wm d v :
  wm_keys (wm_set wm d v) = note_day (wm_keys wm) d.
Proof.
  unfold note_day, wm_keys.
  induction wm as [|[k x] wm IH]; [reflexivity|].
  simpl. rewrite (String.eqb_sym d k).
  destruct (String.eqb k d) eqn:E; simpl; [reflexivity|].
  rewrite IH. destruct (existsb _ _); reflexivity.
Qed.

Lemma wm_get_set wm d v d' :
  wm_get (wm_set wm d v) d' = if String.eqb d d' then v else wm_get wm d'.
Proof.
  induction wm as [|[k x] wm IH]; simpl.
  - destruct (String.eqb d d'); reflexivity.
  - destruct (String.eqb k d) eqn:E; simpl.
    + apply String.eqb_eq in E. subst k.
      destruct (String.eqb d d'); reflexivity.
    + destruct (String.eqb k d') eqn:E'; [|exact IH].
      apply String.eqb_eq in E'. subst k. rewrite String.eqb_sym, E.
      reflexivity.
Qed.

Lemma wm_values_set wm d v :
  py_sum (wm_values (wm_set wm d v)) = py_sum (wm_values wm) - wm_get wm d + v.
Proof.
  unfold wm_values.
  induction wm as [|[k x] wm IH]; simpl.
  - rewrite sum_cons. unfold py_sum. simpl. lia.
  - destruct (String.eqb k d); simpl; rewrite !sum_cons; [lia|].
    rewrite IH. lia.
Qed.

Lemma workamount_keys now entries wm :
  wm_keys (workamount_of now entries wm)
  = fold_left note_day (map hr_date entries) (wm_keys wm).
Proof.
  unfold workamount_of. revert wm.
  induction entries as [|e l IH]; intros wm; [reflexivity|].
  simpl. rewrite IH. unfold wm_add. rewrite wm_keys_set. reflexivity.
Qed.

Lemma workamount_get now entries wm d :
  wm_get (workamount_of now entries wm) d
  = wm_get wm d + minutes_on now entries d.
Proof.
  unfold workamount_of, minutes_on. revert wm.
  induction entries as [|e l IH]; intros wm; simpl.
  - unfold py_sum. simpl. lia.
  - rewrite IH. unfold wm_add, dated.
    rewrite wm_get_set.
    destruct (String.eqb (hr_date e) d) eqn:E; simpl.
    + apply String.eqb_eq in E. subst d. rewrite sum_cons. lia.
    + lia.
Qed.

Lemma workamount_values now entries wm :
  py_sum (wm_values (workamount_of now entries wm))
  = py_sum (wm_values wm) + py_sum (map (minutes_at now) entries).
Proof.
  unfold workamount_of. revert wm.
  induction entries as [|e l IH]; intros wm; simpl.
  - unfold py_sum at 3. simpl. lia.
  - rewrite IH. unfold wm_add.
    rewrite wm_values_set, sum_cons. lia.
Qed.

Lemma difftime_spec now kept t :
  difftime (workamount_of now kept []) t
  = map (fun d => minutes_on now kept d - t) (distinct_days kept).
Proof.
  unfold difftime. rewrite workamount_keys. fold (distinct_days kept).
  apply map_ext. intros d. rewrite workamount_get. reflexivity.
Qed.

(** ** The distinct days *)

Lemma existsb_eqb_In d l : existsb (String.eqb d) l = true <-> In d l.
Proof.
  rewrite existsb_exists. split.
  - intros (x & I & E). apply String.eqb_eq in E. now subst.
  - intros I. exists d. split; [exact I|apply String.eqb_refl].
Qed.

Lemma note_day_NoDup seen d : NoDup seen -> NoDup (note_day seen d).
Proof.
  intros N. unfold note_day. destruct (existsb _ _) eqn:E; [exact N|].
  apply NoDup_app; [exact N|repeat constructor; intros []|].
  intros x I [<- | []]. apply existsb_eqb_In in I. congruence.
Qed.

Lemma note_day_In seen d x : In x (note_day seen d) <-> In x seen \/ x = d.
Proof.
  unfold note_day. destruct (existsb _ _) eqn:E.
  - apply existsb_eqb_In in E. split; [auto|]. intros [I | ->]; assumption.
  - rewrite in_app_iff. simpl. intuition auto.
Qed.

Lemma fold_note_day_NoDup l seen :
  NoDup seen -> NoDup (fold_left note_day l seen).
Proof.
  revert seen. induction l as [|d l IH]; intros seen N; [exact N|].
  simpl. apply IH, note_day_NoDup, N.
Qed.

Lemma fold_note_day_In l seen x :
  In x (fold_left note_day l seen) <-> In x seen \/ In x l.
Proof.
  revert seen. induction l as [|d l IH]; intros seen; simpl.
  - tauto.
  - rewrite IH, note_day_In. split; intros H; intuition auto.
Qed.

Lemma distinct_days_NoDup entries : NoDup (distinct_days entries).
Proof. apply fold_note_day_NoDup. constructor. Qed.

Lemma distinct_days_In entries d :
  In d (distinct_days entries) <-> exists e, In e entries /\ hr_date e = d.
Proof.
  unfold distinct_days. rewrite fold_note_day_In, in_map_iff. simpl.
  split.
  - intros [[]|(e & E & I)]. eauto.
  - intros (e & I & E). right. eauto.
Qed.

(** ** Runs under a frozen clock *)

Section Frozen.

Variable n : datetime.
Hypothesis n_valid : valid_datetime n = true.

Lemma frozen_valid w : clock_frozen n w -> clock_valid w.
Proof. intros F k. rewrite F. exact n_valid. Qed.

Lemma yields_ret {A} (a : A) : yields n (ret a) a.
Proof. intros w F. exists w. split; [reflexivity|exact F]. Qed.

Lemma yields_lift {A} (a : A) : yields n (lift (Ok a)) a.
Proof. intros w F. exists w. split; [reflexivity|exact F]. Qed.

Lemma yields_bind {A B} (m : M A) (f : A -> M B) a b :
  yields n m a -> yields n (f a) b -> yields n (bind m f) b.
Proof.
  intros Hm Hf w F. destruct (Hm w F) as (w1 & E1 & F1).
  destruct (Hf w1 F1) as (w2 & E2 & F2).
  exists w2. split; [|exact F2]. rewrite (bind_ok _ _ _ _ _ E1). exact E2.
Qed.

Lemma fails_here {A B} (m : M A) (f : A -> M B) e :
  fails n m e -> fails n (bind m f) e.
Proof.
  intros Hm w F. destruct (Hm w F) as (w1 & E1).
  exists w1. apply bind_raise, E1.
Qed.

Lemma fails_later {A B} (m : M A) (f : A -> M B) a e :
  yields n m a -> fails n (f a) e -> fails n (bind m f) e.
Proof.
  intros Hm Hf w F. destruct (Hm w F) as (w1 & E1 & F1).
  destruct (Hf w1 F1) as (w2 & E2).
  exists w2. rewrite (bind_ok _ _ _ _ _ E1). exact E2.
Qed.

Lemma fails_lift {A} e : fails n (@lift A (Raise e)) e.
Proof. intros w _. exists w. reflexivity. Qed.

Lemma fails_raise {A} e : fails n (@raise A e) e.
Proof. intros w _. exists w. reflexivity. Qed.

Lemma yields_builtins_print line : yields n (builtins_print line) tt.
Proof. intros w F. eexists. split; [reflexivity|exact F]. Qed.

Lemma yields_print p line : yields n (choose_print p line) tt.
Proof. destruct p; [apply yields_ret|apply yields_builtins_print]. Qed.

Lemma yields_print_all lines : yields n (print_all lines) tt.
Proof.
  induction lines as [|l r IH]; [apply yields_ret|].
  simpl. eapply yields_bind; [apply yields_builtins_print|exact IH].
Qed.

Lemma yields_now_arrived :
  yields n now_arrived (mkEntry (reparsed (dt_date n)) (dt_time n) None).
Proof.
  intros w F. rewrite (now_arrived_valid w (frozen_valid w F)), !F.
  eexists. split; [reflexivity|exact F].
Qed.

Lemma yields_time_from_now : yields n datetime_time_from_now (dt_time n).
Proof.
  intros w F.
  rewrite (datetime_time_from_now_ok w (frozen_valid w F _)), F.
  eexists. split; [reflexivity|exact F].
Qed.

(** *** [working_time] *)

Lemma repack_minutes m :
  0 <= m < 1440 ->
  datetime_time (m / 60) (m mod 60) = Ok (mktime (m / 60) (m mod 60))
  /\ (m / 60) * 60 + m mod 60 = m.
Proof.
  intros B. pose proof (Z.mod_pos_bound m 60 ltac:(lia)).
  pose proof (Z.div_mod m 60 ltac:(lia)).
  assert (0 <= m / 60 < 24)
    by (split; [apply Z.div_pos; lia|apply Z.div_lt_upper_bound; lia]).
  split; [|lia]. unfold datetime_time, valid_time. cbn [hour minute].
  replace (0 <=? m / 60) with true by (symmetry; apply Z.leb_le; lia).
  replace (m / 60 <? 24) with true by (symmetry; apply Z.ltb_lt; lia).
  replace (0 <=? m mod 60) with true by (symmetry; apply Z.leb_le; lia).
  replace (m mod 60 <? 60) with true by (symmetry; apply Z.ltb_lt; lia).
  reflexivity.
Qed.

Lemma yields_working_time e :
  fits_a_day (dt_time n) e = true ->
  yields n (working_time e)
         (mktime (minutes_at (dt_time n) e / 60)
                 (minutes_at (dt_time n) e mod 60)).
Proof.
  intros Fit. unfold fits_a_day in Fit. to_prop.
  destruct (repack_minutes (minutes_at (dt_time n) e) ltac:(lia)) as [R _].
  unfold working_time, minutes_at in *.
  destruct (time_stop e) as [t|].
  - eapply yields_bind; [apply yields_ret|]. cbn zeta. rewrite R.
    apply yields_lift.
  - eapply yields_bind.
    + eapply yields_bind; [apply yields_time_from_now|apply yields_ret].
    + cbn zeta. rewrite R. apply yields_lift.
Qed.

Lemma yields_accumulate entries total wm :
  forallb (fits_a_day (dt_time n)) entries = true ->
  yields n (accumulate entries total wm)
         (total + py_sum (map (minutes_at (dt_time n)) entries),
          workamount_of (dt_time n) entries wm).
Proof.
  revert total wm. induction entries as [|e l IH]; intros total wm Fit.
  - simpl. unfold py_sum. simpl. rewrite Z.add_0_r. apply yields_ret.
  - simpl in Fit. apply andb_prop in Fit. destruct Fit as [Fe Fl].
    simpl. eapply yields_bind; [apply (yields_working_time e Fe)|].
    cbn [hour minute].
    unfold fits_a_day in Fe. to_prop.
    destruct (repack_minutes (minutes_at (dt_time n) e) ltac:(lia)) as [_ R].
    rewrite R, sum_cons, Z.add_assoc. apply IH, Fl.
Qed.

(** *** The loop that drops today's entries *)

Lemma hr_date_now_arrived d t o :
  hr_date (mkEntry (reparsed d) t o) = strftime_ymd d.
Proof. unfold hr_date. cbn [date_base]. apply hr_date_reparsed. Qed.

Lemma yields_drop_today reversed :
  strip_today (today_of n) reversed <> [] ->
  yields n (drop_today reversed) (strip_today (today_of n) reversed).
Proof.
  induction reversed as [|e l IH]; intros NE; [contradiction|].
  cbn [drop_today]. eapply yields_bind; [apply yields_now_arrived|].
  rewrite hr_date_now_arrived.
  cbn [strip_today] in *. unfold dated, today_of in *.
  destruct (String.eqb (hr_date e) _); [apply IH, NE|apply yields_ret].
Qed.

Lemma fails_drop_today reversed :
  strip_today (today_of n) reversed = [] ->
  fails n (drop_today reversed) IndexError.
Proof.
  induction reversed as [|e l IH]; intros E; [apply fails_raise|].
  cbn [drop_today]. eapply fails_later; [apply yields_now_arrived|].
  rewrite hr_date_now_arrived.
  cbn [strip_today] in *. unfold dated, today_of in *.
  destruct (String.eqb (hr_date e) _); [apply IH, E|discriminate].
Qed.

End Frozen.

(** ** [stats] against its specification *)

Lemma length_workamount now kept :
  length (workamount_of now kept []) = length (distinct_days kept).
Proof.
  rewrite <- (length_map fst). fold (wm_keys (workamount_of now kept [])).
  rewrite workamount_keys. reflexivity.
Qed.

Lemma distinct_days_nonempty kept first :
  first_of kept = Ok first -> length (distinct_days kept) <> 0%nat.
Proof.
  destruct kept as [|e l]; [discriminate|]. intros _ L.
  apply length_zero_iff_nil in L.
  assert (I : In (hr_date e) (distinct_days (e :: l)))
    by (apply distinct_days_In; exists e; simpl; auto).
  rewrite L in I. exact I.
Qed.

Section FrozenStats.

Variable n : datetime.
Hypothesis n_valid : valid_datetime n = true.

Lemma yields_kept it entries first :
  first_of (kept_entries (today_of n) it entries) = Ok first ->
  yields n (if negb it
            then l <- drop_today (rev entries) ;; ret (rev l)
            else ret entries)
         (kept_entries (today_of n) it entries).
Proof.
  unfold kept_entries. destruct it; cbn [negb]; intros NE.
  - apply yields_ret.
  - eapply yields_bind; [|apply yields_ret].
    apply (yields_drop_today n n_valid).
    intros E. rewrite E in NE. discriminate.
Qed.

Lemma yields_deviation p hpd target wm first :
  target_minutes hpd = Ok target ->
  yields n
    (match hpd with
     | None => ret None
     | Some h =>
         if float_truthy h then
           optimal_worktime <- lift (int_of_float (h * 60)%float) ;;
           let d := py_sum (difftime wm optimal_worktime) in
           (if 0 <? d
            then first' <- lift (Ok first) ;;
                 choose_print p ("You worked " ++ minutes_to_hr d
                                 ++ " too much since " ++ hr_date first' ++ ".")
            else choose_print p ("You have to work " ++ minutes_to_hr (- d)
                                 ++ " much.")) ;;
           ret (Some d)
         else ret None
     end)
    (match target with
     | Some t => Some (py_sum (difftime wm t))
     | None => None
     end).
Proof.
  unfold target_minutes. destruct hpd as [h|].
  - destruct (float_truthy h).
    + destruct (int_of_float _) as [t|e]; [|discriminate].
      intros [= <-]. eapply yields_bind; [apply yields_lift|].
      cbn zeta. eapply yields_bind; [|apply yields_ret].
      destruct (0 <? _).
      * eapply yields_bind; [apply yields_lift|apply yields_print].
      * apply yields_print.
    + intros [= <-]. apply yields_ret.
  - intros [= <-]. apply yields_ret.
Qed.

Lemma yields_run_stats p entries hpd it first last target :
  let kept := kept_entries (today_of n) it entries in
  first_of kept = Ok first ->
  last_of kept = Ok last ->
  forallb (fits_a_day (dt_time n)) kept = true ->
  target_minutes hpd = Ok target ->
  yields n (run_stats (choose_print p) entries hpd p it)
         (RetStats (spec_stats (dt_time n) kept first last target)).
Proof.
  intros kept EF EL Fit ET. unfold run_stats.
  eapply yields_bind; [apply (yields_kept it entries first EF)|].
  fold kept.
  eapply yields_bind; [apply (yields_accumulate n n_valid kept 0 [] Fit)|].
  cbn [fst snd]. rewrite EF, EL.
  eapply yields_bind; [apply yields_lift|].
  eapply yields_bind; [apply yields_lift|].
  eapply yields_bind; [apply yields_print|].
  eapply yields_bind; [apply yields_print|].
  eapply yields_bind; [apply (yields_deviation p hpd target _ first ET)|].
  rewrite workamount_values, length_workamount.
  unfold round_div.
  pose proof (distinct_days_nonempty kept first EF) as NZ.
  replace (Z.of_nat (length (distinct_days kept)) =? 0) with false
    by (symmetry; apply Z.eqb_neq; lia).
  eapply yields_bind; [apply yields_lift|].
  eapply yields_bind; [apply yields_print|].
  unfold spec_stats.
  replace (match target with
           | Some t => Some (py_sum (difftime (workamount_of (dt_time n) kept []) t))
           | None => None
           end)
    with (match target with
          | Some t =>
              Some (py_sum (map (fun d => minutes_on (dt_time n) kept d - t)
                             (distinct_days kept)))
          | None => None
          end)
    by (destruct target; [rewrite difftime_spec|]; reflexivity).
  eapply yields_bind; [|apply yields_ret].
  destruct p; [apply yields_print_all|apply yields_ret].
Qed.

(** The whole of [run] for the action ['stats']. *)
Lemma run_stats_frozen g entries ov dr hpd p it first last target w :
  let kept := kept_entries (today_of n) it entries in
  clock_frozen n w ->
  log_ok entries = true ->
  first_of kept = Ok first ->
  last_of kept = Ok last ->
  forallb (fits_a_day (dt_time n)) kept = true ->
  target_minutes hpd = Ok target ->
  exists w',
    run g "stats" (Some entries) ov dr hpd p it w
    = (Ok (RetStats (spec_stats (dt_time n) kept first last target)), w').
Proof.
  intros kept F L EF EL Fit ET.
  destruct (log_ok_inv _ L) as (lst & ELst & _).
  rewrite (run_dispatch g _ _ lst ov dr hpd p it w
             (frozen_valid n n_valid w F) L ELst).
  cbn [String.eqb Ascii.eqb Bool.eqb].
  destruct (yields_run_stats p entries hpd it first last target EF EL Fit ET
              (at_dispatch p entries lst w)) as (w' & E & _).
  - intros k. rewrite clock_at_dispatch. apply F.
  - exists w'. exact E.
Qed.

End FrozenStats.

(** ** Date-sorted logs *)

Lemma leb_not_ltb s t :
  String.leb s t = true -> String.ltb s t = false -> s = t.
Proof.
  unfold String.leb, String.ltb.
  destruct (String.compare s t) eqn:C; try discriminate.
  intros _ _. apply String.compare_eq_iff, C.
Qed.

Lemma last_of_cons2 {A} (a b : A) l : last_of (a :: b :: l) = last_of (b :: l).
Proof.
  unfold last_of. cbn [rev].
  destruct (rev l) as [|x r]; reflexivity.
Qed.

Lemma max_of_sorted l e :
  date_sorted (e :: l) = true ->
  exists last, last_of (e :: l) = Ok last
    /\ fold_left (fun m x => if String.ltb m x then x else m)
                 (map hr_date l) (hr_date e) = hr_date last.
Proof.
  revert e. induction l as [|x r IH]; intros e S.
  - exists e. split; reflexivity.
  - cbn [date_sorted forallb] in S.
    apply andb_prop in S. destruct S as [S1 S2].
    apply andb_prop in S1. destruct S1 as [Lex _].
    destruct (IH x S2) as (last & EL & EM).
    exists last. rewrite last_of_cons2. split; [exact EL|].
    cbn [map fold_left].
    destruct (String.ltb (hr_date e) (hr_date x)) eqn:Lt; [exact EM|].
    rewrite (leb_not_ltb _ _ Lex Lt). exact EM.
Qed.

Lemma date_sorted_log_ok entries :
  entries <> [] -> date_sorted entries = true -> log_ok entries = true.
Proof.
  destruct entries as [|e l]; [contradiction|]. intros _ S.
  destruct (max_of_sorted l e S) as (last & EL & EM).
  unfold log_ok, py_max. cbn [map]. rewrite EL, EM. apply String.eqb_refl.
Qed.

Lemma date_sorted_app l x :
  date_sorted (l ++ [x])%list = true ->
  date_sorted l = true
  /\ forall e, In e l -> String.leb (hr_date e) (hr_date x) = true.
Proof.
  induction l as [|a l IH]; intros S.
  - split; [reflexivity|intros e []].
  - cbn [app date_sorted] in S. apply andb_prop in S. destruct S as [S1 S2].
    destruct (IH S2) as [Sl Le].
    rewrite forallb_app in S1. apply andb_prop in S1. destruct S1 as [F1 F2].
    cbn [forallb] in F2. apply andb_prop in F2. destruct F2 as [Lax _].
    split.
    + cbn [date_sorted]. rewrite F1, Sl. reflexivity.
    + intros e [<-|I]; [exact Lax|apply Le, I].
Qed.

(** In a date-sorted log with nothing dated after [today], the entries
    dated [today] are the trailing ones: dropping them from the end leaves
    exactly the entries of the other days. *)
Lemma strip_today_is_filter today entries :
  date_sorted entries = true ->
  (forall e, In e entries -> String.leb (hr_date e) today = true) ->
  rev (strip_today today (rev entries))
  = filter (fun e => negb (dated today e)) entries.
Proof.
  induction entries as [|x l IH] using rev_ind; intros S B; [reflexivity|].
  destruct (date_sorted_app _ _ S) as [Sl Le].
  rewrite rev_unit, filter_app. cbn [strip_today filter].
  destruct (dated today x) eqn:D; cbn [negb].
  - rewrite app_nil_r. apply IH; [exact Sl|].
    intros e I. apply B, in_or_app. left. exact I.
  - cbn [rev]. rewrite rev_involutive. f_equal.
    symmetry. apply forallb_filter_id, forallb_forall. intros e I.
    apply negb_true_iff. unfold dated in *.
    destruct (String.eqb (hr_date e) today) eqn:E; [|reflexivity].
    apply String.eqb_eq in E.
    assert (Bx : String.leb (hr_date x) today = true)
      by (apply B, in_or_app; right; left; reflexivity).
    pose proof (Le e I) as Lex. rewrite E in Lex.
    rewrite (String.leb_antisym _ _ Bx Lex), String.eqb_refl in D.
    discriminate.
Qed.

Lemma strip_today_all today l :
  forallb (dated today) l = true -> strip_today today l = [].
Proof.
  induction l as [|e l IH]; [reflexivity|].
  cbn [forallb strip_today]. intros H. apply andb_prop in H.
  destruct H as [-> H]. apply IH, H.
Qed.

Lemma forallb_rev_true {A} (f : A -> bool) l :
  forallb f l = true -> forallb f (rev l) = true.
Proof.
  rewrite !forallb_forall. intros H x I. apply H, in_rev, I.
Qed.

Lemma nonempty_ends {A} (l : list A) :
  l <> [] -> exists first last, first_of l = Ok first /\ last_of l = Ok last.
Proof.
  intros NE. destruct l as [|a l]; [contradiction|].
  destruct (exists_last (l := a :: l)) as (init & last & E); [discriminate|].
  exists a, last. split; [reflexivity|]. rewrite E. apply last_of_app.
Qed.

(** When every entry is dated today and today is excluded, the loop of
    lines 181-182 pops the whole list and then fails on [entries[-1]]. *)
Lemma run_stats_all_today n g entries ov dr hpd p w :
  valid_datetime n = true ->
  clock_frozen n w ->
  log_ok entries = true ->
  forallb (dated (today_of n)) entries = true ->
  exists w',
    run g "stats" (Some entries) ov dr hpd p false w = (Raise IndexError, w').
Proof.
  intros V F L A.
  destruct (log_ok_inv _ L) as (lst & ELst & _).
  rewrite (run_dispatch g _ _ lst ov dr hpd p false w
             (frozen_valid n V w F) L ELst).
  cbn [String.eqb Ascii.eqb Bool.eqb].
  unfold run_stats. cbn [negb].
  apply (fails_here n).
  - apply (fails_here n). apply (fails_drop_today n V).
    apply strip_today_all, forallb_rev_true, A.
  - intros k. rewrite clock_at_dispatch. apply F.
Qed.

(** ** The text of [minutes_to_hr] and the parser of times *)

Lemma ends_m_append x r : ends_m r = true -> ends_m (x ++ r) = true.
Proof.
  intros R. induction x as [|c x IH]; [exact R|].
  cbn [append ends_m]. destruct (x ++ r) eqn:E; [|exact IH].
  discriminate.
Qed.

Lemma ends_m_not_h s : ends_m s = true -> endswith_h s = false.
Proof.
  induction s as [|c s IH]; [reflexivity|].
  cbn [ends_m endswith_h]. destruct s as [|c' s'].
  - intros E. apply Ascii.eqb_eq in E. subst c. reflexivity.
  - exact IH.
Qed.

Lemma ends_m_tail c r :
  ends_m (String c r) = true -> Ascii.eqb c "m" = false -> ends_m r = true.
Proof.
  cbn [ends_m]. destruct r; [intros -> E; discriminate|intros H _; exact H].
Qed.

Lemma digit_not_m c : is_digit c = true -> Ascii.eqb c "m" = false.
Proof.
  intros D. destruct (Ascii.eqb c "m") eqn:E; [|reflexivity].
  apply Ascii.eqb_eq in E. subst c. discriminate.
Qed.

Lemma in_class_digit a b c : in_class a b c = true -> is_digit c = true.
Proof.
  unfold in_class. intros H. apply andb_prop in H. destruct H as [H _].
  apply andb_prop in H. destruct H as [H _]. exact H.
Qed.

Lemma stops_two a b c d : stops_at_m (two a b c d).
Proof.
  intros s v r E I. unfold two in I.
  destruct s as [|x [|y s]]; try contradiction.
  destruct (in_class a b x && in_class c d y) eqn:C; [|contradiction].
  destruct I as [[= _ <-]|[]].
  apply andb_prop in C. destruct C as [Cx Cy].
  apply (ends_m_tail y); [|apply digit_not_m, (in_class_digit _ _ _ Cy)].
  apply (ends_m_tail x); [exact E|apply digit_not_m, (in_class_digit _ _ _ Cx)].
Qed.

Lemma stops_one a b : stops_at_m (one a b).
Proof.
  intros s v r E I. unfold one in I.
  destruct s as [|x s]; try contradiction.
  destruct (in_class a b x) eqn:C; [|contradiction].
  destruct I as [[= _ <-]|[]].
  apply (ends_m_tail x); [exact E|apply digit_not_m, (in_class_digit _ _ _ C)].
Qed.

Lemma stops_lit_h : stops_at_m (lit "h").
Proof.
  intros s v r E I. unfold lit in I.
  destruct s as [|x s]; try contradiction.
  destruct (Ascii.eqb (lower x) (lower "h")) eqn:C; [|contradiction].
  destruct I as [[= _ <-]|[]].
  apply (ends_m_tail x); [exact E|].
  destruct (Ascii.eqb x "m") eqn:M; [|reflexivity].
  apply Ascii.eqb_eq in M. subst x. discriminate.
Qed.

Lemma stops_alt {A} (ms : list (matcher A)) :
  Forall stops_at_m ms -> stops_at_m (alt ms).
Proof.
  intros F s a r E I. unfold alt in I. apply in_flat_map in I.
  destruct I as (m & Im & I). rewrite Forall_forall in F.
  exact (F m Im s a r E I).
Qed.

Lemma stops_seq {A B} (m : matcher A) (k : A -> matcher B) :
  stops_at_m m -> (forall a, stops_at_m (k a)) -> stops_at_m (seq_ m k).
Proof.
  intros Hm Hk s b r E I. unfold seq_ in I. apply in_flat_map in I.
  destruct I as ([a r1] & I1 & I2).
  exact (Hk a r1 b r (Hm s a r1 E I1) I2).
Qed.

Lemma stops_done {A} (a : A) : stops_at_m (fun r => [(a, r)]).
Proof. intros s b r E [[= _ <-]|[]]. exact E. Qed.

Lemma stops_re_H : stops_at_m re_H.
Proof.
  apply stops_alt. repeat constructor; (apply stops_two || apply stops_one).
Qed.

Lemma stops_re_M : stops_at_m re_M.
Proof.
  apply stops_alt. repeat constructor; (apply stops_two || apply stops_one).
Qed.

Lemma whole_stops {A} (m : matcher A) s :
  stops_at_m m -> ends_m s = true -> whole m s = Raise ValueError.
Proof.
  intros Hm E. unfold whole. destruct (m s) as [|[a r] l] eqn:C; [reflexivity|].
  destruct r; [|reflexivity].
  assert (I : In (a, EmptyString) (m s)) by (rewrite C; left; reflexivity).
  pose proof (Hm s a _ E I). discriminate.
Qed.

(** A text that ends with ["m"] is not a time of day. *)
Lemma time_ending_in_m_rejected s :
  ends_m s = true -> datetime_time_from_hour (Some s) = Raise ValueError.
Proof.
  intros E. unfold datetime_time_from_hour.
  rewrite (ends_m_not_h s E). unfold strptime_HhM.
  rewrite whole_stops; [reflexivity| |exact E].
  apply stops_seq; [apply stops_re_H|]. intros h.
  apply stops_seq; [apply stops_lit_h|]. intros _.
  apply stops_seq; [apply stops_re_M|]. intros m.
  apply stops_done.
Qed.

Lemma minutes_to_hr_ends_m m : ends_m (minutes_to_hr m) = true.
Proof.
  unfold minutes_to_hr. repeat apply ends_m_append. reflexivity.
Qed.

Lemma check_hr_all : forallb check_hr (Zrange 0 1440) = true.
Proof. vm_compute. reflexivity. Qed.

(** ** Printing does not feed back into the computation *)

Lemma same_refl w : same_but_stdout w w.
Proof. repeat split. Qed.

Lemma agree_ret {A} (a : A) : agree (ret a) (ret a).
Proof. intros w1 w2 S. split; [reflexivity|exact S]. Qed.

Lemma agree_raise {A} e : agree (@raise A e) (raise e).
Proof. intros w1 w2 S. split; [reflexivity|exact S]. Qed.

Lemma agree_lift {A} (o : outcome A) : agree (lift o) (lift o).
Proof. intros w1 w2 S. split; [reflexivity|exact S]. Qed.

Lemma agree_bind {A B} (m1 m2 : M A) (f1 f2 : A -> M B) :
  agree m1 m2 -> (forall a, agree (f1 a) (f2 a)) ->
  agree (bind m1 f1) (bind m2 f2).
Proof.
  intros Hm Hf w1 w2 S. destruct (Hm w1 w2 S) as [E S']. unfold bind.
  destruct (m1 w1) as [[a1|e1] v1], (m2 w2) as [[a2|e2] v2];
    cbn [fst snd] in *; try discriminate.
  - injection E as <-. apply Hf, S'.
  - injection E as <-. split; [reflexivity|exact S'].
Qed.

Lemma agree_assert b : agree (assert_ b) (assert_ b).
Proof. destruct b; [apply agree_ret|apply agree_raise]. Qed.

Lemma agree_now : agree datetime_now datetime_now.
Proof.
  intros w1 w2 (C & T & F & P & O). unfold datetime_now. cbn [fst snd].
  rewrite C, T. repeat split; cbn; congruence.
Qed.

Lemma agree_get_objs : agree get_objs get_objs.
Proof.
  intros w1 w2 S. unfold get_objs. cbn [fst snd].
  split; [|exact S]. destruct S as (_ & _ & _ & _ & ->). reflexivity.
Qed.

Lemma agree_set_objs l : agree (set_objs l) (set_objs l).
Proof.
  intros w1 w2 (C & T & F & P & O). unfold set_objs. cbn [fst snd].
  repeat split; cbn; congruence.
Qed.

Lemma agree_read_rows f : agree (read_rows f) (read_rows f).
Proof.
  intros w1 w2 S. unfold read_rows.
  destruct S as (C & T & F & P & O). rewrite F.
  destruct (lookup_file (normpath f) (files w2)); cbn [fst snd]; repeat split; assumption.
Qed.

Lemma agree_print_both line : agree (builtins_print line) (builtins_print line).
Proof.
  intros w1 w2 (C & T & F & P & O). unfold builtins_print. cbn [fst snd].
  repeat split; cbn; congruence.
Qed.

Lemma agree_print_left line : agree (ret tt) (builtins_print line).
Proof.
  intros w1 w2 (C & T & F & P & O). unfold builtins_print, ret. cbn [fst snd].
  repeat split; cbn; congruence.
Qed.

Lemma agree_choose_print line :
  agree (choose_print true line) (choose_print false line).
Proof. apply agree_print_left. Qed.

Lemma agree_print_all_left lines : agree (print_all lines) (ret tt).
Proof.
  intros w1 w2 S. revert w1 S.
  induction lines as [|l r IH]; intros w1 S; [apply agree_ret, S|].
  cbn [print_all]. unfold bind. cbn [builtins_print].
  apply IH. destruct S as (C & T & F & P & O).
  repeat split; cbn; congruence.
Qed.

Ltac agree_step :=
  match goal with
  | |- agree (bind _ _) (bind _ _) => apply agree_bind; [|intros ?]
  | |- agree (ret _) (ret _) => apply agree_ret
  | |- agree (raise _) (raise _) => apply agree_raise
  | |- agree (lift _) (lift _) => apply agree_lift
  | |- agree (assert_ _) (assert_ _) => apply agree_assert
  | |- agree datetime_now datetime_now => apply agree_now
  | |- agree get_objs get_objs => apply agree_get_objs
  | |- agree (set_objs _) (set_objs _) => apply agree_set_objs
  | |- agree (read_rows _) (read_rows _) => apply agree_read_rows
  | |- agree (choose_print true _) (choose_print false _) =>
      apply agree_choose_print
  | |- agree (if ?b then _ else _) (if ?b then _ else _) => destruct b
  | |- agree (match ?x with Some _ => _ | None => _ end)
             (match ?x with Some _ => _ | None => _ end) => destruct x
  end.

Lemma agree_now_arrived : agree now_arrived now_arrived.
Proof.
  unfold now_arrived, date_from_now, time_from_now. repeat agree_step.
Qed.

Lemma agree_time_from_now : agree datetime_time_from_now datetime_time_from_now.
Proof. unfold datetime_time_from_now. repeat agree_step. Qed.

Lemma agree_working_time e : agree (working_time e) (working_time e).
Proof.
  unfold working_time. repeat agree_step. apply agree_time_from_now.
Qed.

Lemma agree_accumulate entries total wm :
  agree (accumulate entries total wm) (accumulate entries total wm).
Proof.
  revert total wm. induction entries as [|e l IH]; intros total wm.
  - apply agree_ret.
  - cbn [accumulate]. apply agree_bind; [apply agree_working_time|].
    intros t. apply IH.
Qed.

Lemma agree_drop_today l : agree (drop_today l) (drop_today l).
Proof.
  induction l as [|e l IH]; [apply agree_raise|].
  cbn [drop_today]. apply agree_bind; [apply agree_now_arrived|].
  intros x. destruct (String.eqb _ _); [exact IH|apply agree_ret].
Qed.

Lemma agree_get_data f : agree (get_data f) (get_data f).
Proof. unfold get_data. repeat agree_step. Qed.

Lemma agree_set_finish_now e : agree (set_finish_now e) (set_finish_now e).
Proof.
  unfold set_finish_now. repeat agree_step. apply agree_time_from_now.
Qed.

Lemma agree_set_start_now e : agree (set_start_now e) (set_start_now e).
Proof.
  unfold set_start_now. repeat agree_step. apply agree_time_from_now.
Qed.

Lemma agree_run_stats entries hpd it :
  agree (run_stats (choose_print true) entries hpd true it)
        (run_stats (choose_print false) entries hpd false it).
Proof.
  unfold run_stats.
  apply agree_bind.
  { destruct (negb it); [|apply agree_ret].
    apply agree_bind; [apply agree_drop_today|intros ?; apply agree_ret]. }
  intros kept.
  apply agree_bind; [apply agree_accumulate|]. intros tw.
  repeat agree_step.
  apply agree_print_all_left.
Qed.

Lemma agree_run_arrive g entries last :
  agree (run_arrive g (choose_print true) entries last)
        (run_arrive g (choose_print false) entries last).
Proof.
  unfold run_arrive, args_overwrite. destruct (is_unfinished last).
  - apply agree_bind; [destruct (args g); repeat agree_step|intros o].
    destruct o; repeat agree_step. apply agree_set_start_now.
  - repeat agree_step. apply agree_now_arrived.
Qed.

Lemma agree_run_quit g entries last :
  agree (run_quit g (choose_print true) entries last)
        (run_quit g (choose_print false) entries last).
Proof.
  unfold run_quit, args_overwrite. destruct (is_unfinished last).
  - repeat agree_step. apply agree_set_finish_now.
  - apply agree_bind; [destruct (args g); repeat agree_step|intros o].
    destruct o; repeat agree_step. apply agree_set_finish_now.
Qed.

Lemma agree_run g action_ entries ov dr hpd it :
  agree (run g action_ entries ov dr hpd true it)
        (run g action_ entries ov dr hpd false it).
Proof.
  unfold run.
  apply agree_bind;
    [destruct entries; [apply agree_ret|apply agree_get_data]|intros l].
  apply agree_bind; [apply agree_set_objs|intros _].
  apply agree_bind; [apply agree_lift|intros latest].
  apply agree_bind; [apply agree_lift|intros last].
  apply agree_bind; [apply agree_assert|intros _].
  apply agree_bind; [apply agree_now_arrived|intros now1].
  apply agree_bind; [apply agree_now_arrived|intros now2].
  apply agree_bind;
    [destruct (String.eqb _ _); apply agree_choose_print|intros _].
  destruct (String.eqb action_ "arrive"); [apply agree_run_arrive|].
  destruct (String.eqb action_ "quit"); [apply agree_run_quit|].
  destruct (String.eqb action_ "stats"); [apply agree_run_stats|].
  apply agree_ret.
Qed.

(** * The claims of the specification *)

(** ** C1: the scenario *)

(** C1, as the specification states it, fails: on the two-entry log with a
    target of 8 hours, [stats] does not return a total of 730 minutes. *)
Lemma scenario_total_is_not_730 :
  ~ exists o w',
      run (mkGlobals None) "stats" (Some Sample.scenario_log) false false
          (Some 8%float) false true Sample.world = (Ok (RetStats o), w')
      /\ total_worktime o = 730.
Proof.
  intros (o & w' & E & T).
  assert (R : fst (run (mkGlobals None) "stats" (Some Sample.scenario_log)
                       false false (Some 8%float) false true Sample.world)
              = Ok (RetStats (mkOutdata 2 "24/01/01" "24/01/02" 750
                                        (Some (-210)) 375)))
    by (vm_compute; reflexivity).
  rewrite E in R. cbn [fst] in R. injection R as ->.
  discriminate T.
Qed.

(** C1, amended: for the log [{24/01/01, 08h00, 12h00}, {24/01/02, 09h00,
    17h30}] and a target of 8.0 hours a day, [stats] returns
    [total_worktime] = 750, [nb_day] = 2, [total_difftime] = -210 and
    [average_per_day] = 375; the per-day map holds 240 and 510 minutes, the
    target is 480 minutes and the deviations of the two days are -240 and
    +30. *)
Theorem scenario_stats g ov dr p w :
  clock_valid w ->
  (exists w',
     run g "stats" (Some Sample.scenario_log) ov dr (Some 8%float) p true w
     = (Ok (RetStats (mkOutdata 2 "24/01/01" "24/01/02" 750 (Some (-210)) 375)),
        w'))
  /\ (forall v, fst (accumulate Sample.scenario_log 0 [] v)
                = Ok (750, [("24/01/01", 240); ("24/01/02", 510)]))
  /\ int_of_float (8 * 60)%float = Ok 480
  /\ difftime [("24/01/01", 240); ("24/01/02", 510)] 480 = [-240; 30].
Proof.
  intros V. split; [|repeat split; intros; vm_compute; reflexivity].
  rewrite (run_dispatch g _ _ Sample.second_of_january ov dr _ p true w V)
    by reflexivity.
  cbn [String.eqb Ascii.eqb Bool.eqb].
  set (v := at_dispatch _ _ _ _).
  exists (snd (run_stats (choose_print p) Sample.scenario_log (Some 8%float)
                         p true v)).
  rewrite (surjective_pairing (run_stats _ _ _ _ _ _)) at 1. f_equal.
  clearbody v. destruct p; vm_compute; reflexivity.
Qed.

Lemma scenario_stats_witness :
  clock_valid Sample.world
  /\ exists w',
       run (mkGlobals None) "stats" (Some Sample.scenario_log) false false
           (Some 8%float) false true Sample.world
       = (Ok (RetStats (mkOutdata 2 "24/01/01" "24/01/02" 750 (Some (-210))
                                  375)), w').
Proof.
  assert (V : clock_valid Sample.world) by (intros k; reflexivity).
  split; [exact V|].
  exact (proj1 (scenario_stats (mkGlobals None) false false false
                               Sample.world V)).
Defined.

(** ** C2: statistics without today *)

(** C2, as the specification states it, fails: when every entry of the log
    is dated today and today is excluded, [stats] returns no record at
    all. *)
Lemma stats_today_only_returns_nothing :
  ~ exists o w',
      run (mkGlobals None) "stats" (Some Sample.today_only) false false None
          false false Sample.world = (Ok (RetStats o), w').
Proof.
  intros (o & w' & E).
  assert (R : fst (run (mkGlobals None) "stats" (Some Sample.today_only)
                       false false None false false Sample.world)
              = Raise IndexError) by (vm_compute; reflexivity).
  rewrite E in R. discriminate R.
Qed.

(** The loop looks at the end of the list only: an entry of today that is
    followed by an entry dated later is kept, and its minutes (30 here)
    are counted. *)
Lemma stats_keeps_today_before_later_entries :
  date_sorted [Sample.this_morning; Sample.tomorrow] = true
  /\ fst (run (mkGlobals None) "stats"
              (Some [Sample.this_morning; Sample.tomorrow]) false false None
              false false Sample.world)
     = Ok (RetStats (mkOutdata 2 "24/03/05" "24/03/06" 90 None 45)).
Proof. split; vm_compute; reflexivity. Qed.

(** C2, amended: take a non-empty, date-sorted log and a clock that reads
    [n] during the run, and call [stats] with [include_today] false.
    If every entry is dated today, the loop that drops the trailing entries
    of today empties the list and [stats] raises [IndexError].
    Otherwise, if no entry is dated after today and the sessions of the
    other days have durations that fit in a day, [stats] returns a record:
    the entries it kept are the log without its trailing entries of today,
    these are exactly the entries not dated today, and [total_worktime] is
    the sum of their minutes. *)
Theorem stats_without_today g entries ov dr hpd p target n w :
  valid_datetime n = true ->
  clock_frozen n w ->
  entries <> [] ->
  date_sorted entries = true ->
  target_minutes hpd = Ok target ->
  let today := today_of n in
  let others := filter (fun e => negb (dated today e)) entries in
  (others = [] ->
   exists w',
     run g "stats" (Some entries) ov dr hpd p false w = (Raise IndexError, w'))
  /\ (others <> [] ->
      (forall e, In e entries -> String.leb (hr_date e) today = true) ->
      forallb (fits_a_day (dt_time n)) others = true ->
      kept_entries today false entries = others
      /\ exists o w',
           run g "stats" (Some entries) ov dr hpd p false w
           = (Ok (RetStats o), w')
           /\ total_worktime o = py_sum (map (minutes_at (dt_time n)) others)).
Proof.
  intros V F NE S ET today others. subst today.
  pose proof (date_sorted_log_ok entries NE S) as L.
  split.
  - intros E. apply (run_stats_all_today n g entries ov dr hpd p w V F L).
    apply forallb_forall. intros e I.
    destruct (dated (today_of n) e) eqn:D; [reflexivity|].
    assert (I' : In e others)
      by (apply filter_In; split; [exact I|rewrite D; reflexivity]).
    rewrite E in I'. contradiction.
  - intros NO B Fit.
    assert (K : kept_entries (today_of n) false entries = others)
      by (apply strip_today_is_filter; assumption).
    split; [exact K|].
    destruct (nonempty_ends others NO) as (first & last & EF & EL).
    destruct (run_stats_frozen n V g entries ov dr hpd p false first last
                               target w F L) as (w' & E);
      rewrite ?K; try assumption.
    exists (spec_stats (dt_time n) others first last target), w'.
    split; [|reflexivity].
    rewrite K in E. exact E.
Qed.

Lemma stats_without_today_witness :
  exists o w',
    run (mkGlobals None) "stats" (Some Sample.open_log) false false None
        false false Sample.world = (Ok (RetStats o), w')
    /\ total_worktime o = 510.
Proof.
  assert (F : clock_frozen Sample.now Sample.world)
    by (intros k; reflexivity).
  destruct (stats_without_today (mkGlobals None) Sample.open_log false false
              None false None Sample.now Sample.world
              eq_refl F ltac:(discriminate) eq_refl eq_refl) as [_ H].
  destruct H as [_ H].
  - discriminate.
  - intros e [<-|[<-|[]]]; reflexivity.
  - reflexivity.
  - exact H.
Defined.

(** ** C3: [minutes_to_hr] and the parser of times *)

(** C3, as the specification states it, fails: 125 minutes are formatted as
    ["02h05m"], which [datetime_time_from_hour] does not parse back to
    02:05. *)
Lemma minutes_to_hr_125_not_parsed :
  minutes_to_hr 125 = "02h05m"
  /\ datetime_time_from_hour (Some (minutes_to_hr 125))
     <> Ok (Some (mktime (125 / 60) (125 mod 60))).
Proof. split; [reflexivity|]. vm_compute. discriminate. Qed.

(** C3, amended: for every integer [m], the text [minutes_to_hr m] ends
    with the unit letter ["m"] and the parser of times rejects it with
    [ValueError]; for [0 <= m < 1440], the same text without its last
    character parses back to the hour [m // 60] and the minute [m % 60]. *)
Theorem minutes_to_hr_parse m :
  datetime_time_from_hour (Some (minutes_to_hr m)) = Raise ValueError
  /\ (0 <= m < 1440 ->
      datetime_time_from_hour (Some (drop_last (minutes_to_hr m)))
      = Ok (Some (mktime (m / 60) (m mod 60)))).
Proof.
  split.
  - apply time_ending_in_m_rejected, minutes_to_hr_ends_m.
  - intros B.
    assert (C : check_hr m = true)
      by (apply (forallb_Zrange _ 0 1440); [exact check_hr_all|lia]).
    unfold check_hr in C.
    destruct (datetime_time_from_hour _) as [[t|]|]; try discriminate.
    apply time_eqb_eq in C. subst t. reflexivity.
Qed.

Lemma minutes_to_hr_parse_witness :
  0 <= 125 < 1440
  /\ datetime_time_from_hour (Some "02h05") = Ok (Some (mktime 2 5)).
Proof.
  assert (B : 0 <= 125 < 1440) by lia.
  split; [exact B|].
  exact (proj2 (minutes_to_hr_parse 125) B).
Defined.

(** ** C4: the notification tool *)





(** ** C5: [arrive] with the argument [overwrite] *)

(** C5 does not hold of the code: [run] never reads its parameter
    [overwrite]; the test of line 155 reads the global [args].  Called with
    [overwrite=True] from a module that imported [temps], so that [args] is
    unbound, [run] raises [NameError] on an open log; called with
    [overwrite=True] while [args.overwrite] is false, it reports the
    conflict.  In both cases the last entry keeps its start. *)
Theorem arrive_overwrite_argument_ignored :
  (let r := run (mkGlobals None) "arrive" (Some Sample.open_log) true false
                None true true Sample.world in
   fst r = Raise NameError /\ objs (snd r) = Sample.open_log)
  /\ (let r := run (mkGlobals (Some Sample.cli_arrive)) "arrive"
                   (Some Sample.open_log) true false None true true
                   Sample.world in
      fst r = Ok RetNone /\ objs (snd r) = Sample.open_log).
Proof. split; split; vm_compute; reflexivity. Qed.

(** ** C6: [arrive] on an open log, called without overwrite *)

(** C6 does not hold of the code, by the defect of C5: the test of line 155
    reads the global [args], not the parameter [overwrite].  Called with
    [overwrite=False] from a module that imported [temps], so that [args]
    is unbound, [run] raises [NameError] on an open log and reports no
    conflict; called with [overwrite=False] while [args.overwrite] is true,
    it moves the start of the last entry from 08h30 to the time of the
    clock, in the object of the caller, and returns the log. *)
Theorem arrive_conflict_argument_ignored :
  (let r := run (mkGlobals None) "arrive" (Some Sample.open_log) false false
                None true true Sample.world in
   fst r = Raise NameError
   /\ objs (snd r) = Sample.open_log
   /\ stdout (snd r) = [])
  /\ (let r := run (mkGlobals (Some Sample.cli_arrive_overwrite)) "arrive"
                   (Some Sample.open_log) false false None true true
                   Sample.world in
      let moved := mkEntry (mkdate 2024 3 5) (mktime 9 0) None in
      fst r = Ok (RetEntries [Sample.monday; moved])
      /\ objs (snd r) = [Sample.monday; moved]
      /\ moved <> Sample.this_morning).
Proof.
  split; repeat split; try (vm_compute; reflexivity).
  intros H. discriminate H.
Qed.

(** ** C7: the deviation from the target *)

(** C7, as the specification states it, fails: with one day of 240 minutes
    and a target of 7.99 hours, the deviation returned is not 240 minus
    7.99 * 60 (that is -239.4): the target is first truncated to 479 whole
    minutes and the deviation is -239. *)
Lemma deviation_truncates_the_target :
  ~ exists o w' d,
      run (mkGlobals None) "stats" (Some [Sample.first_of_january]) false
          false (Some Sample.h_7_99) false true Sample.world
      = (Ok (RetStats o), w')
      /\ total_difftime o = Some d
      /\ (inject_Z d == inject_Z 240 - Q_of_float Sample.h_7_99 * 60)%Q.
Proof.
  intros (o & w' & d & E & T & C).
  assert (R : fst (run (mkGlobals None) "stats"
                       (Some [Sample.first_of_january]) false false
                       (Some Sample.h_7_99) false true Sample.world)
              = Ok (RetStats (mkOutdata 1 "24/01/01" "24/01/01" 240
                                        (Some (-239)) 240)))
    by (vm_compute; reflexivity).
  rewrite E in R. cbn [fst] in R. injection R as ->.
  cbn [total_difftime] in T. injection T as <-.
  vm_compute in C. discriminate C.
Qed.

(** C7, amended: when [stats] returns (the clock reads [n] during the run,
    the log passes the check of line 145, some entry is kept and the
    sessions kept have durations that fit in a day), the days of the
    per-day map are exactly the days that have a kept entry, each once.  If
    [hours_per_day] is absent or zero the record has no deviation.  If it
    is a non-zero float [h] and [int (h * 60)] is the integer [t] (the
    target truncated to whole minutes), [total_difftime] is the sum over
    those days of the minutes worked that day minus [t]. *)
Theorem stats_deviation g entries ov dr hpd p it n w :
  valid_datetime n = true ->
  clock_frozen n w ->
  log_ok entries = true ->
  let kept := kept_entries (today_of n) it entries in
  kept <> [] ->
  forallb (fits_a_day (dt_time n)) kept = true ->
  let days := distinct_days kept in
  NoDup days
  /\ (forall d, In d days <-> exists e, In e kept /\ hr_date e = d)
  /\ (hpd = None \/ (exists h, hpd = Some h /\ float_truthy h = false) ->
      exists o w',
        run g "stats" (Some entries) ov dr hpd p it w = (Ok (RetStats o), w')
        /\ total_difftime o = None)
  /\ (forall h t,
        hpd = Some h -> float_truthy h = true ->
        int_of_float (h * 60)%float = Ok t ->
        exists o w',
          run g "stats" (Some entries) ov dr hpd p it w = (Ok (RetStats o), w')
          /\ total_difftime o
             = Some (py_sum (map (fun d => minutes_on (dt_time n) kept d - t)
                              days))).
Proof.
  intros V F L kept NE Fit days.
  destruct (nonempty_ends kept NE) as (first & last & EF & EL).
  split; [apply distinct_days_NoDup|].
  split; [apply distinct_days_In|].
  split.
  - intros H.
    assert (ET : target_minutes hpd = Ok None).
    { destruct H as [->|(h & -> & T)]; [reflexivity|].
      unfold target_minutes. rewrite T. reflexivity. }
    destruct (run_stats_frozen n V g entries ov dr hpd p it first last None w
                               F L EF EL Fit ET) as (w' & E).
    eexists. exists w'. split; [exact E|reflexivity].
  - intros h t -> T I.
    assert (ET : target_minutes (Some h) = Ok (Some t))
      by (unfold target_minutes; rewrite T, I; reflexivity).
    destruct (run_stats_frozen n V g entries ov dr (Some h) p it first last
                               (Some t) w F L EF EL Fit ET) as (w' & E).
    eexists. exists w'. split; [exact E|reflexivity].
Qed.

Lemma stats_deviation_witness :
  exists o w',
    run (mkGlobals None) "stats" (Some Sample.scenario_log) false false
        (Some Sample.h_7_99) false true Sample.world = (Ok (RetStats o), w')
    /\ total_difftime o = Some ((240 - 479) + (510 - 479)).
Proof.
  assert (F : clock_frozen Sample.now Sample.world)
    by (intros k; reflexivity).
  destruct (stats_deviation (mkGlobals None) Sample.scenario_log false false
              (Some Sample.h_7_99) false true Sample.now Sample.world
              eq_refl F eq_refl ltac:(discriminate) eq_refl)
    as (_ & _ & _ & H).
  exact (H Sample.h_7_99 479 eq_refl eq_refl eq_refl).
Defined.

(** ** C8: a session that ends before it starts *)

(** C8, as the specification states it, fails: for a session from 08h00 to
    07h00 the computation of the duration returns nothing. *)
Lemma backwards_session_has_no_duration :
  ~ exists t w', working_time Sample.backwards Sample.world = (Ok t, w').
Proof.
  intros (t & w' & E).
  assert (R : fst (working_time Sample.backwards Sample.world)
              = Raise ValueError) by (vm_compute; reflexivity).
  rewrite E in R. discriminate R.
Qed.

Lemma datetime_time_cases h m :
  (exists t, datetime_time h m = Ok t) \/ datetime_time h m = Raise ValueError.
Proof. unfold datetime_time. destruct (valid_time _); eauto. Qed.

Lemma working_time_cases e w :
  (exists t w', working_time e w = (Ok t, w'))
  \/ (exists w', working_time e w = (Raise ValueError, w')).
Proof.
  unfold working_time, datetime_time_from_now, bind, datetime_now, lift, ret.
  destruct (time_stop e) as [t|].
  - destruct (datetime_time_cases
                ((hour t * 60 + minute t
                  - (hour (time_start e) * 60 + minute (time_start e))) / 60)
                ((hour t * 60 + minute t
                  - (hour (time_start e) * 60 + minute (time_start e))) mod 60))
      as [(x & ->)| ->]; eauto.
  - destruct (datetime_time_cases (hour (dt_time (clock w (tick w))))
                                  (minute (dt_time (clock w (tick w)))))
      as [(x & ->)| ->]; [|eauto].
    match goal with
    | |- context [datetime_time ?a ?b] =>
        destruct (datetime_time_cases a b) as [(y & ->)| ->]; eauto
    end.
Qed.

Lemma working_time_backwards e stop w :
  time_stop e = Some stop ->
  datetime_time_to_minutes stop < datetime_time_to_minutes (time_start e) ->
  working_time e w = (Raise ValueError, w).
Proof.
  unfold datetime_time_to_minutes. intros E B.
  unfold working_time. rewrite E.
  rewrite (bind_ok _ _ w _ w) by reflexivity. cbn zeta.
  unfold lift, datetime_time, valid_time. cbn [hour minute].
  set (m := hour stop * 60 + minute stop - _).
  assert (m / 60 < 0) by (apply Z.div_lt_upper_bound; lia).
  replace (0 <=? m / 60) with false by (symmetry; apply Z.leb_gt; lia).
  reflexivity.
Qed.

Lemma accumulate_backwards e stop entries :
  time_stop e = Some stop ->
  datetime_time_to_minutes stop < datetime_time_to_minutes (time_start e) ->
  In e entries ->
  forall total wm w,
  exists w', accumulate entries total wm w = (Raise ValueError, w').
Proof.
  intros E B. induction entries as [|x l IH]; intros I total wm w; [contradiction|].
  cbn [accumulate].
  destruct (working_time_cases x w) as [(t & w1 & Ex)|(w1 & Ex)].
  - destruct I as [->|I].
    + rewrite (working_time_backwards e stop w E B) in Ex. discriminate Ex.
    + rewrite (bind_ok _ _ _ _ _ Ex). apply IH, I.
  - exists w1. apply bind_raise, Ex.
Qed.

Lemma backwards_does_not_fit e stop now :
  time_stop e = Some stop ->
  datetime_time_to_minutes stop < datetime_time_to_minutes (time_start e) ->
  fits_a_day now e = false.
Proof.
  unfold datetime_time_to_minutes, fits_a_day, minutes_at. intros -> B.
  apply andb_false_iff. left. apply Z.leb_gt. lia.
Qed.

Lemma run_stats_backwards n g entries ov dr hpd p it e stop w :
  valid_datetime n = true ->
  clock_frozen n w ->
  log_ok entries = true ->
  time_stop e = Some stop ->
  datetime_time_to_minutes stop < datetime_time_to_minutes (time_start e) ->
  In e (kept_entries (today_of n) it entries) ->
  exists w',
    run g "stats" (Some entries) ov dr hpd p it w = (Raise ValueError, w').
Proof.
  intros V F L E B I.
  destruct (log_ok_inv _ L) as (lst & ELst & _).
  rewrite (run_dispatch g _ _ lst ov dr hpd p it w
             (frozen_valid n V w F) L ELst).
  cbn [String.eqb Ascii.eqb Bool.eqb].
  unfold run_stats.
  destruct (kept_entries (today_of n) it entries) as [|first rest] eqn:K;
    [contradiction|].
  apply (fails_later n _ _ (first :: rest)).
  - rewrite <- K. apply (yields_kept n V it entries first).
    rewrite K. reflexivity.
  - apply (fails_here n). intros w1 _.
    apply (accumulate_backwards e stop _ E B I).
  - intros k. rewrite clock_at_dispatch. apply F.
Qed.

(** C8, amended: a finished entry whose end precedes its start is not
    accepted: [working_time] raises [ValueError] (its minutes, negative,
    cannot be packed in a [datetime.time]) and so does [stats] on every log
    in which such an entry is among the entries it measures: all the
    entries with [include_today] true and, with a clock that keeps its
    reading, the entries kept once the trailing entries dated today are
    dropped with [include_today] false.  A backwards entry dropped there is
    never measured: when the entries kept have durations that fit in a day,
    it is not among them and [stats] returns its record.  No negative
    number of minutes reaches the statistics. *)
Theorem end_before_start_raises e stop :
  time_stop e = Some stop ->
  datetime_time_to_minutes stop < datetime_time_to_minutes (time_start e) ->
  (forall w, working_time e w = (Raise ValueError, w))
  /\ (forall g entries ov dr hpd p w,
        In e entries -> clock_valid w -> log_ok entries = true ->
        fst (run g "stats" (Some entries) ov dr hpd p true w)
        = Raise ValueError)
  /\ (forall g entries ov dr hpd p it n w,
        valid_datetime n = true -> clock_frozen n w ->
        log_ok entries = true ->
        In e (kept_entries (today_of n) it entries) ->
        fst (run g "stats" (Some entries) ov dr hpd p it w)
        = Raise ValueError)
  /\ (forall g entries ov dr hpd p n w target,
        valid_datetime n = true -> clock_frozen n w ->
        log_ok entries = true ->
        In e entries ->
        let kept := kept_entries (today_of n) false entries in
        kept <> [] ->
        forallb (fits_a_day (dt_time n)) kept = true ->
        target_minutes hpd = Ok target ->
        ~ In e kept
        /\ exists o w',
             run g "stats" (Some entries) ov dr hpd p false w
             = (Ok (RetStats o), w')).
Proof.
  intros E B. split; [intros w; apply (working_time_backwards e stop w E B)|].
  split.
  { intros g entries ov dr hpd p w I V L.
    destruct (log_ok_inv _ L) as (lst & ELst & _).
    rewrite (run_dispatch g _ _ lst ov dr hpd p true w V L ELst).
    cbn [String.eqb Ascii.eqb Bool.eqb].
    unfold run_stats. cbn [negb].
    rewrite (bind_ok _ _ _ entries (at_dispatch p entries lst w))
      by reflexivity.
    destruct (accumulate_backwards e stop entries E B I 0 []
                (at_dispatch p entries lst w)) as (w' & A).
    rewrite (bind_raise _ _ _ _ _ A). reflexivity. }
  split.
  { intros g entries ov dr hpd p it n w V F L I.
    destruct (run_stats_backwards n g entries ov dr hpd p it e stop w
                V F L E B I) as (w' & R).
    rewrite R. reflexivity. }
  intros g entries ov dr hpd p n w target V F L I kept NE Fit ET. split.
  - intros K. rewrite forallb_forall in Fit.
    pose proof (Fit e K) as Fe.
    rewrite (backwards_does_not_fit e stop (dt_time n) E B) in Fe.
    discriminate Fe.
  - destruct (nonempty_ends kept NE) as (first & last & EF & EL).
    destruct (run_stats_frozen n V g entries ov dr hpd p false first last
                target w F L EF EL Fit ET) as (w' & R).
    eexists. exists w'. exact R.
Qed.

Lemma end_before_start_raises_witness :
  working_time Sample.backwards Sample.world
  = (Raise ValueError, Sample.world)
  /\ fst (run (mkGlobals None) "stats"
              (Some [Sample.backwards; Sample.this_morning]) false false
              None false true Sample.world) = Raise ValueError
  /\ fst (run (mkGlobals None) "stats"
              (Some [Sample.backwards; Sample.this_morning]) false false
              None false false Sample.world) = Raise ValueError
  /\ exists o w',
       run (mkGlobals None) "stats"
           (Some [Sample.monday; Sample.backwards_today]) false false None
           false false Sample.world = (Ok (RetStats o), w').
Proof.
  assert (F : clock_frozen Sample.now Sample.world)
    by (intros k; reflexivity).
  split; [|split; [|split]].
  - exact (proj1 (end_before_start_raises Sample.backwards (mktime 7 0)
                    eq_refl eq_refl) Sample.world).
  - apply (proj1 (proj2 (end_before_start_raises Sample.backwards
                           (mktime 7 0) eq_refl eq_refl)));
      [left; reflexivity|intros k; reflexivity|reflexivity].
  - apply (proj1 (proj2 (proj2 (end_before_start_raises Sample.backwards
                                  (mktime 7 0) eq_refl eq_refl)))
             (mkGlobals None) [Sample.backwards; Sample.this_morning]
             false false None false false Sample.now Sample.world eq_refl F
             eq_refl).
    left. reflexivity.
  - apply (proj2 (proj2 (proj2 (end_before_start_raises
                                  Sample.backwards_today (mktime 7 0)
                                  eq_refl eq_refl)))
             (mkGlobals None) [Sample.monday; Sample.backwards_today]
             false false None false Sample.now Sample.world None eq_refl F
             eq_refl);
      [right; left; reflexivity|discriminate|reflexivity|reflexivity].
Defined.

(** ** C9: [quit] on an open log *)

(** C9: on a log whose last entry [e] is unfinished, [quit] gives that
    entry the time the clock reads at that moment (the fifth reading of the
    run) as its end and changes nothing else: the entries before it, their
    number and order, and the day and the start of [e] are as they were;
    the last entry is finished.  The tuple returned and the objects of the
    caller both show it. *)
Theorem quit_open_sets_only_the_end g init e ov dr hpd p it w :
  clock_valid w ->
  log_ok (init ++ [e])%list = true ->
  is_unfinished e = true ->
  exists e' w',
    run g "quit" (Some (init ++ [e])%list) ov dr hpd p it w
    = (Ok (RetEntries (init ++ [e'])%list), w')
    /\ objs w' = (init ++ [e'])%list
    /\ length (init ++ [e'])%list = length (init ++ [e])%list
    /\ date_base e' = date_base e
    /\ time_start e' = time_start e
    /\ time_stop e' = Some (dt_time (clock w (tick w + 4)))
    /\ is_unfinished e' = false.
Proof.
  intros V L U.
  rewrite (run_dispatch _ _ _ e _ _ _ _ _ _ V L (last_of_app _ _)).
  cbn [String.eqb Ascii.eqb Bool.eqb].
  rewrite (run_quit_open g p init e _ (clock_valid_at_dispatch _ _ _ _ V) U).
  cbn zeta. rewrite clock_at_dispatch, tick_at_dispatch.
  eexists. eexists. split; [reflexivity|].
  split; [destruct p; reflexivity|].
  split; [rewrite !length_app; reflexivity|].
  repeat split.
Qed.

Lemma quit_open_sets_only_the_end_witness :
  exists e' w',
    run (mkGlobals None) "quit" (Some Sample.open_log) false false None false
        true Sample.world
    = (Ok (RetEntries [Sample.monday; e']), w')
    /\ objs w' = [Sample.monday; e']
    /\ length [Sample.monday; e'] = 2%nat
    /\ date_base e' = mkdate 2024 3 5
    /\ time_start e' = mktime 8 30
    /\ time_stop e' = Some (mktime 9 0)
    /\ is_unfinished e' = false.
Proof.
  exact (quit_open_sets_only_the_end (mkGlobals None) [Sample.monday]
           Sample.this_morning false false None false true Sample.world
           (fun k => eq_refl) eq_refl eq_refl).
Defined.

(** ** C10: the porcelain flag *)

(** C10: whatever the log (given, or read from the time file), the clock
    and [hours_per_day], [stats] with [porcelain] true and [stats] with
    [porcelain] false return the same record, or raise the same exception;
    the worlds they leave differ at most by the lines printed. *)
Theorem porcelain_changes_only_the_output g entries ov dr hpd it w :
  fst (run g "stats" entries ov dr hpd true it w)
  = fst (run g "stats" entries ov dr hpd false it w)
  /\ same_but_stdout (snd (run g "stats" entries ov dr hpd true it w))
                     (snd (run g "stats" entries ov dr hpd false it w)).
Proof. apply agree_run, same_refl. Qed.

(** The two runs do print different lines. *)
Lemma porcelain_output_example :
  let run_ p := run (mkGlobals None) "stats" (Some Sample.scenario_log) false
                    false None p true Sample.world in
  stdout (snd (run_ true))
  = ["nb_day 2"; "first_day 24/01/01"; "last_day 24/01/02";
     "total_worktime 750"; "average_per_day 375"]
  /\ stdout (snd (run_ false))
     = ["Last entry is 63 days, 0:00:00 ago.";
        "Statistics on 2 worked days (including today), from 24/01/01 to 24/01/02";
        "You worked a total of 12h30m.";
        "You are working an average of 06h15m per day."].
Proof. split; vm_compute; reflexivity. Qed.

(** * Further properties of the code *)

(** ** Dates and times as text *)

Lemma reparsed_in_pivot d : in_pivot d = true -> reparsed d = d.
Proof.
  unfold in_pivot, reparsed. intros H. to_prop.
  destruct d as [y m dd]. cbn [year month day] in *. f_equal.
  unfold pivot_year.
  pose proof (Z.div_mod y 100 ltac:(lia)) as E.
  pose proof (Z.mod_pos_bound y 100 ltac:(lia)) as B.
  destruct (Z.leb_spec (y mod 100) 68); lia.
Qed.

(** X1: a valid date written with [strftime("%y/%m/%d")] and read back by
    [datetime_date_from_date] gives the date with its year brought into
    1969..2068; it is the date itself when the year is in that range. *)
Theorem date_text_round_trip d :
  valid_date d = true ->
  datetime_date_from_date (strftime_ymd d) = Ok (reparsed d)
  /\ (in_pivot d = true -> datetime_date_from_date (strftime_ymd d) = Ok d).
Proof.
  intros V. split; [apply parse_strftime_ymd, V|].
  intros P. rewrite (parse_strftime_ymd d V), (reparsed_in_pivot d P).
  reflexivity.
Qed.

Lemma date_text_round_trip_witness :
  datetime_date_from_date "24/03/05" = Ok (mkdate 2024 3 5)
  /\ datetime_date_from_date (strftime_ymd (mkdate 2070 3 5))
     = Ok (mkdate 1970 3 5).
Proof.
  split.
  - exact (proj2 (date_text_round_trip (mkdate 2024 3 5) eq_refl) eq_refl).
  - exact (proj1 (date_text_round_trip (mkdate 2070 3 5) eq_refl)).
Defined.

Lemma check_short_hour_all : forallb check_short_hour (Zrange 0 24) = true.
Proof. vm_compute. reflexivity. Qed.

(** X2: [datetime_time_from_hour] reads back the text [strftime("%Hh%M")]
    writes for a valid time, and reads the short form ["HHh"] as the full
    hour. *)
Theorem time_text_round_trip :
  (forall t, valid_time t = true ->
             datetime_time_from_hour (Some (strftime_HhM t)) = Ok (Some t))
  /\ (forall h, 0 <= h < 24 ->
                datetime_time_from_hour (Some (two_digits h ++ "h"))
                = Ok (Some (mktime h 0))).
Proof.
  split; [exact parse_strftime_HhM|].
  intros h B.
  assert (C : check_short_hour h = true)
    by (apply (forallb_Zrange _ 0 24); [exact check_short_hour_all|lia]).
  unfold check_short_hour in C.
  destruct (datetime_time_from_hour _) as [[t|]|]; try discriminate.
  apply time_eqb_eq in C. subst t. reflexivity.
Qed.

Lemma time_text_round_trip_witness :
  datetime_time_from_hour (Some "17h30") = Ok (Some (mktime 17 30))
  /\ datetime_time_from_hour (Some "08h") = Ok (Some (mktime 8 0)).
Proof.
  split.
  - exact (proj1 time_text_round_trip (mktime 17 30) eq_refl).
  - exact (proj2 time_text_round_trip 8 ltac:(lia)).
Defined.

(** *** What the parsers let through *)

Lemma whole_In {A} (m : matcher A) s a :
  whole m s = Ok a -> In (a, EmptyString) (m s).
Proof.
  unfold whole. destruct (m s) as [|[x r] l]; [discriminate|].
  destruct r; [|discriminate]. intros [= ->]. left. reflexivity.
Qed.

Lemma seq_In {A B} (m : matcher A) (k : A -> matcher B) s b r :
  In (b, r) (seq_ m k s) -> exists a r1, In (a, r1) (m s) /\ In (b, r) (k a r1).
Proof.
  unfold seq_. intros I. apply in_flat_map in I.
  destruct I as ([a r1] & I1 & I2). eauto.
Qed.

Lemma in_class_range a b c :
  in_class a b c = true -> a <= digit_val c <= b.
Proof. unfold in_class. intros H. to_prop. split; assumption. Qed.

Lemma re_y_range s y r : In (y, r) (re_y s) -> 0 <= y < 100.
Proof.
  unfold re_y, two. destruct s as [|x [|z s]]; try contradiction.
  destruct (in_class 0 9 x && in_class 0 9 z) eqn:C; [|contradiction].
  intros [E|[]]. apply (f_equal fst) in E. cbn [fst] in E. subst y.
  apply andb_prop in C. destruct C as [Cx Cz].
  apply in_class_range in Cx, Cz. lia.
Qed.

Lemma datetime_date_inv y m d x :
  datetime_date y m d = Ok x -> x = mkdate y m d /\ valid_date x = true.
Proof.
  unfold datetime_date. destruct (valid_date _) eqn:V; [|discriminate].
  intros [= <-]. split; [reflexivity|exact V].
Qed.

Lemma datetime_time_inv h m t :
  datetime_time h m = Ok t -> t = mktime h m /\ valid_time t = true.
Proof.
  unfold datetime_time. destruct (valid_time _) eqn:V; [|discriminate].
  intros [= <-]. split; [reflexivity|exact V].
Qed.

Lemma datetime_date_from_date_inv s d :
  datetime_date_from_date s = Ok d ->
  valid_date d = true /\ in_pivot d = true.
Proof.
  unfold datetime_date_from_date, strptime_ymd.
  destruct (whole _ s) as [[[y m] dd]|] eqn:W; [|discriminate].
  cbn [obind].
  destruct (datetime_date y m dd) as [x|] eqn:D; [|discriminate].
  cbn [obind]. rewrite D. intros [= <-].
  destruct (datetime_date_inv _ _ _ _ D) as [-> V]. split; [exact V|].
  apply whole_In in W. apply seq_In in W.
  destruct W as (yy & r1 & Iy & W). apply re_y_range in Iy.
  apply seq_In in W. destruct W as (? & r2 & _ & W).
  apply seq_In in W. destruct W as (m' & r3 & _ & W).
  apply seq_In in W. destruct W as (? & r4 & _ & W).
  apply seq_In in W. destruct W as (d' & r5 & _ & W).
  destruct W as [[= <- _ _ _]|[]].
  unfold in_pivot. cbn [year].
  destruct (pivot_year_range yy Iy) as [R _]. to_prop; lia.
Qed.

Lemma datetime_time_from_hour_inv s t :
  datetime_time_from_hour (Some s) = Ok (Some t) -> valid_time t = true.
Proof.
  unfold datetime_time_from_hour.
  destruct (if endswith_h s then _ else _) as [hm|]; [|discriminate].
  cbn [obind]. destruct (datetime_time _ _) as [x|] eqn:D; [|discriminate].
  cbn [obind]. intros [= <-]. apply (datetime_time_inv _ _ _ D).
Qed.

(** X3: what the two parsers return is always a real value: a time with
    hour in 0..23 and minute in 0..59, a date that exists with its year in
    1969..2068. *)
Theorem parsers_return_valid_values :
  (forall s t, datetime_time_from_hour (Some s) = Ok (Some t) ->
               valid_time t = true)
  /\ (forall s d, datetime_date_from_date s = Ok d ->
                  valid_date d = true /\ in_pivot d = true).
Proof.
  split; [exact datetime_time_from_hour_inv|exact datetime_date_from_date_inv].
Qed.

Lemma parsers_return_valid_values_witness :
  valid_time (mktime 8 0) = true
  /\ valid_date (mkdate 1999 12 31) = true
  /\ in_pivot (mkdate 1999 12 31) = true.
Proof.
  split.
  - exact (proj1 parsers_return_valid_values "8h" (mktime 8 0) eq_refl).
  - exact (proj2 parsers_return_valid_values "99/12/31" (mkdate 1999 12 31)
             eq_refl).
Defined.

(** ** Entries as rows *)

Lemma from_tuple_wf date_ start stop e :
  from_tuple date_ start stop = Ok e -> entry_wf e = true.
Proof.
  unfold from_tuple.
  destruct (datetime_date_from_date date_) as [d|] eqn:D; [|discriminate].
  cbn [obind].
  destruct (datetime_time_from_hour (Some start)) as [[t|]|] eqn:T;
    try discriminate.
  - cbn [obind].
    destruct (datetime_date_from_date_inv _ _ D) as [Vd Pd].
    pose proof (datetime_time_from_hour_inv _ _ T) as Vt.
    assert (S : forall o,
               match stop with
               | None => Ok None
               | Some s => if String.eqb s "" then Ok None
                           else datetime_time_from_hour (Some s)
               end = Ok o ->
               match o with None => true | Some x => valid_time x end = true).
    { intros o. destruct stop as [s|]; [|intros [= <-]; reflexivity].
      destruct (String.eqb s ""); [intros [= <-]; reflexivity|].
      destruct o as [x|]; [apply datetime_time_from_hour_inv|reflexivity]. }
    destruct (match stop with None => _ | Some _ => _ end) as [o|];
      [|discriminate].
    cbn [obind]. intros [= <-]. unfold entry_wf.
    cbn [date_base time_start time_stop].
    rewrite Vd, Pd, Vt, (S o eq_refl). reflexivity.
  - cbn [obind].
    destruct (match stop with None => _ | Some _ => _ end); discriminate.
Qed.

Lemma strftime_HhM_not_empty t : String.eqb (strftime_HhM t) "" = false.
Proof. reflexivity. Qed.

Lemma from_tuple_entry_row e :
  entry_wf e = true ->
  from_tuple (hr_date e) (hr_start e) (Some (hr_stop e)) = Ok e.
Proof.
  unfold entry_wf. intros W.
  apply andb_prop in W. destruct W as [W Vs].
  apply andb_prop in W. destruct W as [W Vt].
  apply andb_prop in W. destruct W as [Vd Pd].
  unfold from_tuple, hr_date, hr_start, hr_stop.
  rewrite (parse_strftime_ymd _ Vd), (reparsed_in_pivot _ Pd). cbn [obind].
  rewrite (parse_strftime_HhM _ Vt). cbn [obind].
  destruct e as [d t [s|]]; cbn [time_stop date_base time_start] in *.
  - rewrite strftime_HhM_not_empty, (parse_strftime_HhM _ Vs). reflexivity.
  - reflexivity.
Qed.

(** X4: an entry with a real date in 1969..2068 and real times, written as
    its three fields (date, start, end or the empty text) and read back by
    [from_tuple], is the entry itself. *)
Theorem entry_row_round_trip e :
  entry_wf e = true ->
  entry_row e = [hr_date e; hr_start e; hr_stop e]
  /\ from_tuple (hr_date e) (hr_start e) (Some (hr_stop e)) = Ok e.
Proof. intros W. split; [reflexivity|apply from_tuple_entry_row, W]. Qed.

Lemma entry_row_round_trip_witness :
  entry_row Sample.this_morning = ["24/03/05"; "08h30"; ""]
  /\ from_tuple "24/03/05" "08h30" (Some "") = Ok Sample.this_morning.
Proof. exact (entry_row_round_trip Sample.this_morning eq_refl). Defined.

Lemma parse_rows_wf rows l :
  parse_rows rows = Ok l -> forallb entry_wf l = true.
Proof.
  revert l. induction rows as [|r rows IH]; intros l.
  - intros [= <-]. reflexivity.
  - cbn [parse_rows].
    destruct r as [|a [|b [|c [|? ?]]]]; try discriminate.
    destruct (from_tuple a b (Some c)) as [e|] eqn:F; [|discriminate].
    cbn [obind]. destruct (parse_rows rows) as [l'|]; [|discriminate].
    cbn [obind]. intros [= <-]. cbn [forallb].
    rewrite (from_tuple_wf _ _ _ _ F), (IH l' eq_refl). reflexivity.
Qed.

Lemma parse_rows_entry_rows l :
  forallb entry_wf l = true -> parse_rows (map entry_row l) = Ok l.
Proof.
  induction l as [|e l IH]; [reflexivity|].
  cbn [forallb]. intros W. apply andb_prop in W. destruct W as [We Wl].
  cbn [map parse_rows entry_row].
  rewrite (from_tuple_entry_row e We). cbn [obind].
  rewrite (IH Wl). reflexivity.
Qed.

(** X5: the entries read from the rows of a time file are all well formed
    (real dates in 1969..2068, real times), and writing them back as rows
    and reading these again gives the same entries: the texts are
    normalised once (["8h"] becomes ["08h00"]) and stay so. *)
Theorem loaded_entries_are_stable rows l :
  parse_rows rows = Ok l ->
  forallb entry_wf l = true /\ parse_rows (map entry_row l) = Ok l.
Proof.
  intros P. pose proof (parse_rows_wf rows l P) as W.
  split; [exact W|apply parse_rows_entry_rows, W].
Qed.

Lemma loaded_entries_are_stable_witness :
  parse_rows Demo.closed_rows = Ok Demo.closed_log
  /\ map entry_row Demo.closed_log
     = [["24/01/01"; "08h00"; "12h00"]; ["24/03/04"; "08h00"; "16h30"]]
  /\ parse_rows (map entry_row Demo.closed_log) = Ok Demo.closed_log.
Proof.
  split; [reflexivity|]. split; [reflexivity|].
  exact (proj2 (loaded_entries_are_stable Demo.closed_rows Demo.closed_log
                  eq_refl)).
Defined.

(** ** The time file *)

Lemma lookup_store_same name rows fs :
  lookup_file name (store_file name rows fs) = Some rows.
Proof.
  induction fs as [|[n old] fs IH]; cbn [store_file lookup_file].
  - rewrite String.eqb_refl. reflexivity.
  - destruct (String.eqb n name) eqn:E; cbn [lookup_file]; rewrite E;
      [reflexivity|exact IH].
Qed.

Lemma lookup_store_other name name' rows fs :
  name' <> name ->
  lookup_file name' (store_file name rows fs) = lookup_file name' fs.
Proof.
  intros N. induction fs as [|[n old] fs IH]; cbn [store_file lookup_file].
  - apply String.eqb_neq in N. rewrite String.eqb_sym, N. reflexivity.
  - destruct (String.eqb n name) eqn:E; cbn [lookup_file].
    + apply String.eqb_eq in E. subst n.
      apply String.eqb_neq in N. rewrite String.eqb_sym, N. reflexivity.
    + destruct (String.eqb n name'); [reflexivity|exact IH].
Qed.

(** X6: after [set_data(entries, fname)], [get_data(fname)] returns these
    entries, provided they are well formed; the other files are as they
    were.  The file is created when it did not exist. *)
Theorem set_data_then_get_data entries fname w :
  forallb entry_wf entries = true ->
  exists w1,
    set_data entries fname w = (Ok tt, w1)
    /\ get_data fname w1 = (Ok entries, w1)
    /\ (forall other, normpath other <> normpath fname ->
                      read_rows other w1 = (fst (read_rows other w), w1)).
Proof.
  intros W. unfold set_data, write_rows. eexists. split; [reflexivity|].
  split.
  - unfold get_data, bind, read_rows. cbn [files].
    rewrite lookup_store_same. unfold lift.
    rewrite (parse_rows_entry_rows _ W). reflexivity.
  - intros other N. unfold read_rows. cbn [files].
    rewrite (lookup_store_other _ _ _ _ N).
    destruct (lookup_file _ _); reflexivity.
Qed.

Lemma set_data_then_get_data_witness :
  exists w1,
    set_data Sample.open_log "./temps" Sample.world = (Ok tt, w1)
    /\ get_data "temps" w1 = (Ok Sample.open_log, w1).
Proof.
  destruct (set_data_then_get_data Sample.open_log "./temps" Sample.world
              eq_refl) as (w1 & E1 & E2 & _).
  exists w1. split; [exact E1|exact E2].
Defined.

Lemma from_tuple_raises date_ start stop x :
  from_tuple date_ start stop = Raise x -> x = ValueError.
Proof.
  unfold from_tuple, datetime_date_from_date, strptime_ymd,
    datetime_time_from_hour, strptime_Hh, strptime_HhM, whole, datetime_date,
    datetime_time.
  repeat match goal with
         | |- context [match ?t with _ => _ end] =>
             lazymatch t with
             | context [match _ with _ => _ end] => fail
             | _ => destruct t; cbn [obind fst snd]
             end
         end; intros [=]; congruence.
Qed.

Lemma parse_rows_raises rows x :
  parse_rows rows = Raise x -> x = ValueError.
Proof.
  induction rows as [|r rows IH]; [discriminate|].
  cbn [parse_rows].
  destruct r as [|a [|b [|c [|? ?]]]]; try (intros [= <-]; reflexivity).
  destruct (from_tuple a b (Some c)) as [e|y] eqn:F.
  - cbn [obind]. destruct (parse_rows rows) as [l|y]; [discriminate|].
    cbn [obind]. intros [= <-]. apply IH. reflexivity.
  - cbn [obind]. intros [= <-]. apply (from_tuple_raises _ _ _ _ F).
Qed.

Lemma parse_rows_bad_row rows r :
  In r rows -> length r <> 3%nat -> parse_rows rows = Raise ValueError.
Proof.
  induction rows as [|r0 rows IH]; [contradiction|].
  intros I L. cbn [parse_rows].
  destruct r0 as [|a [|b [|c [|? ?]]]]; try reflexivity.
  destruct I as [<-|I]; [cbn in L; contradiction|].
  destruct (from_tuple a b (Some c)) as [e|y] eqn:F; cbn [obind].
  - rewrite (IH I L). reflexivity.
  - rewrite (from_tuple_raises _ _ _ _ F). reflexivity.
Qed.

(** X8: [get_data] on a file that does not exist raises
    [FileNotFoundError]; on a file one of whose rows has not exactly three
    fields it raises [ValueError]; it never raises anything else, and
    leaves the world as it is. *)
Theorem get_data_errors fname w :
  snd (get_data fname w) = w
  /\ (lookup_file (normpath fname) (files w) = None ->
      fst (get_data fname w) = Raise FileNotFoundError)
  /\ (forall rows r,
        lookup_file (normpath fname) (files w) = Some rows ->
        In r rows -> length r <> 3%nat ->
        fst (get_data fname w) = Raise ValueError)
  /\ (forall x, fst (get_data fname w) = Raise x ->
                x = FileNotFoundError \/ x = ValueError).
Proof.
  unfold get_data, bind, read_rows, lift.
  destruct (lookup_file (normpath fname) (files w)) as [rows|].
  - split; [destruct (parse_rows rows); reflexivity|].
    split; [discriminate|]. split.
    + intros rows' r [= <-] I L. rewrite (parse_rows_bad_row rows r I L).
      reflexivity.
    + intros x. destruct (parse_rows rows) as [l|y] eqn:P; [discriminate|].
      cbn [fst]. intros [= <-]. right. apply (parse_rows_raises _ _ P).
  - split; [reflexivity|]. split; [reflexivity|]. split; [discriminate|].
    intros x [= <-]. left. reflexivity.
Qed.

Lemma get_data_errors_witness :
  fst (get_data "elsewhere" Demo.office) = Raise FileNotFoundError
  /\ fst (get_data "temps" Demo.torn) = Raise ValueError.
Proof.
  split.
  - exact (proj1 (proj2 (get_data_errors "elsewhere" Demo.office)) eq_refl).
  - exact (proj1 (proj2 (proj2 (get_data_errors "temps" Demo.torn)))
             [["24/01/01"; "08h00"]] ["24/01/01"; "08h00"] eq_refl
             (or_introl eq_refl) ltac:(discriminate)).
Defined.

(** ** Entries and the clock *)

(** X9: with a clock that shows real dates and times, [Entry.now_arrived()]
    always returns an open entry; it reads the clock twice, takes its day
    from the first reading and its start from the second.  The day went
    through the two-digit year: it is the day of the clock when the year
    is in 1969..2068. *)
Theorem now_arrived_entry w :
  clock_valid w ->
  let d := dt_date (clock w (tick w)) in
  let t := dt_time (clock w (S (tick w))) in
  exists e,
    now_arrived w = (Ok e, advance 2 w)
    /\ is_unfinished e = true
    /\ hr_date e = strftime_ymd d
    /\ time_start e = t
    /\ date_base e = reparsed d
    /\ (in_pivot d = true -> date_base e = d).
Proof.
  intros V d t. eexists. split; [apply (now_arrived_valid w V)|].
  split; [reflexivity|]. split; [apply hr_date_now_arrived|].
  split; [reflexivity|]. split; [reflexivity|].
  intros P. cbn [date_base]. apply reparsed_in_pivot, P.
Qed.

Lemma now_arrived_entry_witness :
  exists e,
    now_arrived Sample.world = (Ok e, advance 2 Sample.world)
    /\ is_unfinished e = true
    /\ hr_date e = "24/03/05"
    /\ time_start e = mktime 9 0
    /\ date_base e = mkdate 2024 3 5
    /\ (true = true -> date_base e = mkdate 2024 3 5).
Proof. exact (now_arrived_entry Sample.world (fun k => eq_refl)). Defined.

(** X10: for a finished entry with real times whose end is not before its
    start, [working_time] returns, without reading the clock, a time that
    counts exactly the minutes from the start to the end. *)
Theorem working_time_finished e stop w :
  time_stop e = Some stop ->
  valid_time (time_start e) = true ->
  valid_time stop = true ->
  datetime_time_to_minutes (time_start e) <= datetime_time_to_minutes stop ->
  exists t,
    working_time e w = (Ok t, w)
    /\ datetime_time_to_minutes t
       = datetime_time_to_minutes stop
         - datetime_time_to_minutes (time_start e).
Proof.
  unfold datetime_time_to_minutes, valid_time. intros E Vs Vt L. to_prop.
  unfold working_time. rewrite E.
  rewrite (bind_ok _ _ w _ w) by reflexivity. cbn zeta.
  set (m := hour stop * 60 + minute stop
            - (hour (time_start e) * 60 + minute (time_start e))).
  destruct (repack_minutes m ltac:(subst m; lia)) as [R S].
  unfold lift. rewrite R. eexists. split; [reflexivity|].
  cbn [hour minute]. subst m. lia.
Qed.

Lemma working_time_finished_witness :
  exists t,
    working_time Sample.second_of_january Sample.world = (Ok t, Sample.world)
    /\ datetime_time_to_minutes t = 510.
Proof.
  exact (working_time_finished Sample.second_of_january (mktime 17 30)
           Sample.world eq_refl eq_refl eq_refl ltac:(cbv; discriminate)).
Defined.

(** ** [run] on logs it refuses *)

(** X11: on an empty log [run] raises [ValueError] (the [max] of line 145
    has nothing to compare) whatever the action and the options, before it
    reads the clock or prints anything; the script started on an empty time
    file fails in the same way and writes nothing. *)
Theorem run_empty_log :
  (forall g action_ ov dr hpd p it w,
     run g action_ (Some []) ov dr hpd p it w
     = (Raise ValueError, with_objs [] w))
  /\ (forall a w,
        lookup_file (normpath (timefile a)) (files w) = Some [] ->
        fst (main a w) = Raise ValueError
        /\ files (snd (main a w)) = files w
        /\ stdout (snd (main a w)) = stdout w).
Proof.
  split; [reflexivity|].
  intros a w L. unfold main, get_data, bind, read_rows. rewrite L.
  cbn. repeat split.
Qed.

Lemma run_empty_log_witness :
  fst (main Demo.cli_stats
         (mkWorld (fun _ => Sample.now) 0 [] [("temps", [])] [] []))
  = Raise ValueError.
Proof.
  exact (proj1 (proj2 run_empty_log Demo.cli_stats
                  (mkWorld (fun _ => Sample.now) 0 [] [("temps", [])] [] [])
                  eq_refl)).
Defined.

Lemma py_max_nonempty e l :
  exists latest, py_max (map hr_date (e :: l)) = Ok latest.
Proof. eexists. reflexivity. Qed.

(** X12: on a non-empty log whose latest date is not the date of its last
    entry, [run] raises [AssertionError] whatever the action; it has then
    read no clock, printed nothing and changed no entry. *)
Theorem run_unordered_log g action_ entries ov dr hpd p it w :
  entries <> [] ->
  log_ok entries = false ->
  run g action_ (Some entries) ov dr hpd p it w
  = (Raise AssertionError, with_objs entries w).
Proof.
  intros NE L. unfold log_ok in L.
  destruct (nonempty_ends entries NE) as (first & last & _ & EL).
  destruct entries as [|e l]; [contradiction|].
  destruct (py_max_nonempty e l) as (latest & EM).
  rewrite EM, EL in L.
  unfold run.
  rewrite (bind_ok _ _ w (e :: l) w) by reflexivity.
  rewrite (bind_ok _ _ w tt (with_objs (e :: l) w)) by reflexivity.
  rewrite (bind_ok _ _ _ latest (with_objs (e :: l) w))
    by (unfold lift; rewrite EM; reflexivity).
  rewrite (bind_ok _ _ _ last (with_objs (e :: l) w))
    by (unfold lift; rewrite EL; reflexivity).
  apply bind_raise. rewrite L. reflexivity.
Qed.

Lemma run_unordered_log_witness :
  run (mkGlobals None) "quit" (Some [Sample.this_morning; Sample.monday])
      false false None false true Sample.world
  = (Raise AssertionError,
     with_objs [Sample.this_morning; Sample.monday] Sample.world).
Proof.
  exact (run_unordered_log (mkGlobals None) "quit"
           [Sample.this_morning; Sample.monday] false false None false true
           Sample.world ltac:(discriminate) eq_refl).
Defined.

(** ** [arrive] and [quit] on a closed log *)

Lemma log_ok_snoc entries last x :
  log_ok entries = true ->
  last_of entries = Ok last ->
  log_ok (entries ++ [x])%list = String.leb (hr_date last) (hr_date x).
Proof.
  intros L EL. destruct (log_ok_inv _ L) as (last' & EL' & EM).
  rewrite EL in EL'. injection EL' as <-.
  unfold log_ok. rewrite last_of_app.
  destruct entries as [|e l]; [discriminate|].
  unfold py_max in *. cbn [map app] in *. rewrite map_app, fold_left_app.
  injection EM as ->. cbn [map fold_left].
  unfold String.ltb, String.leb.
  destruct (String.compare (hr_date last) (hr_date x)) eqn:C.
  - apply String.compare_eq_iff in C. rewrite C. apply String.eqb_refl.
  - apply String.eqb_refl.
  - apply String.eqb_neq. intros E. rewrite E in C.
    assert (R : String.compare (hr_date x) (hr_date x) = Eq).
    { destruct (String.compare (hr_date x) (hr_date x)) eqn:C'; try reflexivity;
        pose proof (String.compare_antisym (hr_date x) (hr_date x)) as A;
        rewrite C' in A; discriminate. }
    congruence.
Qed.

Lemma run_arrive_closed g p entries last w :
  clock_valid w -> is_unfinished last = false ->
  run_arrive g (choose_print p) entries last w =
  (Ok (RetEntries
         (entries ++ [mkEntry (reparsed (dt_date (clock w (tick w))))
                              (dt_time (clock w (S (tick w)))) None])%list),
   said p ["Added a new entry, arrival now."] (advance 2 w)).
Proof.
  intros V U. unfold run_arrive. rewrite U.
  rewrite (bind_ok _ _ _ _ _ (now_arrived_valid w V)).
  rewrite (bind_ok _ _ _ _ _ (choose_print_said _ _ _)). reflexivity.
Qed.

(** X13: on a log whose last entry is finished, [arrive] returns the log
    followed by one new open entry, dated and timed by the clock (its
    fifth and sixth readings of the run); the entries given are not
    changed, and neither the global [args] nor the parameter [overwrite]
    matters. *)
Theorem arrive_closed_appends g entries last ov dr hpd p it w :
  clock_valid w ->
  log_ok entries = true ->
  last_of entries = Ok last ->
  is_unfinished last = false ->
  exists n w',
    run g "arrive" (Some entries) ov dr hpd p it w
    = (Ok (RetEntries (entries ++ [n])%list), w')
    /\ objs w' = entries
    /\ is_unfinished n = true
    /\ hr_date n = strftime_ymd (dt_date (clock w (tick w + 4)))
    /\ time_start n = dt_time (clock w (tick w + 5))
    /\ length (entries ++ [n])%list = S (length entries).
Proof.
  intros V L EL U.
  rewrite (run_dispatch _ _ _ last _ _ _ _ _ _ V L EL).
  cbn [String.eqb Ascii.eqb Bool.eqb].
  rewrite (run_arrive_closed g p entries last _
             (clock_valid_at_dispatch _ _ _ _ V) U).
  rewrite !clock_at_dispatch, tick_at_dispatch.
  eexists. eexists. split; [reflexivity|].
  split; [unfold at_dispatch, said; destruct p; reflexivity|].
  split; [reflexivity|]. split; [apply hr_date_now_arrived|].
  split; [cbn [time_start]; f_equal; f_equal; lia|].
  rewrite length_app. cbn [length]. lia.
Qed.

Lemma arrive_closed_appends_witness :
  exists n w',
    run (mkGlobals None) "arrive" (Some Demo.closed_log) false false None
        false true Sample.world
    = (Ok (RetEntries (Demo.closed_log ++ [n])%list), w')
    /\ objs w' = Demo.closed_log
    /\ is_unfinished n = true
    /\ hr_date n = "24/03/05"
    /\ time_start n = mktime 9 0
    /\ length (Demo.closed_log ++ [n])%list = 3%nat.
Proof.
  exact (arrive_closed_appends (mkGlobals None) Demo.closed_log Sample.monday
           false false None false true Sample.world (fun k => eq_refl)
           eq_refl eq_refl eq_refl).
Defined.

(** X14: [arrive] on a closed log and then [quit] on the log it returned:
    when the last entry is not dated after the day the clock shows, the
    log returned by [arrive] passes the check of line 145 again, and [quit]
    returns a log of the same length, one more than at the start, whose
    entries are the old ones followed by a finished entry.  When the last
    entry is dated after that day, the log [arrive] returned fails the
    check. *)
Theorem arrive_then_quit g entries last ov dr hpd p it w :
  clock_valid w ->
  log_ok entries = true ->
  last_of entries = Ok last ->
  is_unfinished last = false ->
  exists n w1,
    run g "arrive" (Some entries) ov dr hpd p it w
    = (Ok (RetEntries (entries ++ [n])%list), w1)
    /\ log_ok (entries ++ [n])%list
       = String.leb (hr_date last)
                    (strftime_ymd (dt_date (clock w (tick w + 4))))
    /\ (String.leb (hr_date last)
                   (strftime_ymd (dt_date (clock w (tick w + 4)))) = true ->
        exists n' w2,
          run g "quit" (Some (entries ++ [n])%list) ov dr hpd p it w1
          = (Ok (RetEntries (entries ++ [n'])%list), w2)
          /\ is_unfinished n' = false
          /\ date_base n' = date_base n
          /\ time_start n' = time_start n
          /\ length (entries ++ [n'])%list = S (length entries)).
Proof.
  intros V L EL U.
  rewrite (run_dispatch _ _ _ last _ _ _ _ _ _ V L EL).
  cbn [String.eqb Ascii.eqb Bool.eqb].
  rewrite (run_arrive_closed g p entries last _
             (clock_valid_at_dispatch _ _ _ _ V) U).
  rewrite !clock_at_dispatch, tick_at_dispatch.
  set (n := mkEntry _ _ None).
  set (w1 := said p _ _).
  exists n, w1. split; [reflexivity|].
  assert (H : log_ok (entries ++ [n])%list
              = String.leb (hr_date last)
                           (strftime_ymd (dt_date (clock w (tick w + 4)))))
    by (rewrite (log_ok_snoc entries last n L EL); subst n;
        rewrite hr_date_now_arrived; reflexivity).
  split; [exact H|].
  intros Le. rewrite Le in H.
  assert (V1 : clock_valid w1)
    by (subst w1; apply clock_valid_said, clock_valid_advance,
          clock_valid_at_dispatch, V).
  rewrite (run_dispatch _ _ _ n _ _ _ _ _ _ V1 H (last_of_app _ _)).
  cbn [String.eqb Ascii.eqb Bool.eqb].
  rewrite (run_quit_open g p entries n _
             (clock_valid_at_dispatch _ _ _ _ V1) eq_refl).
  cbn zeta. eexists. eexists. split; [reflexivity|].
  repeat split. rewrite length_app. cbn [length]. lia.
Qed.

Lemma arrive_then_quit_witness :
  exists n w1,
    run (mkGlobals None) "arrive" (Some Demo.closed_log) false false None
        false true Sample.world
    = (Ok (RetEntries (Demo.closed_log ++ [n])%list), w1)
    /\ log_ok (Demo.closed_log ++ [n])%list = true
    /\ (true = true ->
        exists n' w2,
          run (mkGlobals None) "quit" (Some (Demo.closed_log ++ [n])%list)
              false false None false true w1
          = (Ok (RetEntries (Demo.closed_log ++ [n'])%list), w2)
          /\ is_unfinished n' = false
          /\ date_base n' = date_base n
          /\ time_start n' = time_start n
          /\ length (Demo.closed_log ++ [n'])%list = 3%nat).
Proof.
  exact (arrive_then_quit (mkGlobals None) Demo.closed_log Sample.monday
           false false None false true Sample.world (fun k => eq_refl)
           eq_refl eq_refl eq_refl).
Defined.

Lemma run_quit_closed_conflict a p entries last w :
  overwrite a = false -> is_unfinished last = false ->
  run_quit (mkGlobals (Some a)) (choose_print p) entries last w
  = (Ok RetNone, said p [nothing_open_conflict] w).
Proof.
  intros O U. unfold run_quit, args_overwrite. rewrite U. cbn [args].
  rewrite (bind_ok _ _ w false w) by (rewrite O; reflexivity).
  rewrite (bind_ok _ _ _ _ _ (choose_print_said _ _ _)). reflexivity.
Qed.

(** X15: on a log whose last entry is finished, [quit] started without
    [--overwrite] ([args.overwrite] false) declines: it returns [None],
    prints the message of line 173 unless the output is silenced, and
    changes no entry and no file. *)
Theorem quit_closed_without_overwrite a entries last ov dr hpd p it w :
  overwrite a = false ->
  clock_valid w ->
  log_ok entries = true ->
  last_of entries = Ok last ->
  is_unfinished last = false ->
  exists w',
    run (mkGlobals (Some a)) "quit" (Some entries) ov dr hpd p it w
    = (Ok RetNone, w')
    /\ objs w' = entries
    /\ files w' = files w
    /\ stdout w'
       = (stdout w
          ++ (if p then [] else [greeting w last; nothing_open_conflict]))%list.
Proof.
  intros O V L EL U.
  rewrite (run_dispatch _ _ _ last _ _ _ _ _ _ V L EL).
  cbn [String.eqb Ascii.eqb Bool.eqb].
  rewrite (run_quit_closed_conflict a p _ last _ O U).
  eexists. split; [reflexivity|].
  unfold at_dispatch, said. destruct p; cbn.
  - rewrite app_nil_r. repeat split.
  - rewrite <- app_assoc. repeat split.
Qed.

Lemma quit_closed_without_overwrite_witness :
  exists w',
    run (mkGlobals (Some Demo.cli_quit)) "quit" (Some Demo.closed_log) false
        false None false true Sample.world = (Ok RetNone, w')
    /\ objs w' = Demo.closed_log
    /\ files w' = []
    /\ stdout w'
       = ["Last entry is 1 day, 0:00:00 ago."; nothing_open_conflict].
Proof.
  exact (quit_closed_without_overwrite Demo.cli_quit Demo.closed_log
           Sample.monday false false None false true Sample.world eq_refl
           (fun k => eq_refl) eq_refl eq_refl eq_refl).
Defined.

(** X16: on a log whose last entry is finished, [quit] started with
    [--overwrite] ([args.overwrite] true) does not correct the end of the
    last entry: [set_finish_now] asserts that the entry is unfinished and
    the run stops with [AssertionError], every entry as it was. *)
Theorem quit_closed_with_overwrite_raises a entries last ov dr hpd p it w :
  overwrite a = true ->
  clock_valid w ->
  log_ok entries = true ->
  last_of entries = Ok last ->
  is_unfinished last = false ->
  exists w',
    run (mkGlobals (Some a)) "quit" (Some entries) ov dr hpd p it w
    = (Raise AssertionError, w')
    /\ objs w' = entries
    /\ files w' = files w.
Proof.
  intros O V L EL U.
  rewrite (run_dispatch _ _ _ last _ _ _ _ _ _ V L EL).
  cbn [String.eqb Ascii.eqb Bool.eqb].
  unfold run_quit, args_overwrite. rewrite U. cbn [args].
  rewrite (bind_ok _ _ _ true (at_dispatch p entries last w))
    by (rewrite O; reflexivity).
  unfold set_finish_now. rewrite U. cbn [assert_].
  eexists. split; [reflexivity|].
  unfold at_dispatch, said. destruct p; split; reflexivity.
Qed.

Lemma quit_closed_with_overwrite_raises_witness :
  exists w',
    run (mkGlobals (Some Demo.cli_quit_overwrite)) "quit"
        (Some Demo.closed_log) true false None false true Sample.world
    = (Raise AssertionError, w')
    /\ objs w' = Demo.closed_log
    /\ files w' = [].
Proof.
  exact (quit_closed_with_overwrite_raises Demo.cli_quit_overwrite
           Demo.closed_log Sample.monday true false None false true
           Sample.world eq_refl (fun k => eq_refl) eq_refl eq_refl eq_refl).
Defined.

(** ** What a run leaves alone *)

Section Frame.

Context {X : Type} (part : World -> X).

Lemma preserves_ret {A} (a : A) : preserves part (ret a).
Proof. intros w. reflexivity. Qed.

Lemma preserves_raise {A} e : preserves part (@raise A e).
Proof. intros w. reflexivity. Qed.

Lemma preserves_lift {A} (o : outcome A) : preserves part (lift o).
Proof. intros w. reflexivity. Qed.

Lemma preserves_assert b : preserves part (assert_ b).
Proof. destruct b; intros w; reflexivity. Qed.

Lemma preserves_get_objs : preserves part get_objs.
Proof. intros w. reflexivity. Qed.

Lemma preserves_read_rows f : preserves part (read_rows f).
Proof.
  intros w. unfold read_rows. destruct (lookup_file _ _); reflexivity.
Qed.

Lemma preserves_bind {A B} (m : M A) (f : A -> M B) :
  preserves part m -> (forall a, preserves part (f a)) ->
  preserves part (bind m f).
Proof.
  intros Hm Hf w. unfold bind. specialize (Hm w).
  destruct (m w) as [[a|e] w1]; cbn [snd] in *; [|exact Hm].
  rewrite (Hf a w1). exact Hm.
Qed.

Lemma preserves_get_data f : preserves part (get_data f).
Proof.
  unfold get_data. apply preserves_bind; [apply preserves_read_rows|].
  intros rows. apply preserves_lift.
Qed.

(** the part is not the count of the readings of the clock *)
Hypothesis part_now : preserves part datetime_now.

Lemma preserves_time_from_now : preserves part datetime_time_from_now.
Proof.
  unfold datetime_time_from_now. apply preserves_bind; [exact part_now|].
  intros n. apply preserves_lift.
Qed.

Lemma preserves_now_arrived : preserves part now_arrived.
Proof.
  unfold now_arrived, date_from_now, time_from_now.
  repeat (apply preserves_bind; [|intros ?]);
    try exact part_now; try apply preserves_ret; apply preserves_lift.
Qed.

Lemma preserves_working_time e : preserves part (working_time e).
Proof.
  unfold working_time. apply preserves_bind; [|intros ?; apply preserves_lift].
  destruct (time_stop e); [apply preserves_ret|].
  apply preserves_bind; [apply preserves_time_from_now|].
  intros ?. apply preserves_ret.
Qed.

Lemma preserves_accumulate entries total wm :
  preserves part (accumulate entries total wm).
Proof.
  revert total wm. induction entries as [|e l IH]; intros total wm.
  - apply preserves_ret.
  - cbn [accumulate]. apply preserves_bind; [apply preserves_working_time|].
    intros t. apply IH.
Qed.

Lemma preserves_drop_today l : preserves part (drop_today l).
Proof.
  induction l as [|e l IH]; [apply preserves_raise|].
  cbn [drop_today]. apply preserves_bind; [apply preserves_now_arrived|].
  intros n. destruct (String.eqb _ _); [exact IH|apply preserves_ret].
Qed.

Lemma preserves_set_finish_now e : preserves part (set_finish_now e).
Proof.
  unfold set_finish_now. apply preserves_bind; [apply preserves_assert|].
  intros _. apply preserves_bind; [apply preserves_time_from_now|].
  intros t. apply preserves_ret.
Qed.

Lemma preserves_set_start_now e : preserves part (set_start_now e).
Proof.
  unfold set_start_now. apply preserves_bind; [apply preserves_assert|].
  intros _. apply preserves_bind; [apply preserves_time_from_now|].
  intros t. apply preserves_ret.
Qed.

(** the function that prints leaves the part alone *)
Variable pr : string -> M unit.
Hypothesis part_pr : forall line, preserves part (pr line).

Lemma preserves_stats_core entries hpd it (k : Outdata -> M retval) :
  (forall o, preserves part (k o)) ->
  preserves part
    (entries <- (if negb it
                 then l <- drop_today (rev entries) ;; ret (rev l)
                 else ret entries) ;;
     tw <- accumulate entries 0 [] ;;
     first <- lift (first_of entries) ;;
     last <- lift (last_of entries) ;;
     pr ("Statistics on " ++ str_int (Z.of_nat (length (snd tw)))
         ++ " worked days (" ++ (if it then "in" else "ex")
         ++ "cluding today), from " ++ hr_date first ++ " to " ++ hr_date last) ;;
     pr ("You worked a total of " ++ minutes_to_hr (fst tw) ++ ".") ;;
     total_difftime_ <-
       match hpd with
       | None => ret None
       | Some h =>
           if float_truthy h then
             optimal_worktime <- lift (int_of_float (h * 60)%float) ;;
             let d := py_sum (difftime (snd tw) optimal_worktime) in
             (if 0 <? d
              then first' <- lift (first_of entries) ;;
                   pr ("You worked " ++ minutes_to_hr d ++ " too much since "
                       ++ hr_date first' ++ ".")
              else pr ("You have to work " ++ minutes_to_hr (- d) ++ " much.")) ;;
             ret (Some d)
           else ret None
       end ;;
     average_per_day_ <- lift (round_div (py_sum (wm_values (snd tw)))
                                         (Z.of_nat (length (snd tw)))) ;;
     pr ("You are working an average of " ++ minutes_to_hr average_per_day_
         ++ " per day.") ;;
     k (mkOutdata (Z.of_nat (length (snd tw))) (hr_date first) (hr_date last)
                  (fst tw) total_difftime_ average_per_day_)).
Proof.
  intros Hk.
  apply preserves_bind.
  { destruct (negb it); [|apply preserves_ret].
    apply preserves_bind; [apply preserves_drop_today|].
    intros ?. apply preserves_ret. }
  intros kept. apply preserves_bind; [apply preserves_accumulate|]. intros tw.
  apply preserves_bind; [apply preserves_lift|]. intros first.
  apply preserves_bind; [apply preserves_lift|]. intros last.
  apply preserves_bind; [apply part_pr|]. intros _.
  apply preserves_bind; [apply part_pr|]. intros _.
  apply preserves_bind.
  { destruct hpd as [h|]; [|apply preserves_ret].
    destruct (float_truthy h); [|apply preserves_ret].
    apply preserves_bind; [apply preserves_lift|]. intros t. cbn zeta.
    apply preserves_bind; [|intros _; apply preserves_ret].
    destruct (0 <? _); [|apply part_pr].
    apply preserves_bind; [apply preserves_lift|]. intros ?. apply part_pr. }
  intros d. apply preserves_bind; [apply preserves_lift|]. intros avg.
  apply preserves_bind; [apply part_pr|]. intros _. apply Hk.
Qed.

End Frame.

Section FrameRun.

Context {X : Type} (part : World -> X).
Hypothesis part_now : preserves part datetime_now.
Variable p : bool.
Hypothesis part_print : forall line, preserves part (choose_print p line).

Lemma preserves_print_all :
  (forall line, preserves part (builtins_print line)) ->
  forall lines, preserves part (print_all lines).
Proof.
  intros Hb lines. induction lines as [|l r IH]; [apply preserves_ret|].
  cbn [print_all]. apply preserves_bind; [apply Hb|intros _; exact IH].
Qed.

Lemma preserves_run_stats entries hpd it :
  (p = true -> forall lines, preserves part (print_all lines)) ->
  preserves part (run_stats (choose_print p) entries hpd p it).
Proof.
  intros Hall.
  apply (preserves_stats_core part part_now (choose_print p) part_print
           entries hpd it
           (fun o => (if p then print_all (porcelain_lines o) else ret tt) ;;
                     ret (RetStats o))).
  intros o. apply preserves_bind; [|intros _; apply preserves_ret].
  destruct p; [apply Hall; reflexivity|apply preserves_ret].
Qed.

(** what remains of [run] once the entries are at hand (lines 141-220) *)
Lemma preserves_run_body g action_ entries hpd it :
  (forall l, preserves part (set_objs l)) ->
  (String.eqb action_ "stats" = true -> p = true ->
   forall lines, preserves part (print_all lines)) ->
  preserves part
    (latest <- lift (py_max (map hr_date entries)) ;;
     last <- lift (last_of entries) ;;
     assert_ (String.eqb latest (hr_date last)) ;;
     now1 <- now_arrived ;;
     now2 <- now_arrived ;;
     (if String.eqb (hr_date last) (hr_date now1)
      then choose_print p "Last entry is today."
      else choose_print p
             ("Last entry is "
              ++ str_timedelta (date_sub (date_base now2) (date_base last))
              ++ " ago.")) ;;
     if String.eqb action_ "arrive"
     then run_arrive g (choose_print p) entries last
     else if String.eqb action_ "quit"
          then run_quit g (choose_print p) entries last
          else if String.eqb action_ "stats"
               then run_stats (choose_print p) entries hpd p it
               else ret (RetEntries entries)).
Proof.
  intros Hset Hall.
  apply preserves_bind; [apply preserves_lift|]. intros latest.
  apply preserves_bind; [apply preserves_lift|]. intros last.
  apply preserves_bind; [apply preserves_assert|]. intros _.
  apply preserves_bind; [apply preserves_now_arrived, part_now|]. intros now1.
  apply preserves_bind; [apply preserves_now_arrived, part_now|]. intros now2.
  apply preserves_bind;
    [destruct (String.eqb (hr_date last) _); apply part_print|].
  intros _.
  destruct (String.eqb action_ "arrive").
  { unfold run_arrive, args_overwrite. destruct (is_unfinished last).
    - apply preserves_bind;
        [destruct (args g); [apply preserves_ret|apply preserves_raise]|].
      intros o. destruct o.
      + apply preserves_bind; [apply preserves_set_start_now, part_now|].
        intros e. apply preserves_bind; [apply Hset|]. intros _.
        apply preserves_bind; [apply part_print|]. intros _.
        apply preserves_bind; [apply preserves_get_objs|]. intros l.
        apply preserves_ret.
      + apply preserves_bind; [apply part_print|]. intros _.
        apply preserves_ret.
    - apply preserves_bind; [apply preserves_now_arrived, part_now|].
      intros n. apply preserves_bind; [apply part_print|]. intros _.
      apply preserves_ret. }
  destruct (String.eqb action_ "quit").
  { unfold run_quit, args_overwrite. destruct (is_unfinished last).
    - apply preserves_bind; [apply preserves_set_finish_now, part_now|].
      intros e. apply preserves_bind; [apply Hset|]. intros _.
      apply preserves_bind; [apply part_print|]. intros _.
      apply preserves_bind; [apply preserves_get_objs|]. intros l.
      apply preserves_ret.
    - apply preserves_bind;
        [destruct (args g); [apply preserves_ret|apply preserves_raise]|].
      intros o. destruct o.
      + apply preserves_bind; [apply preserves_set_finish_now, part_now|].
        intros e. apply preserves_bind; [apply Hset|]. intros _.
        apply preserves_bind; [apply part_print|]. intros _.
        apply preserves_bind; [apply preserves_get_objs|]. intros l.
        apply preserves_ret.
      + apply preserves_bind; [apply part_print|]. intros _.
        apply preserves_ret. }
  destruct (String.eqb action_ "stats") eqn:S; [|apply preserves_ret].
  apply preserves_run_stats. intros P. apply Hall; [reflexivity|exact P].
Qed.

Lemma preserves_run g action_ entries ov dr hpd it :
  (forall l, preserves part (set_objs l)) ->
  (String.eqb action_ "stats" = true -> p = true ->
   forall lines, preserves part (print_all lines)) ->
  preserves part (run g action_ entries ov dr hpd p it).
Proof.
  intros Hset Hall. unfold run.
  apply preserves_bind;
    [destruct entries; [apply preserves_ret|apply preserves_get_data]|].
  intros l. apply preserves_bind; [apply Hset|]. intros _.
  apply (preserves_run_body g action_ l hpd it Hset Hall).
Qed.

End FrameRun.

Lemma files_now : preserves files datetime_now.
Proof. intros w. reflexivity. Qed.

Lemma spawned_now : preserves spawned datetime_now.
Proof. intros w. reflexivity. Qed.

Lemma stdout_now : preserves stdout datetime_now.
Proof. intros w. reflexivity. Qed.

Lemma objs_now : preserves objs datetime_now.
Proof. intros w. reflexivity. Qed.

Lemma run_keeps_files g action_ entries ov dr hpd p it :
  preserves files (run g action_ entries ov dr hpd p it).
Proof.
  apply preserves_run; [exact files_now| | |].
  - intros line. destruct p; intros w; reflexivity.
  - intros l w. reflexivity.
  - intros _ _. apply preserves_print_all. intros line w. reflexivity.
Qed.

Lemma run_keeps_spawned g action_ entries ov dr hpd p it :
  preserves spawned (run g action_ entries ov dr hpd p it).
Proof.
  apply preserves_run; [exact spawned_now| | |].
  - intros line. destruct p; intros w; reflexivity.
  - intros l w. reflexivity.
  - intros _ _. apply preserves_print_all. intros line w. reflexivity.
Qed.

Lemma run_stats_keeps_objs g entries ov dr hpd p it w :
  objs (snd (run g "stats" (Some entries) ov dr hpd p it w)) = entries.
Proof.
  unfold run.
  rewrite (bind_ok _ _ w entries w) by reflexivity.
  rewrite (bind_ok _ _ w tt (with_objs entries w)) by reflexivity.
  cbn [String.eqb Ascii.eqb Bool.eqb].
  match goal with
  | |- objs (snd (?m _)) = _ => assert (P : preserves objs m)
  end.
  { assert (Pp : forall line, preserves objs (choose_print p line))
      by (intros line; destruct p; intros v; reflexivity).
    apply preserves_bind; [apply preserves_lift|]. intros latest.
    apply preserves_bind; [apply preserves_lift|]. intros last.
    apply preserves_bind; [apply preserves_assert|]. intros _.
    apply preserves_bind; [apply preserves_now_arrived, objs_now|]. intros now1.
    apply preserves_bind; [apply preserves_now_arrived, objs_now|]. intros now2.
    apply preserves_bind;
      [destruct (String.eqb (hr_date last) _); apply Pp|]. intros _.
    apply (preserves_run_stats objs objs_now p Pp).
    intros _. apply preserves_print_all. intros line v. reflexivity. }
  rewrite (P (with_objs entries w)). reflexivity.
Qed.

(** X17: [run] never writes a file and never starts a process, whatever the
    action, the options and the outcome (a value or an exception); with the
    action ['stats'] it also leaves every entry of the log as it was. *)
Theorem run_writes_nothing g action_ entries ov dr hpd p it w :
  files (snd (run g action_ entries ov dr hpd p it w)) = files w
  /\ spawned (snd (run g action_ entries ov dr hpd p it w)) = spawned w
  /\ (forall l, entries = Some l -> action_ = "stats" ->
                objs (snd (run g action_ entries ov dr hpd p it w)) = l).
Proof.
  split; [apply run_keeps_files|]. split; [apply run_keeps_spawned|].
  intros l -> ->. apply run_stats_keeps_objs.
Qed.

Lemma run_writes_nothing_witness :
  objs (snd (run (mkGlobals None) "stats" (Some Sample.open_log) false false
                 None false true Demo.office)) = Sample.open_log.
Proof.
  exact (proj2 (proj2 (run_writes_nothing (mkGlobals None) "stats"
                         (Some Sample.open_log) false false None false true
                         Demo.office)) Sample.open_log eq_refl eq_refl).
Defined.

(** X18: with [porcelain], the actions ['arrive'] and ['quit'] print
    nothing at all, whether they succeed, decline or raise. *)
Theorem porcelain_silences_arrive_and_quit g action_ entries ov dr hpd it w :
  action_ = "arrive" \/ action_ = "quit" ->
  stdout (snd (run g action_ entries ov dr hpd true it w)) = stdout w.
Proof.
  intros A. apply preserves_run; [exact stdout_now| | |].
  - intros line v. reflexivity.
  - intros l v. reflexivity.
  - destruct A as [->| ->]; discriminate.
Qed.

Lemma porcelain_silences_arrive_and_quit_witness :
  stdout (snd (run (mkGlobals (Some Sample.cli_arrive)) "arrive"
                   (Some Sample.open_log) false false None true true
                   Sample.world)) = [].
Proof.
  exact (porcelain_silences_arrive_and_quit (mkGlobals (Some Sample.cli_arrive))
           "arrive" (Some Sample.open_log) false false None true
           Sample.world (or_introl eq_refl)).
Defined.

(** ** What a run can return *)

Lemma returns_only_ret {A} (P : A -> Prop) a : P a -> returns_only P (ret a).
Proof. intros H w x w' [= <- _]. exact H. Qed.

Lemma returns_only_raise {A} (P : A -> Prop) e : returns_only P (raise e).
Proof. intros w x w' E. discriminate E. Qed.

Lemma returns_only_any {A} (m : M A) : returns_only (fun _ => True) m.
Proof. intros w x w' _. exact I. Qed.

Lemma returns_only_bind {A B} (Q : A -> Prop) (P : B -> Prop)
  (m : M A) (f : A -> M B) :
  returns_only Q m -> (forall a, Q a -> returns_only P (f a)) ->
  returns_only P (bind m f).
Proof.
  intros Hm Hf w b w'. unfold bind.
  destruct (m w) as [[a|e] w1] eqn:E; [|discriminate].
  apply (Hf a (Hm w a w1 E)).
Qed.

Lemma returns_only_then {A B} (P : B -> Prop) (m : M A) (f : A -> M B) :
  (forall a, returns_only P (f a)) -> returns_only P (bind m f).
Proof.
  intros Hf. apply (returns_only_bind (fun _ => True));
    [apply returns_only_any|intros a _; apply Hf].
Qed.

(** [run_stats] returns a dictionary; its deviation is absent when the
    target is absent or zero. *)
Lemma run_stats_returns pr entries hpd p it :
  returns_only
    (fun r => exists o, r = RetStats o
                        /\ (target_minutes hpd = Ok None ->
                            total_difftime o = None))
    (run_stats pr entries hpd p it).
Proof.
  unfold run_stats.
  do 6 (apply returns_only_then; intros ?).
  apply (returns_only_bind
           (fun d => target_minutes hpd = Ok None -> d = None)).
  - unfold target_minutes. destruct hpd as [h|].
    + destruct (float_truthy h).
      * apply returns_only_then. intros t.
        apply returns_only_then. intros _.
        apply returns_only_ret. intros H.
        destruct (int_of_float _); discriminate H.
      * apply returns_only_ret. reflexivity.
    + apply returns_only_ret. reflexivity.
  - intros d Hd.
    do 3 (apply returns_only_then; intros ?).
    apply returns_only_ret. eexists. split; [reflexivity|exact Hd].
Qed.

Lemma run_returns_stats g entries ov dr hpd p it :
  returns_only
    (fun r => exists o, r = RetStats o
                        /\ (target_minutes hpd = Ok None ->
                            total_difftime o = None))
    (run g "stats" entries ov dr hpd p it).
Proof.
  unfold run. do 8 (apply returns_only_then; intros ?).
  cbn [String.eqb Ascii.eqb Bool.eqb]. apply run_stats_returns.
Qed.

Lemma preserves_bind_returns {X A B} (part : World -> X) (Q : A -> Prop)
  (m : M A) (f : A -> M B) :
  preserves part m -> returns_only Q m ->
  (forall a, Q a -> preserves part (f a)) ->
  preserves part (bind m f).
Proof.
  intros Hm Hq Hf w. unfold bind. specialize (Hm w).
  destruct (m w) as [[a|e] w1] eqn:E; cbn [snd] in *; [|exact Hm].
  rewrite (Hf a (Hq w a w1 E) w1). exact Hm.
Qed.

(** ** The script *)

(** X19: the script writes no file when it is started with [--dry-run], and
    none when its action is ['stats']: whatever happens, the files are
    afterwards as they were before. *)
Theorem main_writes_nothing a w :
  dry_run a = true \/ action a = "stats" ->
  files (snd (main a w)) = files w.
Proof.
  intros H. revert w. fold (preserves files (main a)). unfold main.
  apply preserves_bind; [apply preserves_get_data|]. intros entries.
  destruct H as [D|S].
  - apply preserves_bind; [apply run_keeps_files|]. intros r.
    rewrite D, andb_false_r. apply preserves_ret.
  - rewrite S.
    apply (preserves_bind_returns files _ _ _ (run_keeps_files _ _ _ _ _ _ _ _)
             (run_returns_stats _ _ _ _ _ _ _)).
    intros r (o & -> & _).
    destruct (retval_truthy _ && _); apply preserves_ret.
Qed.

Lemma main_writes_nothing_witness :
  files (snd (main Demo.cli_arrive_dry Demo.office)) = files Demo.office
  /\ files (snd (main Demo.cli_stats Demo.office)) = files Demo.office.
Proof.
  split.
  - exact (main_writes_nothing Demo.cli_arrive_dry Demo.office
             (or_introl eq_refl)).
  - exact (main_writes_nothing Demo.cli_stats Demo.office (or_intror eq_refl)).
Defined.

Lemma now_entry_wf d t :
  valid_date d = true -> valid_time t = true ->
  entry_wf (mkEntry (reparsed d) t None) = true.
Proof.
  intros Vd Vt. unfold entry_wf. cbn [date_base time_start time_stop].
  rewrite (valid_reparsed d Vd), Vt.
  assert (P : in_pivot (reparsed d) = true).
  { unfold in_pivot, reparsed. cbn [year].
    destruct (pivot_year_range (year d mod 100)
                (Z.mod_pos_bound (year d) 100 ltac:(lia))) as [R _].
    to_prop; lia. }
  rewrite P. reflexivity.
Qed.

Lemma forallb_snoc {A} (f : A -> bool) l x :
  forallb f l = true -> f x = true -> forallb f (l ++ [x])%list = true.
Proof.
  intros Hl Hx. rewrite forallb_app, Hl. cbn [forallb]. rewrite Hx.
  reflexivity.
Qed.

(** X20: started as [arrive] (without [--dry-run]) on a time file whose
    last row is a finished session, the script stores the old entries
    followed by the new open one in the file named [temps] of the working
    directory, whatever [--timefile] names; reading [temps] again gives
    these entries, and no other file changes. *)
Theorem main_arrive_persists a rows entries last w :
  action a = "arrive" ->
  dry_run a = false ->
  clock_valid w ->
  lookup_file (normpath (timefile a)) (files w) = Some rows ->
  parse_rows rows = Ok entries ->
  log_ok entries = true ->
  last_of entries = Ok last ->
  is_unfinished last = false ->
  exists n w',
    main a w = (Ok tt, w')
    /\ is_unfinished n = true
    /\ lookup_file "temps" (files w')
       = Some (map entry_row (entries ++ [n])%list)
    /\ get_data "temps" w' = (Ok (entries ++ [n])%list, w')
    /\ (forall other, other <> "temps" ->
                      lookup_file other (files w') = lookup_file other (files w)).
Proof.
  intros A D V R P L EL U. unfold main, get_data.
  assert (G : bind (read_rows (timefile a)) (fun rows => lift (parse_rows rows)) w
              = (Ok entries, w)).
  { unfold bind, read_rows. rewrite R. unfold lift. rewrite P. reflexivity. }
  rewrite (bind_ok _ _ _ _ _ G). rewrite A, D.
  set (n := mkEntry (reparsed (dt_date (clock w (tick w + 4))))
                    (dt_time (clock w (S (tick w + 4)))) None).
  assert (E : run (mkGlobals (Some a)) "arrive" (Some entries) (overwrite a)
                  false (hours_per_day a) (porcelain a) (negb (not_today a)) w
              = (Ok (RetEntries (entries ++ [n])%list),
                 said (porcelain a) ["Added a new entry, arrival now."]
                      (advance 2 (at_dispatch (porcelain a) entries last w)))).
  { rewrite (run_dispatch _ _ _ last _ _ _ _ _ _ V L EL).
    cbn [String.eqb Ascii.eqb Bool.eqb].
    rewrite (run_arrive_closed _ _ entries last _
               (clock_valid_at_dispatch _ _ _ _ V) U).
    rewrite !clock_at_dispatch, tick_at_dispatch. reflexivity. }
  rewrite (bind_ok _ _ _ _ _ E).
  assert (T : retval_truthy (RetEntries (entries ++ [n])%list) && negb false
              = true).
  { cbn [retval_truthy negb]. rewrite length_app. cbn [length].
    rewrite andb_true_r. apply negb_true_iff, Nat.eqb_neq. lia. }
  rewrite T.
  assert (W : forallb entry_wf (entries ++ [n])%list = true).
  { apply forallb_snoc; [apply (parse_rows_wf rows), P|].
    pose proof (V (tick w + 4)%nat) as V4.
    pose proof (V (S (tick w + 4))) as V5.
    unfold valid_datetime in V4, V5.
    apply andb_prop in V4, V5. apply now_entry_wf; tauto. }
  exists n. eexists. split; [reflexivity|]. split; [reflexivity|].
  unfold write_rows. cbn [snd files normpath].
  split; [apply lookup_store_same|]. split.
  - unfold bind, read_rows. cbn [files normpath].
    rewrite lookup_store_same. unfold lift.
    rewrite (parse_rows_entry_rows _ W). reflexivity.
  - intros other N. rewrite (lookup_store_other _ _ _ _ N).
    unfold at_dispatch, said. destruct (porcelain a); reflexivity.
Qed.

Lemma main_arrive_persists_witness :
  exists n w',
    main Sample.cli_arrive Demo.office = (Ok tt, w')
    /\ is_unfinished n = true
    /\ lookup_file "temps" (files w')
       = Some (map entry_row (Demo.closed_log ++ [n])%list)
    /\ get_data "temps" w' = (Ok (Demo.closed_log ++ [n])%list, w')
    /\ (forall other, other <> "temps" ->
                      lookup_file other (files w')
                      = lookup_file other (files Demo.office)).
Proof.
  exact (main_arrive_persists Sample.cli_arrive Demo.closed_rows
           Demo.closed_log Sample.monday Demo.office eq_refl eq_refl
           (fun k => eq_refl) eq_refl eq_refl eq_refl eq_refl eq_refl).
Defined.

(** ** The notification tool as it is started *)

Lemma get_data_world fname w : snd (get_data fname w) = w.
Proof.
  unfold get_data, bind, read_rows, lift.
  destruct (lookup_file _ _) as [rows|]; [|reflexivity].
  destruct (parse_rows rows); reflexivity.
Qed.

Lemma get_data_raises fname w x :
  fst (get_data fname w) = Raise x ->
  x = FileNotFoundError \/ x = ValueError.
Proof.
  unfold get_data, bind, read_rows, lift.
  destruct (lookup_file _ _) as [rows|].
  - destruct (parse_rows rows) as [l|y] eqn:P; [discriminate|].
    cbn [fst]. intros [= <-]. right. apply (parse_rows_raises _ _ P).
  - intros [= <-]. left. reflexivity.
Qed.

(** X21: the notification tool, started as [notify.py] is written, never
    reaches its thresholds: [temps] is an imported module there, [run] is
    called without [porcelain], and line 144 of [temps.py] fails.  Whatever
    the option [--hours-per-day], the tool does not end normally, sends no
    notification, prints nothing and writes no file; it stops with
    [AttributeError] when the time file [temps] can be read, and with the
    exception of [get_data] when it cannot. *)
Theorem notify_stops_at_the_print w h :
  (forall u, fst (notify_main h w) <> Ok u)
  /\ spawned (snd (notify_main h w)) = spawned w
  /\ stdout (snd (notify_main h w)) = stdout w
  /\ files (snd (notify_main h w)) = files w
  /\ (forall l, fst (get_data "temps" w) = Ok l ->
                fst (notify_main h w) = Raise AttributeError)
  /\ (forall x, fst (get_data "temps" w) = Raise x ->
                fst (notify_main h w) = Raise x)
  /\ (forall x, fst (notify_main h w) = Raise x ->
                x = AttributeError \/ x = FileNotFoundError \/ x = ValueError).
Proof.
  pose proof (get_data_world "temps" w) as G.
  pose proof (get_data_raises "temps" w) as X.
  unfold notify_main, run_imported_verbose, bind.
  destruct (get_data "temps" w) as [[l|x] w1]; cbn [fst snd] in *; subst w1.
  - cbn. repeat split; try discriminate.
    + intros x [= <-]. left. reflexivity.
  - cbn. repeat split; try discriminate.
    + intros y [= <-]. reflexivity.
    + intros y [= <-]. right. apply X. reflexivity.
Qed.

Lemma notify_stops_at_the_print_witness :
  fst (notify_main 0x1.d99999999999ap+2 Demo.office) = Raise AttributeError
  /\ spawned (snd (notify_main 0x1.d99999999999ap+2 Demo.office)) = [].
Proof.
  destruct (notify_stops_at_the_print Demo.office 0x1.d99999999999ap+2)
    as (_ & S & _ & _ & A & _).
  split; [exact (A Demo.closed_log eq_refl)|exact S].
Defined.

(** ** What [stats] prints and returns *)

Lemma prints_record_bind {A} (m : M A) (f : A -> M retval) :
  preserves stdout m -> (forall a, prints_record (f a)) ->
  prints_record (bind m f).
Proof.
  intros Hm Hf w r w'. unfold bind. specialize (Hm w).
  destruct (m w) as [[a|e] w1]; [|discriminate]. cbn [snd] in Hm.
  intros E. destruct (Hf a w1 r w' E) as (o & -> & S).
  exists o. split; [reflexivity|]. rewrite S, Hm. reflexivity.
Qed.

Lemma print_all_spec lines w :
  print_all lines w = (Ok tt, with_stdout (stdout w ++ lines)%list w).
Proof.
  revert w. induction lines as [|l r IH]; intros w.
  - cbn [print_all]. unfold ret, with_stdout. rewrite app_nil_r.
    destruct w; reflexivity.
  - cbn [print_all]. unfold bind. cbn [builtins_print]. rewrite IH.
    unfold with_stdout. cbn [stdout clock tick files spawned objs].
    rewrite <- app_assoc. reflexivity.
Qed.

Lemma prints_record_last o :
  prints_record (print_all (porcelain_lines o) ;; ret (RetStats o)).
Proof.
  intros w r w'. unfold bind. rewrite print_all_spec.
  intros [= <- <-]. exists o. split; reflexivity.
Qed.

Ltac quiet :=
  repeat first
    [ apply preserves_get_data
    | apply preserves_read_rows
    | apply preserves_bind; [|intros ?]
    | apply preserves_ret
    | apply preserves_lift
    | apply preserves_raise
    | apply preserves_assert
    | apply (preserves_drop_today stdout stdout_now)
    | apply (preserves_accumulate stdout stdout_now)
    | apply (preserves_now_arrived stdout stdout_now)
    | match goal with
      | |- preserves _ (choose_print true _) => intros ?; reflexivity
      | |- preserves _ (set_objs _) => intros ?; reflexivity
      | |- preserves _ (if ?b then _ else _) => destruct b
      | |- preserves _ (match ?x with Some _ => _ | None => _ end) => destruct x
      end ].

Lemma run_stats_prints_record entries hpd it :
  prints_record (run_stats (choose_print true) entries hpd true it).
Proof.
  unfold run_stats.
  repeat (apply prints_record_bind; [solve [quiet]|intros ?]).
  apply prints_record_last.
Qed.

(** X22: in porcelain mode, whenever [stats] returns, it returns a
    dictionary and has printed exactly one line per key of it, the key and
    its value, in the order of insertion ([total_difftime] only when there
    is a target); nothing else reached the output. *)
Theorem porcelain_prints_the_record g entries ov dr hpd it w r w' :
  run g "stats" entries ov dr hpd true it w = (Ok r, w') ->
  exists o,
    r = RetStats o
    /\ stdout w' = (stdout w ++ porcelain_lines o)%list
    /\ length (porcelain_lines o)
       = match total_difftime o with Some _ => 6%nat | None => 5%nat end.
Proof.
  intros E.
  assert (P : prints_record (run g "stats" entries ov dr hpd true it)).
  { unfold run.
    do 8 (apply prints_record_bind; [solve [quiet]|intros ?]).
    cbn [String.eqb Ascii.eqb Bool.eqb]. apply run_stats_prints_record. }
  destruct (P w r w' E) as (o & -> & S).
  exists o. split; [reflexivity|]. split; [exact S|].
  unfold porcelain_lines. destruct (total_difftime o); reflexivity.
Qed.

Lemma porcelain_prints_the_record_witness :
  exists o w',
    run (mkGlobals None) "stats" (Some Sample.scenario_log) false false
        (Some 8%float) true true Sample.world = (Ok (RetStats o), w')
    /\ stdout w'
       = ["nb_day 2"; "first_day 24/01/01"; "last_day 24/01/02";
          "total_worktime 750"; "total_difftime -210"; "average_per_day 375"].
Proof.
  pose (x := run (mkGlobals None) "stats" (Some Sample.scenario_log) false
                 false (Some 8%float) true true Sample.world).
  destruct (porcelain_prints_the_record (mkGlobals None)
              (Some Sample.scenario_log) false false (Some 8%float) true
              Sample.world
              (RetStats (mkOutdata 2 "24/01/01" "24/01/02" 750 (Some (-210))
                                   375))
              (snd x))
    as (o & Eo & S & _).
  - vm_compute. reflexivity.
  - exists o, (snd x). injection Eo as <-. split; [|exact S].
    vm_compute. reflexivity.
Defined.

Lemma wm_get_keys wm :
  NoDup (wm_keys wm) -> map (wm_get wm) (wm_keys wm) = wm_values wm.
Proof.
  unfold wm_keys, wm_values.
  induction wm as [|[k v] wm IH]; [reflexivity|].
  cbn [map fst snd]. intros N. inversion N as [|? ? NI N']. subst.
  cbn [wm_get]. rewrite String.eqb_refl. f_equal.
  rewrite <- (IH N'). apply map_ext_in. intros d I.
  destruct (String.eqb k d) eqn:E; [|reflexivity].
  apply String.eqb_eq in E. subst d. contradiction.
Qed.

Lemma py_sum_shift {A} (f : A -> Z) t l :
  py_sum (map (fun x => f x - t) l)
  = py_sum (map f l) - Z.of_nat (length l) * t.
Proof.
  induction l as [|x l IH]; [reflexivity|].
  cbn [map length]. rewrite !sum_cons, IH. lia.
Qed.

Lemma minutes_on_total now kept :
  py_sum (map (minutes_on now kept) (distinct_days kept))
  = py_sum (map (minutes_at now) kept).
Proof.
  transitivity (py_sum (wm_values (workamount_of now kept []))).
  - rewrite <- wm_get_keys
      by (rewrite workamount_keys; apply distinct_days_NoDup).
    rewrite workamount_keys. change (wm_keys []) with (@nil string).
    fold (distinct_days kept). f_equal. apply map_ext. intros d.
    rewrite workamount_get. reflexivity.
  - rewrite workamount_values. reflexivity.
Qed.

Lemma round_half_even_near a b :
  0 < b ->
  b * (2 * round_half_even a b - 1) <= 2 * a
  /\ 2 * a <= b * (2 * round_half_even a b + 1).
Proof.
  intros B. unfold round_half_even.
  pose proof (Z.div_mod a b ltac:(lia)) as E.
  pose proof (Z.mod_pos_bound a b B) as R.
  destruct (Z.ltb_spec (2 * (a mod b)) b);
    [|destruct (Z.ltb_spec b (2 * (a mod b))); [|destruct (Z.even (a / b))]];
    nia.
Qed.

Lemma distinct_days_length kept :
  (length (distinct_days kept) <= length kept)%nat.
Proof.
  unfold distinct_days.
  assert (G : forall l seen,
             (length (fold_left note_day l seen) <= length seen + length l)%nat).
  { induction l as [|d l IH]; intros seen; cbn [fold_left length]; [lia|].
    specialize (IH (note_day seen d)). unfold note_day in *.
    destruct (existsb _ seen); [lia|].
    rewrite length_app in IH. cbn [length] in IH. lia. }
  specialize (G (map hr_date kept) []). rewrite length_map in G. exact G.
Qed.

(** X23: the figures of the record [stats] returns fit together.  With a
    clock that keeps its reading, a log that passes the check of line 145
    and kept sessions whose durations fit in a day: [nb_day] counts the
    distinct days of the entries kept (at least 1, at most their number),
    [first_day] and [last_day] are the days of the first and last entries
    kept, [total_worktime] is the sum of their minutes, [average_per_day]
    is the integer nearest to [total_worktime / nb_day], and with a target
    of [t] minutes [total_difftime] is [total_worktime - nb_day * t]. *)
Theorem stats_record_figures g entries ov dr hpd p it first last target n w :
  valid_datetime n = true ->
  clock_frozen n w ->
  log_ok entries = true ->
  let kept := kept_entries (today_of n) it entries in
  first_of kept = Ok first ->
  last_of kept = Ok last ->
  forallb (fits_a_day (dt_time n)) kept = true ->
  target_minutes hpd = Ok target ->
  exists o w',
    run g "stats" (Some entries) ov dr hpd p it w = (Ok (RetStats o), w')
    /\ nb_day o = Z.of_nat (length (distinct_days kept))
    /\ 1 <= nb_day o <= Z.of_nat (length kept)
    /\ first_day o = hr_date first
    /\ last_day o = hr_date last
    /\ total_worktime o = py_sum (map (minutes_at (dt_time n)) kept)
    /\ nb_day o * (2 * average_per_day o - 1) <= 2 * total_worktime o
    /\ 2 * total_worktime o <= nb_day o * (2 * average_per_day o + 1)
    /\ total_difftime o
       = match target with
         | Some t => Some (total_worktime o - nb_day o * t)
         | None => None
         end.
Proof.
  intros V F L kept EF EL Fit ET.
  destruct (run_stats_frozen n V g entries ov dr hpd p it first last target w
                             F L EF EL Fit ET) as (w' & E).
  fold kept in E.
  pose proof (distinct_days_nonempty kept first EF) as NZ.
  pose proof (distinct_days_length kept) as LE.
  eexists. exists w'. split; [exact E|].
  unfold spec_stats. cbn [nb_day first_day last_day total_worktime
                           average_per_day total_difftime].
  split; [reflexivity|]. split; [lia|].
  split; [reflexivity|]. split; [reflexivity|]. split; [reflexivity|].
  destruct (round_half_even_near
              (py_sum (map (minutes_at (dt_time n)) kept))
              (Z.of_nat (length (distinct_days kept))) ltac:(lia)) as [R1 R2].
  split; [exact R1|]. split; [exact R2|].
  destruct target as [t|]; [|reflexivity].
  rewrite py_sum_shift, minutes_on_total. reflexivity.
Qed.

Lemma stats_record_figures_witness :
  exists o w',
    run (mkGlobals None) "stats" (Some Sample.open_log) false false
        (Some Sample.h_7_99) false true Sample.world = (Ok (RetStats o), w')
    /\ nb_day o = 2
    /\ 1 <= nb_day o <= 2
    /\ first_day o = "24/03/04"
    /\ last_day o = "24/03/05"
    /\ total_worktime o = 540
    /\ nb_day o * (2 * average_per_day o - 1) <= 2 * total_worktime o
    /\ 2 * total_worktime o <= nb_day o * (2 * average_per_day o + 1)
    /\ total_difftime o = Some (total_worktime o - nb_day o * 479).
Proof.
  exact (stats_record_figures (mkGlobals None) Sample.open_log false false
           (Some Sample.h_7_99) false true Sample.monday Sample.this_morning
           (Some 479) Sample.now Sample.world eq_refl (fun k => eq_refl)
           eq_refl eq_refl eq_refl eq_refl eq_refl).
Defined.

Lemma kept_entries_last_not_today today entries last :
  last_of entries = Ok last -> dated today last = false ->
  kept_entries today false entries = entries.
Proof.
  unfold kept_entries, last_of. intros EL D.
  destruct (rev entries) as [|e r] eqn:R; [discriminate|].
  injection EL as ->. cbn [strip_today]. rewrite D, <- R.
  apply rev_involutive.
Qed.

(** X24: excluding today changes nothing when the last entry of the log is
    not dated today: with a clock that keeps its reading, [stats] then
    returns the same record with [include_today] false as with
    [include_today] true. *)
Theorem not_today_without_effect g entries ov dr hpd p first last target n w :
  valid_datetime n = true ->
  clock_frozen n w ->
  log_ok entries = true ->
  first_of entries = Ok first ->
  last_of entries = Ok last ->
  dated (today_of n) last = false ->
  forallb (fits_a_day (dt_time n)) entries = true ->
  target_minutes hpd = Ok target ->
  exists o w1 w2,
    run g "stats" (Some entries) ov dr hpd p true w = (Ok (RetStats o), w1)
    /\ run g "stats" (Some entries) ov dr hpd p false w = (Ok (RetStats o), w2).
Proof.
  intros V F L EF EL D Fit ET.
  pose proof (kept_entries_last_not_today _ _ _ EL D) as K.
  destruct (run_stats_frozen n V g entries ov dr hpd p true first last target
                             w F L EF EL Fit ET) as (w1 & E1).
  destruct (run_stats_frozen n V g entries ov dr hpd p false first last target
                             w F L) as (w2 & E2); rewrite ?K; try assumption.
  rewrite K in E2. cbn [kept_entries] in E1. eauto.
Qed.

Lemma not_today_without_effect_witness :
  exists o w1 w2,
    run (mkGlobals None) "stats" (Some Demo.closed_log) false false None false
        true Sample.world = (Ok (RetStats o), w1)
    /\ run (mkGlobals None) "stats" (Some Demo.closed_log) false false None
           false false Sample.world = (Ok (RetStats o), w2).
Proof.
  exact (not_today_without_effect (mkGlobals None) Demo.closed_log false false
           None false Sample.first_of_january Sample.monday None Sample.now
           Sample.world eq_refl (fun k => eq_refl) eq_refl eq_refl eq_refl
           eq_refl eq_refl eq_refl).
Defined.

(** ** The text of a duration *)

Lemma check_pad_all : forallb check_pad (Zrange 0 100) = true.
Proof. vm_compute. reflexivity. Qed.

Lemma format_02d_two_digits n : 0 <= n < 100 -> format_02d n = two_digits n.
Proof.
  intros B. apply String.eqb_eq.
  apply (forallb_Zrange check_pad 0 100 check_pad_all). lia.
Qed.

(** X25: for [0 <= m < 6000], [minutes_to_hr m] has exactly six
    characters: the hours [m // 60] on two digits, ["h"], the minutes
    [m % 60] on two digits, ["m"]. *)
Theorem minutes_to_hr_layout m :
  0 <= m < 6000 ->
  minutes_to_hr m
  = two_digits (m / 60) ++ "h" ++ two_digits (m mod 60) ++ "m"
  /\ String.length (minutes_to_hr m) = 6%nat.
Proof.
  intros B. unfold minutes_to_hr.
  pose proof (Z.mod_pos_bound m 60 ltac:(lia)).
  assert (0 <= m / 60 < 100)
    by (split; [apply Z.div_pos; lia|apply Z.div_lt_upper_bound; lia]).
  rewrite !format_02d_two_digits by lia. split; reflexivity.
Qed.

Lemma minutes_to_hr_layout_witness :
  minutes_to_hr 750 = "12h30m" /\ String.length (minutes_to_hr 750) = 6%nat.
Proof. exact (minutes_to_hr_layout 750 ltac:(lia)). Defined.

(** ** The order of the dates as texts *)

Lemma check_digit_order_all :
  forallb (fun x => forallb (check_digit_order x) (Zrange 0 10)) (Zrange 0 10)
  = true.
Proof. vm_compute. reflexivity. Qed.

Lemma digit_compare x y :
  0 <= x < 10 -> 0 <= y < 10 ->
  Ascii.compare (digit x) (digit y) = (x ?= y).
Proof.
  intros Bx By.
  assert (C : check_digit_order x y = true).
  { apply (forallb_Zrange _ 0 10); [|lia].
    apply (forallb_Zrange
             (fun x => forallb (check_digit_order x) (Zrange 0 10)) 0 10);
      [exact check_digit_order_all|lia]. }
  unfold check_digit_order in C.
  destruct (Ascii.compare _ _), (x ?= y); try discriminate; reflexivity.
Qed.

Lemma two_digits_compare a b s t :
  0 <= a < 100 -> 0 <= b < 100 ->
  String.compare (two_digits a ++ s) (two_digits b ++ t)
  = match a ?= b with
    | Eq => String.compare s t
    | c => c
    end.
Proof.
  intros Ba Bb. unfold two_digits. cbn [append String.compare].
  pose proof (Z.mod_pos_bound a 10 ltac:(lia)).
  pose proof (Z.mod_pos_bound b 10 ltac:(lia)).
  pose proof (Z.div_mod a 10 ltac:(lia)).
  pose proof (Z.div_mod b 10 ltac:(lia)).
  assert (0 <= a / 10 < 10)
    by (split; [apply Z.div_pos; lia|apply Z.div_lt_upper_bound; lia]).
  assert (0 <= b / 10 < 10)
    by (split; [apply Z.div_pos; lia|apply Z.div_lt_upper_bound; lia]).
  rewrite !digit_compare by lia.
  destruct (Z.compare_spec (a / 10) (b / 10));
    destruct (Z.compare_spec (a mod 10) (b mod 10));
    destruct (Z.compare_spec a b); try lia; reflexivity.
Qed.

Lemma slash_compare s t :
  String.compare ("/" ++ s) ("/" ++ t) = String.compare s t.
Proof. reflexivity. Qed.

(** X26: for two real dates of the same century, the order of their texts
    [hr_date] (the one line 145 and [max] use) is the order of the
    calendar. *)
Theorem hr_date_order e1 e2 :
  valid_date (date_base e1) = true ->
  valid_date (date_base e2) = true ->
  year (date_base e1) / 100 = year (date_base e2) / 100 ->
  String.leb (hr_date e1) (hr_date e2) = date_leb (date_base e1) (date_base e2).
Proof.
  unfold valid_date, hr_date, strftime_ymd, date_leb, String.leb.
  destruct (date_base e1) as [y1 m1 d1], (date_base e2) as [y2 m2 d2].
  cbn [year month day]. intros V1 V2 C. to_prop.
  pose proof (days_in_month_le y1 m1). pose proof (days_in_month_le y2 m2).
  pose proof (Z.mod_pos_bound y1 100 ltac:(lia)).
  pose proof (Z.mod_pos_bound y2 100 ltac:(lia)).
  pose proof (Z.div_mod y1 100 ltac:(lia)).
  pose proof (Z.div_mod y2 100 ltac:(lia)).
  rewrite two_digits_compare by lia. rewrite slash_compare.
  rewrite two_digits_compare by lia. rewrite slash_compare.
  change (two_digits d1) with (two_digits d1 ++ "").
  change (two_digits d2) with (two_digits d2 ++ "").
  rewrite two_digits_compare by lia. cbn [String.compare].
  destruct (Z.compare_spec (y1 mod 100) (y2 mod 100));
    destruct (Z.compare_spec y1 y2); try lia; try reflexivity.
  destruct (Z.compare_spec m1 m2); try reflexivity.
  destruct (Z.compare_spec d1 d2); symmetry;
    [apply Z.leb_le|apply Z.leb_le|apply Z.leb_gt]; lia.
Qed.

Lemma hr_date_order_witness :
  String.leb "24/03/04" "24/03/05" = true
  /\ String.leb (hr_date Sample.this_morning) (hr_date Sample.monday) = false.
Proof.
  split.
  - exact (hr_date_order Sample.monday Sample.this_morning eq_refl eq_refl
             eq_refl).
  - exact (hr_date_order Sample.this_morning Sample.monday eq_refl eq_refl
             eq_refl).
Defined.

(** ** The corrections the script makes with [--overwrite] *)

(** X27: when the script was started with [--overwrite], so that
    [args.overwrite] is true, [arrive] on a log whose last entry is open
    moves the start of that entry to the time the clock reads at that
    moment (the fifth reading of the run); its day, the entries before it
    and their number stay, and the entry is still open. *)
Theorem arrive_overwrite_moves_the_start a init e ov dr hpd p it w :
  overwrite a = true ->
  clock_valid w ->
  log_ok (init ++ [e])%list = true ->
  is_unfinished e = true ->
  exists e' w',
    run (mkGlobals (Some a)) "arrive" (Some (init ++ [e])%list) ov dr hpd p it w
    = (Ok (RetEntries (init ++ [e'])%list), w')
    /\ objs w' = (init ++ [e'])%list
    /\ date_base e' = date_base e
    /\ time_start e' = dt_time (clock w (tick w + 4))
    /\ is_unfinished e' = true
    /\ length (init ++ [e'])%list = length (init ++ [e])%list.
Proof.
  intros O V L U.
  rewrite (run_dispatch _ _ _ e _ _ _ _ _ _ V L (last_of_app _ _)).
  cbn [String.eqb Ascii.eqb Bool.eqb].
  rewrite (run_arrive_open_overwrite a p init e _ O
             (clock_valid_at_dispatch _ _ _ _ V) U).
  cbn zeta. rewrite clock_at_dispatch, tick_at_dispatch.
  eexists. eexists. split; [reflexivity|].
  split; [destruct p; reflexivity|].
  split; [reflexivity|]. split; [reflexivity|]. split; [exact U|].
  rewrite !length_app. reflexivity.
Qed.

Lemma arrive_overwrite_moves_the_start_witness :
  exists e' w',
    run (mkGlobals (Some Sample.cli_arrive_overwrite)) "arrive"
        (Some Sample.open_log) true false None false true Sample.world
    = (Ok (RetEntries [Sample.monday; e']), w')
    /\ objs w' = [Sample.monday; e']
    /\ date_base e' = mkdate 2024 3 5
    /\ time_start e' = mktime 9 0
    /\ is_unfinished e' = true
    /\ length [Sample.monday; e'] = 2%nat.
Proof.
  exact (arrive_overwrite_moves_the_start Sample.cli_arrive_overwrite
           [Sample.monday] Sample.this_morning true false None false true
           Sample.world eq_refl (fun k => eq_refl) eq_refl eq_refl).
Defined.

(** ** [arrive] on an open log when the script runs without [--overwrite] *)

(** X28: when the script was started without [--overwrite], so that
    [args.overwrite] is false, [arrive] on a log whose last entry is
    unfinished declines, whatever the parameter [overwrite] of [run]: it
    changes no entry and no file, returns [None] instead of the log and,
    unless the output is silenced, prints the message of line 159. *)
Theorem arrive_open_without_overwrite a init e ov dr hpd p it w :
  overwrite a = false ->
  clock_valid w ->
  log_ok (init ++ [e])%list = true ->
  is_unfinished e = true ->
  exists w',
    run (mkGlobals (Some a)) "arrive" (Some (init ++ [e])%list) ov dr hpd p it w
    = (Ok RetNone, w')
    /\ objs w' = (init ++ [e])%list
    /\ files w' = files w
    /\ stdout w'
       = (stdout w
          ++ (if p then []
              else [greeting w e;
                    unfinished_conflict]))%list.
Proof.
  intros O V L U.
  rewrite (run_dispatch _ _ _ e _ _ _ _ _ _ V L (last_of_app _ _)).
  cbn [String.eqb Ascii.eqb Bool.eqb].
  rewrite (run_arrive_open_conflict a p _ e _ O U).
  eexists. split; [reflexivity|].
  unfold at_dispatch, said. destruct p; cbn.
  - rewrite app_nil_r. repeat split.
  - rewrite <- app_assoc. repeat split.
Qed.

Lemma arrive_open_without_overwrite_witness :
  exists w',
    run (mkGlobals (Some Sample.cli_arrive)) "arrive" (Some Sample.open_log)
        false false None false true Sample.world = (Ok RetNone, w')
    /\ objs w' = Sample.open_log
    /\ files w' = []
    /\ stdout w'
       = ["Last entry is today.";
          unfinished_conflict].
Proof.
  exact (arrive_open_without_overwrite Sample.cli_arrive [Sample.monday]
           Sample.this_morning false false None false true Sample.world
           eq_refl (fun k => eq_refl) eq_refl eq_refl).
Defined.
